(** * dpctl.tensor take / put: the host-side orchestrators

    A shallow embedding of
    [dpctl/tensor/libtensor/source/integer_advanced_indexing.cpp]:
    [parse_py_ind], [_populate_kernel_params], [usm_ndarray_take],
    [usm_ndarray_put] and [init_advanced_indexing_dispatch_tables].

    The C++ functions validate their arguments, allocate device scratch
    memory, submit copies and a kernel to a SYCL queue and return a pair of
    events.  Here the queue is an explicit state that records every
    allocation and submission in program order; exceptions are an explicit
    outcome.  Collaborators that live in other headers (queue
    compatibility, memory overlap, the type registry, the addressable
    extent of a view, the kernel factories) are the fields of the class
    [Collaborators]; the writability and capacity validators follow the
    specification.

    The index sequence of a call is the list of the arrays it holds, and
    the sum [axis_start + k] of the range check of the axes is the sum in
    Z; statements that depend on that check assume that the sum fits an
    [int] ([int_sum_fits]).

    The last part embeds [cstring_from_string] of
    [dpctl_string_utils.hpp]. *)

From Stdlib Require Import ZArith String DecimalString List Bool Lia.
Import ListNotations.
Open Scope Z_scope.

(** ** Constants of the translation unit *)

Definition INDEXING_MODES : Z := 2.
Definition WRAP_MODE : Z := 0.
Definition CLIP_MODE : Z := 1.

(** [std::size_t] is 64 bits wide; unsigned arithmetic wraps. *)
Definition size_t_modulus : Z := 2 ^ 64.
Definition to_size_t (z : Z) : Z := z mod size_t_modulus.
Definition size_t_mul (a b : Z) : Z := (a * b) mod size_t_modulus.

(** [int] is 32 bits wide. *)
Definition INT_MAX : Z := 2147483647.

(** [std::to_string] on an [int]. *)
Definition to_string (z : Z) : string := NilZero.string_of_int (Z.to_int z).

(** ** Exceptions *)

(** The three exception classes thrown by this file carry their message.
    The validators of [utils/output_validation.hpp] and the type registry of
    [utils/type_dispatch.hpp] throw from code outside this file; their
    exceptions are named after the error taxonomy of the specification.
    [cast_error] is pybind11's [py::cast_error], thrown by the [py::cast] of
    [parse_py_ind]. *)
Inductive exn : Type :=
| value_error (msg : string)
| type_error (msg : string)
| runtime_error (msg : string)
| NotWritableError
| InsufficientCapacityError
| UnsupportedType
| cast_error.

(** ** Buffer descriptors *)

(** Modelled from the spec: the buffer descriptor [usm_ndarray] of
    [dpctl4pybind11.hpp], which is not among the sources: data pointer,
    element typenum, shape, strides, the writable flag and the queue it was
    allocated on.  Integers of the C++ code ([int], [py::ssize_t],
    pointers) are mathematical integers, and unsigned arithmetic wraps (see
    [size_t_mul]).  Signed arithmetic is exact as long as it stays within
    the type.  A call with [axis_start] close to [INT_MAX] pushes the sum
    [axis_start + k] of the range checks (lines 281 and 552), a sum of two
    [int]s, beyond it: the sum is embedded as the sum in Z, which is the
    sum of the code exactly when it is at most [INT_MAX] (see
    [int_sum_fits]). *)
Record usm_ndarray : Type := mk_usm_ndarray {
  get_data : Z;
  get_typenum : Z;
  get_shape_raw : list Z;
  get_strides_vector : list Z;
  is_writable : bool;
  get_queue : Z
}.

Definition get_ndim (a : usm_ndarray) : Z := Z.of_nat (length (get_shape_raw a)).

(** Modelled from the spec: [usm_ndarray::get_size] of
    [dpctl4pybind11.hpp], which is not among the sources: the element count
    of the view, the product of its extents. *)
Definition get_size (a : usm_ndarray) : Z := fold_left Z.mul (get_shape_raw a) 1.

(** Reading [p[i]] through a raw pointer to [py::ssize_t]. *)
Definition raw_at (p : list Z) (i : Z) : Z := nth (Z.to_nat i) p 0.

(** ** Events, device pointers and the recorded queue activity *)

(** [sycl::event{}] is the default-constructed, already complete event;
    every submission returns a fresh event. *)
Inductive event : Type :=
| default_event
| submitted_event (id : nat).

(** An entry of a dispatch table is a pointer to a compiled routine, or
    null. *)
Definition fn_ptr_t : Type := nat.

(** The fifteen arguments after [exec_q] of a take / put routine. *)
Record kernel_args : Type := mk_kernel_args {
  ka_orthog_nelems : Z;
  ka_ind_nelems : Z;
  ka_orthog_sh_elems : Z;
  ka_ind_sh_elems : Z;
  ka_k : Z;
  ka_packed_shapes_strides : nat;
  ka_packed_axes_shapes_strides : nat;
  ka_packed_ind_shapes_strides : nat;
  ka_first_data : Z;
  ka_second_data : Z;
  ka_packed_ind_ptrs : nat;
  ka_first_offset : Z;
  ka_second_offset : Z;
  ka_packed_ind_offsets : nat
}.

(** What the calling thread asks of the runtime, in program order. *)
Inductive action : Type :=
| usm_host_alloc (count : Z)
    (* std::make_shared<vector<T, usm_host_allocator<T>>>(count, allocator) *)
| smart_malloc_device (count : Z) (p : nat)
    (* alloc_utils::smart_malloc_device<T>(count, exec_q), owner of p *)
| queue_copy (payload : list Z) (dst : nat) (ev : nat)
    (* exec_q.copy<T>(host->data(), dst, host->size()) *)
| host_task (deps : list event) (ev : nat)
    (* exec_q.submit: depends_on(deps); host_task holding the host staging *)
| kernel_submit (fn : fn_ptr_t) (args : kernel_args) (deps : list event) (ev : nat)
    (* fn(exec_q, args..., deps) *)
| async_smart_free (deps : list event) (owners : list nat) (ev : nat)
    (* alloc_utils::async_smart_free(exec_q, deps, owners...) *)
| keep_args_alive (deps : list event) (ev : nat)
    (* dpctl::utils::keep_args_alive(exec_q, {python objects}, deps) *)
| event_wait (evs : list event).
    (* sycl::event::wait(evs): blocks the calling thread *)

Record queue_state : Type := mk_queue_state {
  next_event : nat;
  next_ptr : nat;
  submitted : list action
}.

Definition fresh_queue : queue_state := mk_queue_state 0 0 [].

(** ** The monad of the orchestrators: queue state and exceptions *)

Inductive outcome (A : Type) : Type :=
| returned (a : A)
| thrown (e : exn).
Arguments returned {A} a.
Arguments thrown {A} e.

Definition M (A : Type) : Type := queue_state -> outcome A * queue_state.

Definition ret {A} (a : A) : M A := fun s => (returned a, s).

Definition throw {A} (e : exn) : M A := fun s => (thrown e, s).

Definition bind {A B} (c : M A) (k : A -> M B) : M B :=
  fun s =>
    match c s with
    | (returned a, s') => k a s'
    | (thrown e, s') => (thrown e, s')
    end.

Declare Scope queue_scope.
Delimit Scope queue_scope with queue.
Notation "x <- c ;; k" := (bind c (fun x => k))
  (at level 100, c at next level, right associativity) : queue_scope.
Notation "' pat <- c ;; k" := (bind c (fun x => match x with pat => k end))
  (at level 100, pat pattern, c at next level, right associativity) : queue_scope.
Notation "c ;; k" := (bind c (fun _ => k))
  (at level 100, right associativity) : queue_scope.
Open Scope queue_scope.

(** [if (c) throw e;] *)
Definition throw_if (c : bool) (e : exn) : M unit :=
  if c then throw e else ret tt.

(** Lifting a lookup that may throw [e]. *)
Definition or_throw {A} (o : option A) (e : exn) : M A :=
  match o with Some a => ret a | None => throw e end.

Definition record (a : action) : M unit :=
  fun s =>
    match s with
    | mk_queue_state e p tr => (returned tt, mk_queue_state e p (tr ++ [a]))
    end.

Definition fresh_event : M nat :=
  fun s =>
    match s with
    | mk_queue_state e p tr => (returned e, mk_queue_state (S e) p tr)
    end.

Definition fresh_ptr : M nat :=
  fun s =>
    match s with
    | mk_queue_state e p tr => (returned p, mk_queue_state e (S p) tr)
    end.

(** The runtime calls used by this file. *)

(** A host staging vector of [count] value-initialised elements in USM host
    memory. *)
Definition make_shared_vector (count : Z) : M (list Z) :=
  record (usm_host_alloc count) ;;
  ret (repeat 0 (Z.to_nat count)).

Definition malloc_device (count : Z) : M nat :=
  p <- fresh_ptr ;;
  record (smart_malloc_device count p) ;;
  ret p.

Definition exec_q_copy (host : list Z) (dst : nat) : M event :=
  ev <- fresh_event ;;
  record (queue_copy host dst ev) ;;
  ret (submitted_event ev).

Definition submit_host_task (deps : list event) : M event :=
  ev <- fresh_event ;;
  record (host_task deps ev) ;;
  ret (submitted_event ev).

Definition call_kernel (fn : fn_ptr_t) (args : kernel_args) (deps : list event) : M event :=
  ev <- fresh_event ;;
  record (kernel_submit fn args deps ev) ;;
  ret (submitted_event ev).

Definition do_async_smart_free (deps : list event) (owners : list nat) : M event :=
  ev <- fresh_event ;;
  record (async_smart_free deps owners ev) ;;
  ret (submitted_event ev).

Definition do_keep_args_alive (deps : list event) : M event :=
  ev <- fresh_event ;;
  record (keep_args_alive deps ev) ;;
  ret (submitted_event ev).

Definition do_event_wait (evs : list event) : M unit :=
  record (event_wait evs).

(** ** Collaborators *)

(** The functions of other headers that the orchestrators call.
    - [queues_are_compatible q arrs]: [dpctl::utils::queues_are_compatible];
    - [overlap a b]: [dpctl::tensor::overlap::MemoryOverlap];
    - [typenum_to_lookup_id t]: the type registry; [None] when it throws for
      an unknown typenum;
    - [addressable_nelems a]: the number of elements addressable through
      the view [a], which [AmpleMemory] compares with the demand;
    - the four kernel factories, indexed by (data type id, index type id);
      [None] is the null pointer. *)
Class Collaborators : Type := {
  queues_are_compatible : Z -> list usm_ndarray -> bool;
  overlap : usm_ndarray -> usm_ndarray -> bool;
  typenum_to_lookup_id : Z -> option Z;
  addressable_nelems : usm_ndarray -> Z;
  TakeClipFactory : Z -> Z -> option fn_ptr_t;
  TakeWrapFactory : Z -> Z -> option fn_ptr_t;
  PutClipFactory : Z -> Z -> option fn_ptr_t;
  PutWrapFactory : Z -> Z -> option fn_ptr_t
}.

(** Modelled from the spec: [CheckWritable::throw_if_not_writable] of
    [utils/output_validation.hpp], which is not among the sources:
    the destination must be writable, else [NotWritableError]. *)
Definition throw_if_not_writable (a : usm_ndarray) : M unit :=
  throw_if (negb (is_writable a)) NotWritableError.

(** Modelled from the spec: [AmpleMemory::throw_if_not_ample] of
    [utils/output_validation.hpp], which is not among the sources:
    the destination's addressable element count must be at least the
    number of elements the operation will write, else
    [InsufficientCapacityError]. *)
Definition throw_if_not_ample `{Collaborators} (a : usm_ndarray) (nelems : Z) : M unit :=
  throw_if (addressable_nelems a <? nelems) InsufficientCapacityError.

Definition lookup_id `{Collaborators} (typenum : Z) : M Z :=
  or_throw (typenum_to_lookup_id typenum) UnsupportedType.

(** ** The static dispatch tables *)

(** [table[mode][type id][type id]]; the C++ arrays have [INDEXING_MODES]
    rows, [WRAP_MODE] and [CLIP_MODE]. *)
Definition dispatch_table : Type := Z -> Z -> Z -> option fn_ptr_t.

Record dispatch_tables : Type := mk_dispatch_tables {
  take_dispatch_table : dispatch_table;
  put_dispatch_table : dispatch_table
}.

(** Static storage is zero-initialised: every entry is null. *)
Definition static_tables : dispatch_tables :=
  mk_dispatch_tables (fun _ _ _ => None) (fun _ _ _ => None).

(** [dtb.populate_dispatch_table(table[mode])]: row [mode] becomes the
    factory's output for each pair of type ids. *)
Definition populate_dispatch_table (factory : Z -> Z -> option fn_ptr_t)
    (table : dispatch_table) (mode : Z) : dispatch_table :=
  fun m => if m =? mode then factory else table m.

Definition init_advanced_indexing_dispatch_tables `{Collaborators}
    (t : dispatch_tables) : dispatch_tables :=
  let take1 := populate_dispatch_table TakeClipFactory (take_dispatch_table t) CLIP_MODE in
  let take2 := populate_dispatch_table TakeWrapFactory take1 WRAP_MODE in
  let put1 := populate_dispatch_table PutClipFactory (put_dispatch_table t) CLIP_MODE in
  let put2 := populate_dispatch_table PutWrapFactory put1 WRAP_MODE in
  mk_dispatch_tables take2 put2.

(** ** Host vectors *)

(** [std::copy(first, last, out)] with [out = dst.begin() + pos]: the
    elements of [src] overwrite [dst] from position [pos]; the length of
    [dst] does not change (the C++ code never writes past the end). *)
Definition std_copy (src dst : list Z) (pos : Z) : list Z :=
  let p := Z.to_nat pos in
  firstn (length dst) (firstn p dst ++ src ++ skipn (p + length src) dst).

(** The range [[p + first, p + last)]. *)
Definition range_of (p : list Z) (first last : Z) : list Z :=
  firstn (Z.to_nat (last - first)) (skipn (Z.to_nat first) p).

(** The values of [i] in [for (int i = 0; i < n; ++i)]. *)
Definition int_range (n : Z) : list Z := map Z.of_nat (seq 0 (Z.to_nat n)).

(** [std::vector<py::ssize_t> v(count, 0)]. *)
Definition zero_vector (count : Z) : list Z := repeat 0 (Z.to_nat count).

(** ** [_populate_kernel_params] *)

(** Stages the per-call metadata in host vectors, copies them to the five
    device allocations and submits the host task that keeps the staging
    alive.  [host_task_events] is the vector passed by reference; the
    function returns the packing events and the updated vector. *)
Definition _populate_kernel_params
    (host_task_events : list event)
    (device_ind_ptrs device_ind_sh_st device_ind_offsets
     device_orthog_sh_st device_along_sh_st : nat)
    (inp_shape arr_shape inp_strides arr_strides ind_sh_sts ind_ptrs ind_offsets : list Z)
    (axis_start k ind_nd inp_nd orthog_sh_elems ind_sh_elems : Z)
    : M (list event * list event) :=
  host_ind_ptrs <- make_shared_vector k ;;
  host_ind_sh_st <- make_shared_vector (ind_sh_elems * (k + 1)) ;;
  host_ind_offsets <- make_shared_vector k ;;
  host_orthog_sh_st <- make_shared_vector (3 * orthog_sh_elems) ;;
  host_along_sh_st <- make_shared_vector (2 * (k + ind_sh_elems)) ;;
  let host_ind_sh_st := std_copy ind_sh_sts host_ind_sh_st 0 in
  let host_ind_ptrs := std_copy ind_ptrs host_ind_ptrs 0 in
  let host_ind_offsets := std_copy ind_offsets host_ind_offsets 0 in
  device_ind_ptrs_copy_ev <- exec_q_copy host_ind_ptrs device_ind_ptrs ;;
  device_ind_sh_st_copy_ev <- exec_q_copy host_ind_sh_st device_ind_sh_st ;;
  device_ind_offsets_copy_ev <- exec_q_copy host_ind_offsets device_ind_offsets ;;
  let orthog_nd := inp_nd - k in
  let host_orthog_sh_st :=
    if orthog_nd >? 0 then
      let h :=
        if axis_start >? 0 then
          let h1 := std_copy (range_of inp_shape 0 axis_start) host_orthog_sh_st 0 in
          let h2 := std_copy (range_of inp_strides 0 axis_start) h1 orthog_sh_elems in
          std_copy (range_of arr_strides 0 axis_start) h2 (2 * orthog_sh_elems)
        else host_orthog_sh_st in
      if inp_nd >? axis_start + k then
        let h1 := std_copy (range_of inp_shape (axis_start + k) inp_nd) h axis_start in
        let h2 := std_copy (skipn (Z.to_nat (axis_start + k)) inp_strides) h1
                    (orthog_sh_elems + axis_start) in
        std_copy (skipn (Z.to_nat (axis_start + ind_nd)) arr_strides) h2
          (2 * orthog_sh_elems + axis_start)
      else h
    else host_orthog_sh_st in
  let host_along_sh_st :=
    if inp_nd >? 0 then
      let h1 := std_copy (range_of inp_shape axis_start (axis_start + k)) host_along_sh_st 0 in
      std_copy (range_of inp_strides axis_start (axis_start + k)) h1 k
    else host_along_sh_st in
  let host_along_sh_st :=
    if ind_nd >? 0 then
      let h1 := std_copy (range_of arr_shape axis_start (axis_start + ind_nd))
                  host_along_sh_st (2 * k) in
      std_copy (range_of arr_strides axis_start (axis_start + ind_nd)) h1 (2 * k + ind_nd)
    else host_along_sh_st in
  device_orthog_sh_st_copy_ev <- exec_q_copy host_orthog_sh_st device_orthog_sh_st ;;
  device_along_sh_st_copy_ev <- exec_q_copy host_along_sh_st device_along_sh_st ;;
  shared_ptr_cleanup_ev <-
    submit_host_task [device_along_sh_st_copy_ev; device_orthog_sh_st_copy_ev;
                      device_ind_offsets_copy_ev; device_ind_sh_st_copy_ev;
                      device_ind_ptrs_copy_ev] ;;
  let host_task_events := host_task_events ++ [shared_ptr_cleanup_ev] in
  let sh_st_pack_deps :=
    [device_ind_ptrs_copy_ev; device_ind_sh_st_copy_ev; device_ind_offsets_copy_ev;
     device_orthog_sh_st_copy_ev; device_along_sh_st_copy_ev] in
  ret (sh_st_pack_deps, host_task_events).

(** ** [parse_py_ind] *)

(** An item of the Python sequence [py_ind]: an [usm_ndarray], or an object
    of another type. *)
Inductive py_object : Type :=
| py_usm_ndarray (a : usm_ndarray)
| py_other.

(** [py::cast<dpctl::tensor::usm_ndarray>(el_i)] (lines 223-225): the array
    behind the object, or [py::cast_error]. *)
Definition py_cast (el_i : py_object) : M usm_ndarray :=
  match el_i with
  | py_usm_ndarray a => ret a
  | py_other => throw cast_error
  end.

Module PySequence.

(** [parse_py_ind] (lines 213-244) on a sequence of Python objects, given
    as the list of its items: in the loop each item is cast, then its queue
    and its rank are checked. *)
Fixpoint parse_py_ind_loop `{Collaborators} (q : Z) (py_ind : list py_object)
    (nd_is_known : bool) (nd : Z) (res : list usm_ndarray) : M (list usm_ndarray) :=
  match py_ind with
  | [] => ret res
  | el_i :: rest =>
      arr_i <- py_cast el_i ;;
      throw_if (negb (queues_are_compatible q [arr_i]))
        (value_error "Index allocation queue is not compatible with execution queue") ;;
      nd' <- (if nd_is_known
              then throw_if (negb (nd =? get_ndim arr_i))
                     (value_error "Indices must have the same number of dimensions.") ;;
                   ret nd
              else ret (get_ndim arr_i)) ;;
      parse_py_ind_loop q rest true nd' (res ++ [arr_i])
  end.

Definition parse_py_ind `{Collaborators} (q : Z) (py_ind : list py_object)
    : M (list usm_ndarray) :=
  parse_py_ind_loop q py_ind false (-1) [].

End PySequence.

(** [parse_py_ind] on a sequence whose items are all arrays, given as the
    list of these arrays: every cast of lines 223-225 succeeds and gives the
    item, so that the loop is the one of [PySequence.parse_py_ind] without
    the casts.  The orchestrators are embedded on such sequences; on a
    sequence that holds another object their first statement, the call of
    [parse_py_ind], throws the cast error. *)
Fixpoint parse_py_ind_loop `{Collaborators} (q : Z) (py_ind : list usm_ndarray)
    (nd_is_known : bool) (nd : Z) (res : list usm_ndarray) : M (list usm_ndarray) :=
  match py_ind with
  | [] => ret res
  | arr_i :: rest =>
      throw_if (negb (queues_are_compatible q [arr_i]))
        (value_error "Index allocation queue is not compatible with execution queue") ;;
      nd' <- (if nd_is_known
              then throw_if (negb (nd =? get_ndim arr_i))
                     (value_error "Indices must have the same number of dimensions.") ;;
                   ret nd
              else ret (get_ndim arr_i)) ;;
      parse_py_ind_loop q rest true nd' (res ++ [arr_i])
  end.

Definition parse_py_ind `{Collaborators} (q : Z) (py_ind : list usm_ndarray)
    : M (list usm_ndarray) :=
  parse_py_ind_loop q py_ind false (-1) [].

(** ** The loops shared by take and put *)

(** The loop over the orthogonal axes: the running product of the extents
    of the indexed array (in [std::size_t]) and whether they agree with the
    other array's. *)
Definition orthog_loop (shape1 shape2 : list Z) (axis_start k ind_nd nd : Z) : Z * bool :=
  fold_left
    (fun (acc : Z * bool) (i : Z) =>
       let idx1 := if i <? axis_start then i else i + k in
       let idx2 := if i <? axis_start then i else i + ind_nd in
       (size_t_mul (fst acc) (to_size_t (raw_at shape1 idx1)),
        snd acc && (raw_at shape1 idx1 =? raw_at shape2 idx2)))
    (int_range (nd - k)) (1, true).

(** The loop over the axes of the first index array: the running product of
    its extents, throwing [e] at the first extent that differs from the
    extent of [arr_shape] at [axis_start + i]. *)
Fixpoint ind_shape_loop (ind_shape arr_shape : list Z) (axis_start : Z) (e : exn)
    (dims : list Z) (ind_nelems : Z) : M Z :=
  match dims with
  | [] => ret ind_nelems
  | i :: rest =>
      let ind_nelems := size_t_mul ind_nelems (to_size_t (raw_at ind_shape i)) in
      throw_if (negb (raw_at ind_shape i =? raw_at arr_shape (axis_start + i))) e ;;
      ind_shape_loop ind_shape arr_shape axis_start e rest ind_nelems
  end.

(** The inner loop comparing the shape of index array [i] with the first. *)
Definition ind_shapes_differ (ind_shape ind_shape_ : list Z) (ind_nd : Z) : bool :=
  existsb (fun dim => negb (raw_at ind_shape dim =? raw_at ind_shape_ dim)) (int_range ind_nd).

(** The loop over the index arrays; [overlaps_dst ind_] is the overlap test
    against the destination. *)
Fixpoint ind_arrays_loop `{Collaborators} (exec_q : Z) (overlaps_dst : usm_ndarray -> bool)
    (ind_nd ind_type_id : Z) (ind_shape : list Z)
    (i : Z) (ind : list usm_ndarray) (ind_sh_sts ind_ptrs ind_offsets : list Z)
    : M (list Z * list Z * list Z) :=
  match ind with
  | [] => ret (ind_sh_sts, ind_ptrs, ind_offsets)
  | ind_ :: rest =>
      throw_if (negb (queues_are_compatible exec_q [ind_]))
        (value_error "Execution queue is not compatible with allocation queues") ;;
      (if i >? 0 then
         throw_if (negb (get_ndim ind_ =? ind_nd))
           (value_error "Index dimensions are not the same") ;;
         id_ <- lookup_id (get_typenum ind_) ;;
         throw_if (negb (ind_type_id =? id_))
           (type_error "Indices array data types are not all the same.") ;;
         throw_if (ind_shapes_differ ind_shape (get_shape_raw ind_) ind_nd)
           (value_error "Indices shapes are not all equal.")
       else ret tt) ;;
      throw_if (overlaps_dst ind_)
        (value_error "Arrays index overlapping segments of memory") ;;
      let ind_data := get_data ind_ in
      let ind_sh_sts :=
        if ind_nd >? 0
        then std_copy (get_strides_vector ind_) ind_sh_sts ((i + 1) * ind_nd)
        else ind_sh_sts in
      ind_arrays_loop exec_q overlaps_dst ind_nd ind_type_id ind_shape (i + 1) rest
        ind_sh_sts (ind_ptrs ++ [ind_data]) (ind_offsets ++ [0])
  end.

(** [ind[0]] when the vector is empty is never read: [k == 0] throws
    first. *)
Definition null_array : usm_ndarray := mk_usm_ndarray 0 0 [] [] false 0.

(** Allocation of the five scratch buffers, packing, dispatch and
    submission: the part after the last early return, which take (lines
    430-514) and put (lines 700-783) share word for word up to the names
    of the two arrays.  [table] is the dispatch table of the operation,
    [first] the indexed array ([src] of take, [dst] of put) and [second]
    the other one ([dst] of take, [val] of put). *)
Definition pack_and_submit (table : dispatch_table)
    (first second : usm_ndarray) (axis_start mode k ind_nd first_nd : Z)
    (orthog_nelems ind_nelems ind_sh_elems first_type_id ind_type_id : Z)
    (ind_sh_sts ind_ptrs ind_offsets : list Z) (depends : list event)
    : M (event * event) :=
  packed_ind_ptrs <- malloc_device k ;;
  packed_ind_shapes_strides <- malloc_device ((k + 1) * ind_sh_elems) ;;
  packed_ind_offsets <- malloc_device k ;;
  let orthog_sh_elems := Z.max (first_nd - k) 1 in
  packed_shapes_strides <- malloc_device (3 * orthog_sh_elems) ;;
  packed_axes_shapes_strides <- malloc_device (2 * (k + ind_sh_elems)) ;;
  let first_strides := get_strides_vector first in
  let second_strides := get_strides_vector second in
  r <- _populate_kernel_params [] packed_ind_ptrs packed_ind_shapes_strides
         packed_ind_offsets packed_shapes_strides packed_axes_shapes_strides
         (get_shape_raw first) (get_shape_raw second) first_strides second_strides
         ind_sh_sts ind_ptrs ind_offsets
         axis_start k ind_nd first_nd orthog_sh_elems ind_sh_elems ;;
  let pack_deps := fst r in
  let host_task_events := snd r in
  let all_deps := pack_deps ++ depends in
  match table mode first_type_id ind_type_id with
  | None =>
      do_event_wait host_task_events ;;
      throw (runtime_error ("Indices must be integer type, got " ++ to_string ind_type_id))
  | Some fn =>
      generic_ev <-
        call_kernel fn
          (mk_kernel_args orthog_nelems ind_nelems orthog_sh_elems ind_sh_elems k
             packed_shapes_strides packed_axes_shapes_strides packed_ind_shapes_strides
             (get_data first) (get_data second) packed_ind_ptrs 0 0 packed_ind_offsets)
          all_deps ;;
      temporaries_cleanup_ev <-
        do_async_smart_free [generic_ev]
          [packed_shapes_strides; packed_axes_shapes_strides;
           packed_ind_shapes_strides; packed_ind_ptrs; packed_ind_offsets] ;;
      let host_task_events := host_task_events ++ [temporaries_cleanup_ev] in
      arg_cleanup_ev <- do_keep_args_alive host_task_events ;;
      ret (arg_cleanup_ev, generic_ev)
  end.

(** ** [usm_ndarray_take] *)

(** [py_ind] is the list of the arrays of the index sequence (see
    [parse_py_ind]); the sum [axis_start + k] of line 281 is the sum in Z
    (see [int_sum_fits]). *)
Definition usm_ndarray_take `{Collaborators} (tables : dispatch_tables)
    (src : usm_ndarray) (py_ind : list usm_ndarray) (dst : usm_ndarray)
    (axis_start : Z) (mode : Z) (exec_q : Z) (depends : list event)
    : M (event * event) :=
  ind <- parse_py_ind exec_q py_ind ;;
  let k := Z.of_nat (length ind) in
  throw_if (k =? 0) (value_error "List of indices is empty.") ;;
  throw_if (axis_start <? 0) (value_error "Axis cannot be negative.") ;;
  throw_if (negb (mode =? 0) && negb (mode =? 1)) (value_error "Mode must be 0 or 1.") ;;
  throw_if_not_writable dst ;;
  let ind_rep := nth 0 ind null_array in
  let src_nd := get_ndim src in
  let dst_nd := get_ndim dst in
  let ind_nd := get_ndim ind_rep in
  let sh_elems := Z.max src_nd 1 in
  throw_if (axis_start + k >? sh_elems)
    (value_error ("Axes are out of range for array of dimension " ++ to_string src_nd)) ;;
  (if src_nd =? 0
   then throw_if (negb (dst_nd =? ind_nd))
          (value_error "Destination is not of appropriate dimension for take kernel.")
   else throw_if (negb (dst_nd =? src_nd - k + ind_nd))
          (value_error "Destination is not of appropriate dimension for take kernel.")) ;;
  let src_shape := get_shape_raw src in
  let dst_shape := get_shape_raw dst in
  let orthog := orthog_loop src_shape dst_shape axis_start k ind_nd src_nd in
  let orthog_nelems := fst orthog in
  let orthog_shapes_equal := snd orthog in
  throw_if (negb orthog_shapes_equal)
    (value_error "Axes of basic indices are not of matching shapes.") ;;
  if orthog_nelems =? 0 then ret (default_event, default_event) else
  throw_if (negb (queues_are_compatible exec_q [src; dst]))
    (value_error "Execution queue is not compatible with allocation queues") ;;
  throw_if (overlap src dst) (value_error "Array memory overlap.") ;;
  src_type_id <- lookup_id (get_typenum src) ;;
  dst_type_id <- lookup_id (get_typenum dst) ;;
  throw_if (negb (src_type_id =? dst_type_id))
    (type_error "Array data types are not the same.") ;;
  let ind_shape := get_shape_raw ind_rep in
  ind_type_id <- lookup_id (get_typenum ind_rep) ;;
  ind_nelems <-
    ind_shape_loop ind_shape dst_shape axis_start
      (value_error "Indices shape does not match shape of axis in destination.")
      (int_range ind_nd) 1 ;;
  throw_if_not_ample dst (size_t_mul orthog_nelems ind_nelems) ;;
  let ind_sh_elems := Z.max ind_nd 1 in
  let ind_sh_sts := zero_vector ((k + 1) * ind_sh_elems) in
  let ind_sh_sts :=
    if ind_nd >? 0 then std_copy (range_of ind_shape 0 ind_nd) ind_sh_sts 0
    else ind_sh_sts in
  packed <-
    ind_arrays_loop exec_q (fun ind_ => overlap dst ind_) ind_nd ind_type_id ind_shape
      0 ind ind_sh_sts [] [] ;;
  if ind_nelems =? 0 then ret (default_event, default_event) else
  pack_and_submit (take_dispatch_table tables) src dst axis_start mode k ind_nd src_nd
    orthog_nelems ind_nelems ind_sh_elems src_type_id ind_type_id
    (fst (fst packed)) (snd (fst packed)) (snd packed) depends.

(** ** [usm_ndarray_put] *)

(** As for take: [py_ind] is the list of the arrays of the index sequence,
    and the sum [axis_start + k] of line 552 is the sum in Z. *)
Definition usm_ndarray_put `{Collaborators} (tables : dispatch_tables)
    (dst : usm_ndarray) (py_ind : list usm_ndarray) (val : usm_ndarray)
    (axis_start : Z) (mode : Z) (exec_q : Z) (depends : list event)
    : M (event * event) :=
  ind <- parse_py_ind exec_q py_ind ;;
  let k := Z.of_nat (length ind) in
  throw_if (k =? 0) (value_error "List of indices is empty.") ;;
  throw_if (axis_start <? 0) (value_error "Axis cannot be negative.") ;;
  throw_if (negb (mode =? 0) && negb (mode =? 1)) (value_error "Mode must be 0 or 1.") ;;
  throw_if_not_writable dst ;;
  let ind_rep := nth 0 ind null_array in
  let dst_nd := get_ndim dst in
  let val_nd := get_ndim val in
  let ind_nd := get_ndim ind_rep in
  let sh_elems := Z.max dst_nd 1 in
  throw_if (axis_start + k >? sh_elems)
    (value_error ("Axes are out of range for array of dimension " ++ to_string dst_nd)) ;;
  (if dst_nd =? 0
   then throw_if (negb (val_nd =? ind_nd))
          (value_error "Destination is not of appropriate dimension for put function.")
   else throw_if (negb (val_nd =? dst_nd - k + ind_nd))
          (value_error "Destination is not of appropriate dimension for put function.")) ;;
  let dst_nelems := to_size_t (get_size dst) in
  let dst_shape := get_shape_raw dst in
  let val_shape := get_shape_raw val in
  let orthog := orthog_loop dst_shape val_shape axis_start k ind_nd dst_nd in
  let orthog_nelems := fst orthog in
  let orthog_shapes_equal := snd orthog in
  throw_if (negb orthog_shapes_equal)
    (value_error "Axes of basic indices are not of matching shapes.") ;;
  if orthog_nelems =? 0 then ret (default_event, default_event) else
  throw_if (negb (queues_are_compatible exec_q [dst; val]))
    (value_error "Execution queue is not compatible with allocation queues") ;;
  throw_if (overlap val dst) (value_error "Arrays index overlapping segments of memory") ;;
  throw_if_not_ample dst dst_nelems ;;
  dst_type_id <- lookup_id (get_typenum dst) ;;
  val_type_id <- lookup_id (get_typenum val) ;;
  throw_if (negb (dst_type_id =? val_type_id))
    (type_error "Array data types are not the same.") ;;
  let ind_shape := get_shape_raw ind_rep in
  ind_type_id <- lookup_id (get_typenum ind_rep) ;;
  ind_nelems <-
    ind_shape_loop ind_shape val_shape axis_start
      (value_error "Indices shapes does not match shape of axis in vals.")
      (int_range ind_nd) 1 ;;
  let ind_sh_elems := Z.max ind_nd 1 in
  let ind_sh_sts := zero_vector ((k + 1) * ind_sh_elems) in
  let ind_sh_sts :=
    if ind_nd >? 0 then std_copy (range_of ind_shape 0 ind_sh_elems) ind_sh_sts 0
    else ind_sh_sts in
  packed <-
    ind_arrays_loop exec_q (fun ind_ => overlap ind_ dst) ind_nd ind_type_id ind_shape
      0 ind ind_sh_sts [] [] ;;
  if ind_nelems =? 0 then ret (default_event, default_event) else
  pack_and_submit (put_dispatch_table tables) dst val axis_start mode k ind_nd dst_nd
    orthog_nelems ind_nelems ind_sh_elems dst_type_id ind_type_id
    (fst (fst packed)) (snd (fst packed)) (snd packed) depends.

(** Running an orchestrator on a queue with nothing submitted yet. *)
Definition run {A} (c : M A) : outcome A * list action :=
  let r := c fresh_queue in (fst r, submitted (snd r)).

(** ** Vocabulary of the specification *)

(** The extents of the axes not touched by the [k] index arrays placed at
    [axis_start]. *)
Definition orthogonal_extents (shape : list Z) (axis_start k : Z) : list Z :=
  firstn (Z.to_nat axis_start) shape ++ skipn (Z.to_nat (axis_start + k)) shape.

(** The product of a list of extents, as a mathematical integer and as the
    C++ loops accumulate it in [std::size_t]. *)
Definition list_prod (l : list Z) : Z := fold_right Z.mul 1 l.

Definition size_t_prod (l : list Z) : Z :=
  fold_left (fun acc x => size_t_mul acc (to_size_t x)) l 1.

(** The index list survives [parse_py_ind]: every array is on a queue
    compatible with the executing one and has the rank of the first. *)
Definition index_list_ok `{Collaborators} (exec_q : Z) (py_ind : list usm_ndarray) : Prop :=
  Forall (fun a => queues_are_compatible exec_q [a] = true) py_ind /\
  Forall (fun a => get_ndim a = get_ndim (nth 0 py_ind null_array)) py_ind.

(** The scalar arguments survive the checks made right after parsing. *)
Definition scalar_arguments_ok (py_ind : list usm_ndarray) (axis_start mode : Z) : Prop :=
  py_ind <> [] /\ 0 <= axis_start /\ (mode = 0 \/ mode = 1).

(** The rank the other array must have, given the rank [nd] of the indexed
    array, [k] index arrays and their rank [ind_nd]. *)
Definition derived_rank (nd k ind_nd : Z) : Z :=
  if nd =? 0 then ind_nd else nd - k + ind_nd.

(** The sum [axis_start + k] of the range check fits an [int]: the sum that
    the code computes is then the sum in Z that [axes_in_range] compares.
    Beyond, the sum of the two [int]s overflows and the check of the code
    is not the comparison of [axes_in_range]. *)
Definition int_sum_fits (py_ind : list usm_ndarray) (axis_start : Z) : Prop :=
  axis_start + Z.of_nat (length py_ind) <= INT_MAX.

(** The rank and shape checks on the indexed array [first] ([src] of take,
    [dst] of put) and the other array [second].  [axes_in_range] is the
    range check of lines 281 and 552 with the sum in Z. *)
Definition axes_in_range (first : usm_ndarray) (py_ind : list usm_ndarray) (axis_start : Z) : bool :=
  axis_start + Z.of_nat (length py_ind) <=? Z.max (get_ndim first) 1.

Definition rank_agrees (first second : usm_ndarray) (py_ind : list usm_ndarray) : bool :=
  get_ndim second =?
  derived_rank (get_ndim first) (Z.of_nat (length py_ind))
    (get_ndim (nth 0 py_ind null_array)).

Definition orthogonal_shapes_agree (first second : usm_ndarray)
    (py_ind : list usm_ndarray) (axis_start : Z) : bool :=
  snd (orthog_loop (get_shape_raw first) (get_shape_raw second) axis_start
         (Z.of_nat (length py_ind)) (get_ndim (nth 0 py_ind null_array)) (get_ndim first)).

Definition rank_and_shape_ok (first second : usm_ndarray)
    (py_ind : list usm_ndarray) (axis_start : Z) : bool :=
  axes_in_range first py_ind axis_start && rank_agrees first second py_ind &&
  orthogonal_shapes_agree first second py_ind axis_start.

(** [orthog_nelems] as the code computes it. *)
Definition orthog_nelems_of (first second : usm_ndarray)
    (py_ind : list usm_ndarray) (axis_start : Z) : Z :=
  fst (orthog_loop (get_shape_raw first) (get_shape_raw second) axis_start
         (Z.of_nat (length py_ind)) (get_ndim (nth 0 py_ind null_array)) (get_ndim first)).

(** The extents of the first index array agree with the extents of [arr]
    from [axis_start] on. *)
Definition index_shape_fits (py_ind : list usm_ndarray) (arr : usm_ndarray) (axis_start : Z) : Prop :=
  forall i, 0 <= i < get_ndim (nth 0 py_ind null_array) ->
    raw_at (get_shape_raw (nth 0 py_ind null_array)) i =
    raw_at (get_shape_raw arr) (axis_start + i).

(** What the loop over the index arrays checks of an array that is not the
    first one. *)
Definition agrees_with_first `{Collaborators} (ind_nd ind_type_id : Z) (ind_shape : list Z)
    (ind_ : usm_ndarray) : Prop :=
  get_ndim ind_ = ind_nd /\
  typenum_to_lookup_id (get_typenum ind_) = Some ind_type_id /\
  ind_shapes_differ ind_shape (get_shape_raw ind_) ind_nd = false.

(** The element count of the index arrays, as the code accumulates it. *)
Definition index_nelems (py_ind : list usm_ndarray) : Z :=
  size_t_prod (get_shape_raw (nth 0 py_ind null_array)).

(** ** The two orchestrators side by side *)

(** Both functions take the indexed array first ([src] of take, [dst] of
    put), then the index list, then the other array ([dst] of take, [val]
    of put). *)
Inductive operation : Type := Take | Put.

Definition orchestrate `{Collaborators} (op : operation) (tables : dispatch_tables)
    (first : usm_ndarray) (py_ind : list usm_ndarray) (second : usm_ndarray)
    (axis_start mode exec_q : Z) (depends : list event) : M (event * event) :=
  match op with
  | Take => usm_ndarray_take tables first py_ind second axis_start mode exec_q depends
  | Put => usm_ndarray_put tables first py_ind second axis_start mode exec_q depends
  end.

Definition table_of (op : operation) (tables : dispatch_tables) : dispatch_table :=
  match op with
  | Take => take_dispatch_table tables
  | Put => put_dispatch_table tables
  end.

Definition rank_message (op : operation) : string :=
  match op with
  | Take => "Destination is not of appropriate dimension for take kernel."
  | Put => "Destination is not of appropriate dimension for put function."
  end.

Definition overlap_message (op : operation) : string :=
  match op with
  | Take => "Array memory overlap."
  | Put => "Arrays index overlapping segments of memory"
  end.

Definition index_shape_message (op : operation) : string :=
  match op with
  | Take => "Indices shape does not match shape of axis in destination."
  | Put => "Indices shapes does not match shape of axis in vals."
  end.

Section Stages.
Context `{C : Collaborators}.
Variables (op : operation) (tables : dispatch_tables) (exec_q : Z).
Variables (first : usm_ndarray) (py_ind : list usm_ndarray) (second : usm_ndarray).
Variables (axis_start mode : Z) (depends : list event).

(** The array that is written. *)
Definition destination : usm_ndarray :=
  match op with Take => second | Put => first end.

(** The overlap tests, with the arguments in the order of each call. *)
Definition buffers_overlap : bool :=
  match op with Take => overlap first second | Put => overlap second first end.

Definition index_overlaps (ind_ : usm_ndarray) : bool :=
  match op with Take => overlap second ind_ | Put => overlap ind_ first end.

(** The element count handed to the capacity check. *)
Definition capacity_demand : Z :=
  match op with
  | Take => size_t_mul (orthog_nelems_of first second py_ind axis_start) (index_nelems py_ind)
  | Put => to_size_t (get_size first)
  end.

(** The stages of validation, each including the ones before it. *)
Definition arguments_pass : Prop :=
  index_list_ok exec_q py_ind /\ scalar_arguments_ok py_ind axis_start mode.

Definition geometry_passes : Prop :=
  arguments_pass /\ is_writable destination = true /\
  rank_and_shape_ok first second py_ind axis_start = true.

Definition buffers_pass : Prop :=
  geometry_passes /\
  orthog_nelems_of first second py_ind axis_start <> 0 /\
  queues_are_compatible exec_q [first; second] = true /\
  buffers_overlap = false.

Definition capacity_passes : Prop :=
  capacity_demand <= addressable_nelems destination.

Definition types_pass (first_type_id ind_type_id : Z) : Prop :=
  typenum_to_lookup_id (get_typenum first) = Some first_type_id /\
  typenum_to_lookup_id (get_typenum second) = Some first_type_id /\
  typenum_to_lookup_id (get_typenum (nth 0 py_ind null_array)) = Some ind_type_id /\
  index_shape_fits py_ind second axis_start.

Definition index_arrays_pass (ind_type_id : Z) : Prop :=
  Forall (agrees_with_first (get_ndim (nth 0 py_ind null_array)) ind_type_id
            (get_shape_raw (nth 0 py_ind null_array))) (tl py_ind) /\
  Forall (fun ind_ => index_overlaps ind_ = false) py_ind.

(** Take checks the types and the index shape before the capacity; put
    checks the capacity first. *)
Definition before_types : Prop :=
  buffers_pass /\ (op = Put -> capacity_passes).

Definition before_capacity : Prop :=
  buffers_pass /\ (op = Take -> exists t i, types_pass t i).

Definition validated (first_type_id ind_type_id : Z) : Prop :=
  buffers_pass /\ types_pass first_type_id ind_type_id /\ capacity_passes /\
  index_arrays_pass ind_type_id.

(** The loop over the index arrays throws [e]. *)
Definition index_arrays_throw (ind_type_id : Z) (e : exn) : Prop :=
  exists sh,
    fst (ind_arrays_loop exec_q index_overlaps (get_ndim (nth 0 py_ind null_array))
           ind_type_id (get_shape_raw (nth 0 py_ind null_array)) 0 py_ind sh [] []
           fresh_queue) = thrown e.

(** Every way out of an orchestrator started on a fresh queue, in the
    order of the code: the checks that passed, the one that did not, and
    the result with the state of the queue. *)
Inductive exits : outcome (event * event) * queue_state -> Prop :=
| exit_index_list msg :
    ~ index_list_ok exec_q py_ind ->
    exits (thrown (value_error msg), fresh_queue)
| exit_empty :
    index_list_ok exec_q py_ind -> py_ind = [] ->
    exits (thrown (value_error "List of indices is empty."), fresh_queue)
| exit_axis :
    index_list_ok exec_q py_ind -> py_ind <> [] -> axis_start < 0 ->
    exits (thrown (value_error "Axis cannot be negative."), fresh_queue)
| exit_mode :
    index_list_ok exec_q py_ind -> py_ind <> [] -> 0 <= axis_start ->
    mode <> 0 -> mode <> 1 ->
    exits (thrown (value_error "Mode must be 0 or 1."), fresh_queue)
| exit_writable :
    arguments_pass -> is_writable destination = false ->
    exits (thrown NotWritableError, fresh_queue)
| exit_axes :
    arguments_pass -> is_writable destination = true ->
    axes_in_range first py_ind axis_start = false ->
    exits (thrown (value_error ("Axes are out of range for array of dimension " ++
                                to_string (get_ndim first))), fresh_queue)
| exit_rank :
    arguments_pass -> is_writable destination = true ->
    axes_in_range first py_ind axis_start = true ->
    rank_agrees first second py_ind = false ->
    exits (thrown (value_error (rank_message op)), fresh_queue)
| exit_orthogonal_shape :
    arguments_pass -> is_writable destination = true ->
    axes_in_range first py_ind axis_start = true ->
    rank_agrees first second py_ind = true ->
    orthogonal_shapes_agree first second py_ind axis_start = false ->
    exits (thrown (value_error "Axes of basic indices are not of matching shapes."),
           fresh_queue)
| exit_no_orthogonal :
    geometry_passes -> orthog_nelems_of first second py_ind axis_start = 0 ->
    exits (returned (default_event, default_event), fresh_queue)
| exit_queues :
    geometry_passes -> orthog_nelems_of first second py_ind axis_start <> 0 ->
    queues_are_compatible exec_q [first; second] = false ->
    exits (thrown (value_error "Execution queue is not compatible with allocation queues"),
           fresh_queue)
| exit_overlap :
    geometry_passes -> orthog_nelems_of first second py_ind axis_start <> 0 ->
    queues_are_compatible exec_q [first; second] = true ->
    buffers_overlap = true ->
    exits (thrown (value_error (overlap_message op)), fresh_queue)
| exit_first_type :
    before_types ->
    typenum_to_lookup_id (get_typenum first) = None ->
    exits (thrown UnsupportedType, fresh_queue)
| exit_second_type t :
    before_types ->
    typenum_to_lookup_id (get_typenum first) = Some t ->
    typenum_to_lookup_id (get_typenum second) = None ->
    exits (thrown UnsupportedType, fresh_queue)
| exit_types t t' :
    before_types ->
    typenum_to_lookup_id (get_typenum first) = Some t ->
    typenum_to_lookup_id (get_typenum second) = Some t' ->
    t <> t' ->
    exits (thrown (type_error "Array data types are not the same."), fresh_queue)
| exit_index_type t :
    before_types ->
    typenum_to_lookup_id (get_typenum first) = Some t ->
    typenum_to_lookup_id (get_typenum second) = Some t ->
    typenum_to_lookup_id (get_typenum (nth 0 py_ind null_array)) = None ->
    exits (thrown UnsupportedType, fresh_queue)
| exit_index_shape t i :
    before_types ->
    typenum_to_lookup_id (get_typenum first) = Some t ->
    typenum_to_lookup_id (get_typenum second) = Some t ->
    typenum_to_lookup_id (get_typenum (nth 0 py_ind null_array)) = Some i ->
    ~ index_shape_fits py_ind second axis_start ->
    exits (thrown (value_error (index_shape_message op)), fresh_queue)
| exit_capacity :
    before_capacity ->
    addressable_nelems destination < capacity_demand ->
    exits (thrown InsufficientCapacityError, fresh_queue)
| exit_index_arrays t i e :
    buffers_pass -> types_pass t i -> capacity_passes ->
    index_arrays_throw i e ->
    exits (thrown e, fresh_queue)
| exit_no_indices t i :
    validated t i -> index_nelems py_ind = 0 ->
    exits (returned (default_event, default_event), fresh_queue)
| exit_submit t i sh ptrs offs :
    validated t i -> index_nelems py_ind <> 0 ->
    exits (pack_and_submit (table_of op tables) first second axis_start mode
             (Z.of_nat (length py_ind)) (get_ndim (nth 0 py_ind null_array))
             (get_ndim first)
             (orthog_nelems_of first second py_ind axis_start) (index_nelems py_ind)
             (Z.max (get_ndim (nth 0 py_ind null_array)) 1)
             t i sh ptrs offs depends fresh_queue).

End Stages.


(** The five scratch allocations and the staging of the metadata, as they
    appear on a queue with nothing submitted before. *)
Definition staging_trace (k ind_sh_elems orthog_sh_elems : Z)
    (p_ptrs p_ind_sh_st p_offsets p_orthog p_along : list Z) : list action :=
  [smart_malloc_device k 0; smart_malloc_device ((k + 1) * ind_sh_elems) 1;
   smart_malloc_device k 2; smart_malloc_device (3 * orthog_sh_elems) 3;
   smart_malloc_device (2 * (k + ind_sh_elems)) 4;
   usm_host_alloc k; usm_host_alloc (ind_sh_elems * (k + 1)); usm_host_alloc k;
   usm_host_alloc (3 * orthog_sh_elems); usm_host_alloc (2 * (k + ind_sh_elems));
   queue_copy p_ptrs 0 0; queue_copy p_ind_sh_st 1 1; queue_copy p_offsets 2 2;
   queue_copy p_orthog 3 3; queue_copy p_along 4 4;
   host_task [submitted_event 4; submitted_event 3; submitted_event 2;
              submitted_event 1; submitted_event 0] 5].

(** The events of the five staging copies, in the order of [sh_st_pack_deps]. *)
Definition pack_deps_events : list event :=
  [submitted_event 0; submitted_event 1; submitted_event 2;
   submitted_event 3; submitted_event 4].

(** ** Completion orders *)

(** The event and the prerequisites of a submission. *)
Definition task_of (a : action) : option (nat * list event) :=
  match a with
  | queue_copy _ _ ev => Some (ev, [])
  | host_task deps ev => Some (ev, deps)
  | kernel_submit _ _ deps ev => Some (ev, deps)
  | async_smart_free deps _ ev => Some (ev, deps)
  | keep_args_alive deps ev => Some (ev, deps)
  | _ => None
  end.

(** [d] completes strictly before [e] starts in the order [sched] in which
    the runtime executes the submitted tasks. *)
Definition runs_before (sched : list nat) (d e : nat) : Prop :=
  exists l1 l2 l3, sched = l1 ++ d :: l2 ++ e :: l3.

(** The contract of the runtime: a task runs only after every event it
    depends on. *)
Definition respects_dependencies (tr : list action) (sched : list nat) : Prop :=
  forall a ev deps d,
    In a tr -> task_of a = Some (ev, deps) -> In (submitted_event d) deps ->
    In ev sched -> runs_before sched d ev.

Definition is_event_wait (a : action) : bool :=
  match a with event_wait _ => true | _ => false end.

Definition is_kernel_submit (a : action) : bool :=
  match a with kernel_submit _ _ _ _ => true | _ => false end.

Definition is_async_smart_free (a : action) : bool :=
  match a with async_smart_free _ _ _ => true | _ => false end.

(** The device pointers allocated in a trace. *)
Definition device_allocations (tr : list action) : list nat :=
  flat_map (fun a => match a with smart_malloc_device _ p => [p] | _ => [] end) tr.

(** ** Index projection of the kernels *)

(** Modelled from the spec: the index projections used by the routines of
    [kernels/integer_advanced_indexing.hpp], which is not among the
    sources: [wrap] is the index modulo the axis length, [clip] saturates
    the index to the valid range. *)
Definition WrapIndex (max_item ind : Z) : Z := ind mod max_item.

Definition ClipIndex (max_item ind : Z) : Z := Z.max 0 (Z.min ind (max_item - 1)).

(** Modelled from the spec: the projection used by the routines stored in
    row [mode] of the take table ([TakeWrapFactory] in row [WRAP_MODE],
    [TakeClipFactory] in row [CLIP_MODE]). *)
Definition project_index (mode max_item ind : Z) : Z :=
  if mode =? WRAP_MODE then WrapIndex max_item ind else ClipIndex max_item ind.

(** Modelled from the spec: what a take routine gathers along one indexed
    axis: element [j] of the result is the element of [axis_data] at the
    projection of index [j]; [None] would be a read outside the axis. *)
Definition take_along_axis {A} (mode : Z) (axis_data : list A) (indices : list Z)
    : list (option A) :=
  map (fun ind => nth_error axis_data
                    (Z.to_nat (project_index mode (Z.of_nat (length axis_data)) ind)))
      indices.

(** ** The staged metadata *)

(** The vector that [_populate_kernel_params] copies to
    [device_orthog_sh_st]: the zero-filled host vector after the copies
    guarded by [orthog_nd > 0] (lines 140-163). *)
Definition staged_orthog_sh_st (inp_shape inp_strides arr_strides : list Z)
    (axis_start k ind_nd inp_nd orthog_sh_elems : Z) : list Z :=
  let host_orthog_sh_st := zero_vector (3 * orthog_sh_elems) in
  let orthog_nd := inp_nd - k in
  if orthog_nd >? 0 then
    let h :=
      if axis_start >? 0 then
        let h1 := std_copy (range_of inp_shape 0 axis_start) host_orthog_sh_st 0 in
        let h2 := std_copy (range_of inp_strides 0 axis_start) h1 orthog_sh_elems in
        std_copy (range_of arr_strides 0 axis_start) h2 (2 * orthog_sh_elems)
      else host_orthog_sh_st in
    if inp_nd >? axis_start + k then
      let h1 := std_copy (range_of inp_shape (axis_start + k) inp_nd) h axis_start in
      let h2 := std_copy (skipn (Z.to_nat (axis_start + k)) inp_strides) h1
                  (orthog_sh_elems + axis_start) in
      std_copy (skipn (Z.to_nat (axis_start + ind_nd)) arr_strides) h2
        (2 * orthog_sh_elems + axis_start)
    else h
  else host_orthog_sh_st.

(** The vector copied to [device_along_sh_st] (lines 165-180). *)
Definition staged_along_sh_st (inp_shape arr_shape inp_strides arr_strides : list Z)
    (axis_start k ind_nd inp_nd ind_sh_elems : Z) : list Z :=
  let host_along_sh_st := zero_vector (2 * (k + ind_sh_elems)) in
  let host_along_sh_st :=
    if inp_nd >? 0 then
      let h1 := std_copy (range_of inp_shape axis_start (axis_start + k)) host_along_sh_st 0 in
      std_copy (range_of inp_strides axis_start (axis_start + k)) h1 k
    else host_along_sh_st in
  if ind_nd >? 0 then
    let h1 := std_copy (range_of arr_shape axis_start (axis_start + ind_nd))
                host_along_sh_st (2 * k) in
    std_copy (range_of arr_strides axis_start (axis_start + ind_nd)) h1 (2 * k + ind_nd)
  else host_along_sh_st.

(** [ind_sh_sts] as take and put initialise it before the loop over the
    index arrays: zeros, with the shape of the first index array in front
    when it has axes. *)
Definition initial_ind_sh_sts (py_ind : list usm_ndarray) : list Z :=
  let ind_rep := nth 0 py_ind null_array in
  let k := Z.of_nat (length py_ind) in
  let ind_nd := get_ndim ind_rep in
  let ind_sh_sts := zero_vector ((k + 1) * Z.max ind_nd 1) in
  if ind_nd >? 0 then std_copy (range_of (get_shape_raw ind_rep) 0 ind_nd) ind_sh_sts 0
  else ind_sh_sts.

(** An array descriptor has as many strides as extents. *)
Definition well_formed (a : usm_ndarray) : Prop :=
  length (get_strides_vector a) = length (get_shape_raw a).

(** The layouts written beside the allocations (take lines 435-463, put
    lines 704-732), with [first] the indexed array and [second] the other
    one:
    - [packed_ind_shapes_strides = [ind_shape, ind[0] strides, ...]];
    - [packed_shapes_strides = [shape[:axis] + shape[axis+k:],
       strides[:axis] + strides[axis+k:],
       other strides[:axis] + other strides[axis+ind.ndim:]]];
    - [packed_axes_shapes_strides = [shape[axis:axis+k],
       strides[axis:axis+k], other shape[axis:axis+ind.ndim],
       other strides[axis:axis+ind.ndim]]], the rows of an array without
      axes left zero. *)
Definition ind_shapes_strides_layout (py_ind : list usm_ndarray) : list Z :=
  get_shape_raw (nth 0 py_ind null_array) ++ concat (map get_strides_vector py_ind).

Definition shapes_strides_layout (first second : usm_ndarray)
    (py_ind : list usm_ndarray) (axis_start : Z) : list Z :=
  let k := Z.of_nat (length py_ind) in
  let ind_nd := get_ndim (nth 0 py_ind null_array) in
  orthogonal_extents (get_shape_raw first) axis_start k ++
  orthogonal_extents (get_strides_vector first) axis_start k ++
  orthogonal_extents (get_strides_vector second) axis_start ind_nd.

Definition axes_shapes_strides_layout (first second : usm_ndarray)
    (py_ind : list usm_ndarray) (axis_start : Z) : list Z :=
  let k := Z.of_nat (length py_ind) in
  let ind_nd := get_ndim (nth 0 py_ind null_array) in
  (if get_ndim first >? 0
   then range_of (get_shape_raw first) axis_start (axis_start + k) ++
        range_of (get_strides_vector first) axis_start (axis_start + k)
   else zero_vector (2 * k)) ++
  (if ind_nd >? 0
   then range_of (get_shape_raw second) axis_start (axis_start + ind_nd) ++
        range_of (get_strides_vector second) axis_start (axis_start + ind_nd)
   else zero_vector 2).

(** The factory whose output [init_advanced_indexing_dispatch_tables]
    stores in row [mode] of the table of an operation (lines 786-807). *)
Definition factory_of `{Collaborators} (op : operation) (mode : Z) : Z -> Z -> option fn_ptr_t :=
  match op with
  | Take => if mode =? WRAP_MODE then TakeWrapFactory else TakeClipFactory
  | Put => if mode =? WRAP_MODE then PutWrapFactory else PutClipFactory
  end.

(** The tail of the trace of [pack_and_submit]: the wait before the
    runtime error when the table entry is null, else the routine, the
    release of the scratch buffers and the host task that keeps the
    arguments alive. *)
Definition submission_tail (table : dispatch_table) (first second : usm_ndarray)
    (mode k first_nd orthog_nelems ind_nelems ind_sh_elems first_type_id ind_type_id : Z)
    (depends : list event) : list action :=
  match table mode first_type_id ind_type_id with
  | None => [event_wait [submitted_event 5]]
  | Some fn =>
      [kernel_submit fn
         (mk_kernel_args orthog_nelems ind_nelems (Z.max (first_nd - k) 1) ind_sh_elems k
            3 4 1 (get_data first) (get_data second) 0 0 0 2)
         (pack_deps_events ++ depends) 6;
       async_smart_free [submitted_event 6] [3; 4; 1; 0; 2]%nat 7;
       keep_args_alive [submitted_event 5; submitted_event 7] 8]
  end.

(** The routine reads [payload] through the argument [field]: a copy of
    [payload] fills a device buffer, and every routine submitted gets that
    buffer in [field] and waits for the copy. *)
Definition staged_for (tr : list action) (payload : list Z) (field : kernel_args -> nat)
    : Prop :=
  exists p ev,
    In (queue_copy payload p ev) tr /\
    forall fn args deps kev,
      In (kernel_submit fn args deps kev) tr ->
      field args = p /\ In (submitted_event ev) deps.

(** The exceptions that the checks made before any allocation can throw,
    in the order of the code: the two of [parse_py_ind], then those of the
    body of the operation. *)
Definition validation_exceptions (op : operation) (first : usm_ndarray) : list exn :=
  [value_error "Index allocation queue is not compatible with execution queue";
   value_error "Indices must have the same number of dimensions.";
   value_error "List of indices is empty.";
   value_error "Axis cannot be negative.";
   value_error "Mode must be 0 or 1.";
   NotWritableError;
   value_error ("Axes are out of range for array of dimension " ++
                to_string (get_ndim first));
   value_error (rank_message op);
   value_error "Axes of basic indices are not of matching shapes.";
   value_error "Execution queue is not compatible with allocation queues";
   value_error (overlap_message op);
   UnsupportedType;
   type_error "Array data types are not the same.";
   value_error (index_shape_message op);
   InsufficientCapacityError;
   type_error "Indices array data types are not all the same.";
   value_error "Indices shapes are not all equal.";
   value_error "Arrays index overlapping segments of memory"].

(** ** Reads of the shape arrays *)

(** Reading [p[i]] from an array of [length p] elements, with the test of
    the bounds that the C++ code does not make: [None] is a read outside
    the array. *)
Definition checked_at (p : list Z) (i : Z) : option Z :=
  if (0 <=? i) && (i <? Z.of_nat (length p)) then Some (raw_at p i) else None.

(** [orthog_loop] with every read of the two shape arrays checked. *)
Definition orthog_loop_checked (shape1 shape2 : list Z) (axis_start k ind_nd nd : Z)
    : option (Z * bool) :=
  fold_left
    (fun (acc : option (Z * bool)) (i : Z) =>
       let idx1 := if i <? axis_start then i else i + k in
       let idx2 := if i <? axis_start then i else i + ind_nd in
       match acc, checked_at shape1 idx1, checked_at shape2 idx2 with
       | Some acc, Some extent1, Some extent2 =>
           Some (size_t_mul (fst acc) (to_size_t extent1), snd acc && (extent1 =? extent2))
       | _, _, _ => None
       end)
    (int_range (nd - k)) (Some (1, true)).

(** [ind_shape_loop] with every read checked: the loop stops with [None]
    at the first read outside an array. *)
Fixpoint ind_shape_loop_checked (ind_shape arr_shape : list Z) (axis_start : Z) (e : exn)
    (dims : list Z) (ind_nelems : Z) : M (option Z) :=
  match dims with
  | [] => ret (Some ind_nelems)
  | i :: rest =>
      match checked_at ind_shape i, checked_at arr_shape (axis_start + i) with
      | Some extent, Some arr_extent =>
          let ind_nelems := size_t_mul ind_nelems (to_size_t extent) in
          throw_if (negb (extent =? arr_extent)) e ;;
          ind_shape_loop_checked ind_shape arr_shape axis_start e rest ind_nelems
      | _, _ => ret None
      end
  end.

(** ** Deciding completion orders *)

Fixpoint runs_beforeb (sched : list nat) (d e : nat) : bool :=
  match sched with
  | [] => false
  | x :: rest => (Nat.eqb x d && existsb (Nat.eqb e) rest) || runs_beforeb rest d e
  end.

Definition respects_dependenciesb (tr : list action) (sched : list nat) : bool :=
  forallb
    (fun a =>
       match task_of a with
       | Some (ev, deps) =>
           negb (existsb (Nat.eqb ev) sched) ||
           forallb (fun d => match d with
                             | submitted_event d => runs_beforeb sched d ev
                             | default_event => true
                             end) deps
       | None => true
       end) tr.

(** ** [cstring_from_string] of dpctl_string_utils.hpp *)

(** A [char] array is a list of characters; the terminator is the
    character 0. *)
Definition NUL : Ascii.ascii := Ascii.zero.

(** [str.c_str()]: the characters of [str] followed by a terminator. *)
Definition c_str (str : string) : list Ascii.ascii := list_ascii_of_string str ++ [NUL].

(** [std::strncpy(dest, src, count)] into a new array of [count]
    characters: the characters of [src] before its first terminator, at
    most [count] of them, then terminators up to [count].  [src] is the
    memory from the source pointer on; [c_str] always holds a terminator,
    so the end of [src] is not reached before one. *)
Fixpoint strncpy (src : list Ascii.ascii) (count : nat) : list Ascii.ascii :=
  match count with
  | O => []
  | S n =>
      match src with
      | [] => repeat NUL (S n)
      | c :: rest => if Ascii.eqb c NUL then repeat NUL (S n) else c :: strncpy rest n
      end
  end.

(** The platform the header is compiled for: whether [_WIN32] is defined
    (line 47), and the characters that [strncpy_s] leaves after the
    terminator it writes, which the C standard (K.3.7.1.4) calls
    unspecified: [unspecified i] is the character found [i] places after
    the terminator. *)
Class Platform : Type := {
  _WIN32 : bool;
  unspecified : nat -> Ascii.ascii
}.

(** [strncpy_s(dest, destsz, src, count)] with [destsz = count], into a new
    array of [count] characters: the characters of [src] before its first
    terminator, the terminator, and unspecified characters up to [count].
    A [src] without a terminator among its first [count] characters is a
    constraint violation; [c_str] always holds one. *)
Fixpoint strncpy_s `{Platform} (src : list Ascii.ascii) (count : nat) : list Ascii.ascii :=
  match count with
  | O => []
  | S n =>
      match src with
      | [] => NUL :: map unspecified (seq 0 n)
      | c :: rest =>
          if Ascii.eqb c NUL then NUL :: map unspecified (seq 0 n)
          else c :: strncpy_s rest n
      end
  end.

(** [new char[n]] gives the array or throws [std::bad_alloc], whose
    [what()] is a message of the implementation. *)
Inductive new_result : Type :=
| allocated
| bad_alloc (what : string).

(** The pointer returned ([None] is [nullptr]) and what was written to
    [std::cerr]; the copy is [strncpy_s] under [_WIN32] and [std::strncpy]
    otherwise (lines 47-51). *)
Definition cstring_from_string `{Platform} (new_char_array : nat -> new_result)
    (str : string) : option (list Ascii.ascii) * list string :=
  let cstr_len := (String.length str + 1)%nat in
  match new_char_array cstr_len with
  | allocated =>
      (Some (if _WIN32 then strncpy_s (c_str str) cstr_len
             else strncpy (c_str str) cstr_len), [])
  | bad_alloc what => (None, [what; String (Ascii.ascii_of_nat 10) EmptyString])
  end.

(** The string that a reader of a [char] array finds: the characters
    before the first terminator. *)
Fixpoint c_string_at (buf : list Ascii.ascii) : string :=
  match buf with
  | [] => EmptyString
  | c :: rest => if Ascii.eqb c NUL then EmptyString else String c (c_string_at rest)
  end.

(** A computation that never touches the queue. *)
Definition stateless {A} (c : M A) : Prop :=
  forall s, c s = (fst (c fresh_queue), s).

(** ** A concrete set of collaborators and arrays, for the examples *)

(** A view with no zero extent addresses one element more than the largest
    displacement its strides reach. *)
Definition sample_addressable (a : usm_ndarray) : Z :=
  if existsb (Z.eqb 0) (get_shape_raw a) then 0
  else 1 + fold_left Z.add
             (map (fun p => Z.abs (snd p) * (fst p - 1))
                  (combine (get_shape_raw a) (get_strides_vector a))) 0.

(** Queues are compatible when every array was allocated on the executing
    queue; two views overlap when they start at the same address; type ids
    0..13 exist; the factories produce a routine when the index type id is
    one of the integer ids 1..8. *)
Definition sample_collaborators : Collaborators := {|
  queues_are_compatible := fun q arrs => forallb (fun a => get_queue a =? q) arrs;
  overlap := fun a b => get_data a =? get_data b;
  typenum_to_lookup_id := fun t => if (0 <=? t) && (t <? 14) then Some t else None;
  addressable_nelems := sample_addressable;
  TakeClipFactory := fun _ i => if (1 <=? i) && (i <=? 8) then Some 10%nat else None;
  TakeWrapFactory := fun _ i => if (1 <=? i) && (i <=? 8) then Some 11%nat else None;
  PutClipFactory := fun _ i => if (1 <=? i) && (i <=? 8) then Some 12%nat else None;
  PutWrapFactory := fun _ i => if (1 <=? i) && (i <=? 8) then Some 13%nat else None
|}.

Definition sample_tables : dispatch_tables :=
  @init_advanced_indexing_dispatch_tables sample_collaborators static_tables.

(** A 4 x 5 array of type id 9 at address 1000, an index array of three
    elements of type id 7 at address 2000 and a writable 4 x 3 destination
    at address 3000, all on queue 1. *)
Definition sample_src : usm_ndarray := mk_usm_ndarray 1000 9 [4; 5] [5; 1] true 1.
Definition sample_ind : usm_ndarray := mk_usm_ndarray 2000 7 [3] [1] true 1.
Definition sample_dst : usm_ndarray := mk_usm_ndarray 3000 9 [4; 3] [3; 1] true 1.

(** Three index elements of type id 10, which is not an integer type. *)
Definition float_ind : usm_ndarray := mk_usm_ndarray 2000 10 [3] [1] true 1.

(** A destination of rank 3 and of type id 3. *)
Definition deep_dst : usm_ndarray := mk_usm_ndarray 3000 3 [4; 3; 1] [3; 1; 1] true 1.

(** An index array without elements and a 4 x 0 destination of type id 3. *)
Definition empty_ind : usm_ndarray := mk_usm_ndarray 2000 7 [0] [1] true 1.
Definition empty_dst : usm_ndarray := mk_usm_ndarray 3000 3 [4; 0] [1; 1] true 1.

(** A 0 x 5 x 5 source, a second index array of four elements and a 0 x 3
    destination. *)
Definition flat_src : usm_ndarray := mk_usm_ndarray 1000 9 [0; 5; 5] [25; 5; 1] true 1.
Definition long_ind : usm_ndarray := mk_usm_ndarray 2500 7 [4] [1] true 1.
Definition flat_dst : usm_ndarray := mk_usm_ndarray 3000 9 [0; 3] [3; 1] true 1.


(** The same with type id 3, a 4 x 5 array that addresses 5 elements and a
    4 x 3 array of values of type id 3. *)
Definition broadcast_dst_other : usm_ndarray := mk_usm_ndarray 3000 3 [4; 3] [0; 1] true 1.
Definition broadcast_wide : usm_ndarray := mk_usm_ndarray 1000 9 [4; 5] [0; 1] true 1.
Definition other_val : usm_ndarray := mk_usm_ndarray 3000 3 [4; 3] [3; 1] true 1.

(** A second index array of three elements of type id 6, and a destination
    of three elements for two index arrays over both axes of [sample_src]. *)
Definition short_ind : usm_ndarray := mk_usm_ndarray 2500 6 [3] [1] true 1.
Definition line_dst : usm_ndarray := mk_usm_ndarray 3000 9 [3] [1] true 1.

(** A 2 x 3 x 4 array, an index array of five elements with stride 2 and a
    2 x 5 x 4 destination. *)
Definition cube_src : usm_ndarray := mk_usm_ndarray 1000 9 [2; 3; 4] [12; 4; 1] true 1.
Definition strided_ind : usm_ndarray := mk_usm_ndarray 2000 7 [5] [2] true 1.
Definition cube_dst : usm_ndarray := mk_usm_ndarray 3000 9 [2; 5; 4] [20; 4; 1] true 1.

(** A third index array of three elements, at another address. *)
Definition second_ind : usm_ndarray := mk_usm_ndarray 2600 7 [3] [1] true 1.

(** An index array on another queue and one of rank 2. *)
Definition remote_ind : usm_ndarray := mk_usm_ndarray 2700 7 [3] [1] true 2.
Definition matrix_ind : usm_ndarray := mk_usm_ndarray 2800 7 [3; 1] [1; 1] true 1.

(** Broadcast views of [2 ^ 32] x [2 ^ 32] x 5 and [2 ^ 32] x [2 ^ 32] x 3
    elements. *)
Definition huge_src : usm_ndarray :=
  mk_usm_ndarray 1000 9 [4294967296; 4294967296; 5] [0; 0; 1] true 1.
Definition huge_dst : usm_ndarray :=
  mk_usm_ndarray 3000 9 [4294967296; 4294967296; 3] [0; 0; 1] true 1.

(** An index array of [2 ^ 32] x [2 ^ 32] elements and a destination of
    that shape. *)
Definition huge_ind : usm_ndarray :=
  mk_usm_ndarray 2000 7 [4294967296; 4294967296] [0; 0] true 1.
Definition huge_line : usm_ndarray :=
  mk_usm_ndarray 3000 9 [4294967296; 4294967296] [0; 0] true 1.

(** A [2 ^ 32] x 5 source, an index array of [2 ^ 32] elements and a
    [2 ^ 32] x [2 ^ 32] destination, all three broadcast views: the
    destination addresses one element. *)
Definition wide_src : usm_ndarray := mk_usm_ndarray 1000 9 [4294967296; 5] [0; 1] true 1.
Definition wide_ind : usm_ndarray := mk_usm_ndarray 2000 7 [4294967296] [0] true 1.
Definition wide_dst : usm_ndarray :=
  mk_usm_ndarray 3000 9 [4294967296; 4294967296] [0; 0] true 1.

(** A source whose only axis has no element. *)
Definition hollow_src : usm_ndarray := mk_usm_ndarray 1000 9 [0] [1] true 1.

(** A destination of three elements that addresses one, an index array at
    the address of the destinations, and a 4 x 3 destination on another
    queue. *)
Definition broadcast_line : usm_ndarray := mk_usm_ndarray 3000 9 [3] [0] true 1.
Definition aliasing_ind : usm_ndarray := mk_usm_ndarray 3000 7 [3] [1] true 1.
Definition remote_dst : usm_ndarray := mk_usm_ndarray 3000 9 [4; 3] [3; 1] true 2.

(** A string with a character 0 in the middle. *)
Definition cut_name : string := ("g" ++ String Ascii.zero "pu")%string.

(** A Windows platform whose [strncpy_s] fills the rest of the array with
    the character 254, and a platform without [_WIN32]. *)
Definition windows_platform : Platform :=
  {| _WIN32 := true; unspecified := fun _ => Ascii.ascii_of_nat 254 |}.
Definition posix_platform : Platform :=
  {| _WIN32 := false; unspecified := fun _ => NUL |}.

(** * Properties *)

(** ** The monad *)

Lemma stateless_ret {A} (a : A) : stateless (ret a).
Proof. intro s; reflexivity. Qed.

Lemma stateless_throw {A} (e : exn) : stateless (@throw A e).
Proof. intro s; reflexivity. Qed.

Lemma stateless_throw_if (c : bool) (e : exn) : stateless (throw_if c e).
Proof. intro s; destruct c; reflexivity. Qed.

Lemma stateless_or_throw {A} (o : option A) (e : exn) : stateless (or_throw o e).
Proof. intro s; destruct o; reflexivity. Qed.

Lemma stateless_bind {A B} (c : M A) (k : A -> M B) :
  stateless c -> (forall a, stateless (k a)) -> stateless (bind c k).
Proof.
  intros Hc Hk s. unfold bind.
  rewrite (Hc s). pose proof (Hc fresh_queue) as H0.
  destruct (c fresh_queue) as [o s0]. simpl in *.
  injection H0 as ->.
  destruct o as [a|e]; [apply Hk|reflexivity].
Qed.

Lemma bind_stateless {A B} (c : M A) (k : A -> M B) (s : queue_state) :
  stateless c ->
  bind c k s = match fst (c fresh_queue) with
               | returned a => k a s
               | thrown e => (thrown e, s)
               end.
Proof. intros Hc. unfold bind. rewrite (Hc s). reflexivity. Qed.

Lemma bind_throw_if {B} (c : bool) (e : exn) (k : unit -> M B) (s : queue_state) :
  bind (throw_if c e) k s = if c then (thrown e, s) else k tt s.
Proof. destruct c; reflexivity. Qed.

Lemma bind_or_throw {A B} (o : option A) (e : exn) (k : A -> M B) (s : queue_state) :
  bind (or_throw o e) k s = match o with Some a => k a s | None => (thrown e, s) end.
Proof. destruct o; reflexivity. Qed.

Lemma bind_ret {A B} (a : A) (k : A -> M B) (s : queue_state) :
  bind (ret a) k s = k a s.
Proof. reflexivity. Qed.

Lemma bind_bind {A B D} (c : M A) (k : A -> M B) (h : B -> M D) (s : queue_state) :
  bind (bind c k) h s = bind c (fun a => bind (k a) h) s.
Proof.
  unfold bind. destruct (c s) as [[a|e] s']; reflexivity.
Qed.

(** ** The loops never touch the queue *)

Section Loops.
Context `{C : Collaborators}.

Lemma stateless_lookup_id (t : Z) : stateless (lookup_id t).
Proof. apply stateless_or_throw. Qed.

Lemma stateless_parse_py_ind_loop q py_ind :
  forall known nd res, stateless (parse_py_ind_loop q py_ind known nd res).
Proof.
  induction py_ind as [|arr_i rest IH]; intros known nd res; simpl.
  - apply stateless_ret.
  - apply stateless_bind; [apply stateless_throw_if|intros _].
    apply stateless_bind; [|intro nd'; apply IH].
    destruct known; [|apply stateless_ret].
    apply stateless_bind; [apply stateless_throw_if|intros _; apply stateless_ret].
Qed.

Lemma stateless_parse_py_ind q py_ind : stateless (parse_py_ind q py_ind).
Proof. apply stateless_parse_py_ind_loop. Qed.

Lemma stateless_ind_shape_loop ind_shape arr_shape axis_start e dims :
  forall acc, stateless (ind_shape_loop ind_shape arr_shape axis_start e dims acc).
Proof.
  induction dims as [|i rest IH]; intros acc; simpl.
  - apply stateless_ret.
  - apply stateless_bind; [apply stateless_throw_if|intros _; apply IH].
Qed.

Lemma stateless_ind_arrays_loop exec_q overlaps_dst ind_nd ind_type_id ind_shape ind :
  forall i sh ptrs offs,
    stateless (ind_arrays_loop exec_q overlaps_dst ind_nd ind_type_id ind_shape
                 i ind sh ptrs offs).
Proof.
  induction ind as [|ind_ rest IH]; intros i sh ptrs offs; simpl.
  - apply stateless_ret.
  - apply stateless_bind; [apply stateless_throw_if|intros _].
    apply stateless_bind.
    + destruct (i >? 0); [|apply stateless_ret].
      apply stateless_bind; [apply stateless_throw_if|intros _].
      apply stateless_bind; [apply stateless_lookup_id|intros id_].
      apply stateless_bind; [apply stateless_throw_if|intros _].
      apply stateless_throw_if.
    + intros _. apply stateless_bind; [apply stateless_throw_if|intros _; apply IH].
Qed.

(** ** [parse_py_ind] returns its input or throws a value error *)

Lemma parse_py_ind_loop_returned q py_ind :
  forall known nd res r s s',
    parse_py_ind_loop q py_ind known nd res s = (returned r, s') ->
    r = res ++ py_ind /\
    Forall (fun a => queues_are_compatible q [a] = true) py_ind /\
    Forall (fun a => get_ndim a =
                     if known then nd else get_ndim (nth 0 py_ind null_array)) py_ind.
Proof.
  induction py_ind as [|arr_i rest IH]; intros known nd res r s s' Hrun; simpl in Hrun.
  - inversion Hrun; subst. rewrite app_nil_r. repeat split; constructor.
  - rewrite bind_throw_if in Hrun.
    destruct (queues_are_compatible q [arr_i]) eqn:Hq; simpl in Hrun; [|discriminate].
    destruct known.
    + rewrite bind_bind, bind_throw_if in Hrun.
      destruct (nd =? get_ndim arr_i) eqn:Hnd; simpl in Hrun; [|discriminate].
      rewrite bind_ret in Hrun.
      apply IH in Hrun. destruct Hrun as (Hr & Hc & Hn).
      apply Z.eqb_eq in Hnd.
      rewrite <- app_assoc in Hr. simpl in Hr.
      repeat split; [exact Hr|constructor; assumption|constructor; [congruence|exact Hn]].
    + rewrite bind_ret in Hrun.
      apply IH in Hrun. destruct Hrun as (Hr & Hc & Hn).
      rewrite <- app_assoc in Hr. simpl in Hr.
      repeat split; [exact Hr|constructor; assumption|constructor; [reflexivity|exact Hn]].
Qed.

Lemma parse_py_ind_loop_thrown q py_ind :
  forall known nd res e s s',
    parse_py_ind_loop q py_ind known nd res s = (thrown e, s') ->
    exists msg, e = value_error msg.
Proof.
  induction py_ind as [|arr_i rest IH]; intros known nd res e s s' Hrun; simpl in Hrun.
  - discriminate.
  - rewrite bind_throw_if in Hrun.
    destruct (queues_are_compatible q [arr_i]); simpl in Hrun;
      [|inversion Hrun; eexists; reflexivity].
    destruct known.
    + rewrite bind_bind, bind_throw_if in Hrun.
      destruct (nd =? get_ndim arr_i); simpl in Hrun;
        [|inversion Hrun; eexists; reflexivity].
      rewrite bind_ret in Hrun. eapply IH; eassumption.
    + rewrite bind_ret in Hrun. eapply IH; eassumption.
Qed.

Lemma parse_py_ind_loop_ok q py_ind :
  forall (known : bool) nd res s,
    Forall (fun a => queues_are_compatible q [a] = true) py_ind ->
    Forall (fun a => get_ndim a =
                     if known then nd else get_ndim (nth 0 py_ind null_array)) py_ind ->
    parse_py_ind_loop q py_ind known nd res s = (returned (res ++ py_ind), s).
Proof.
  induction py_ind as [|arr_i rest IH]; intros known nd res s Hc Hn; simpl.
  - rewrite app_nil_r. reflexivity.
  - inversion Hc as [|? ? Hc1 Hc2]; subst. inversion Hn as [|? ? Hn1 Hn2]; subst.
    rewrite bind_throw_if, Hc1. simpl.
    destruct known.
    + rewrite bind_bind, bind_throw_if.
      rewrite Hn1, Z.eqb_refl. simpl. rewrite bind_ret.
      rewrite IH; [rewrite <- app_assoc; reflexivity|assumption|].
      exact Hn2.
    + rewrite bind_ret.
      rewrite IH; [rewrite <- app_assoc; reflexivity|assumption|].
      simpl in Hn2. exact Hn2.
Qed.

Lemma parse_py_ind_ok q py_ind s :
  index_list_ok q py_ind -> parse_py_ind q py_ind s = (returned py_ind, s).
Proof.
  intros [Hc Hn]. unfold parse_py_ind.
  rewrite parse_py_ind_loop_ok; [reflexivity|assumption|assumption].
Qed.

Lemma parse_py_ind_returned q py_ind r s s' :
  parse_py_ind q py_ind s = (returned r, s') -> r = py_ind /\ index_list_ok q py_ind.
Proof.
  intros Hrun. apply parse_py_ind_loop_returned in Hrun.
  destruct Hrun as (Hr & Hc & Hn). split; [exact Hr|split; assumption].
Qed.

(** The three possible results of parsing, on any queue state. *)
Lemma parse_py_ind_cases q py_ind :
  (fst (parse_py_ind q py_ind fresh_queue) = returned py_ind /\ index_list_ok q py_ind) \/
  (exists msg, fst (parse_py_ind q py_ind fresh_queue) = thrown (value_error msg)).
Proof.
  destruct (parse_py_ind q py_ind fresh_queue) as [[r|e] s'] eqn:Hrun; simpl.
  - left. apply parse_py_ind_returned in Hrun. destruct Hrun as [-> Hok]. auto.
  - right. apply parse_py_ind_loop_thrown in Hrun. destruct Hrun as [msg ->]. eauto.
Qed.

End Loops.

(** ** Products of extents *)

Lemma size_t_prod_from (l : list Z) :
  forall a,
    fold_left (fun acc x => size_t_mul acc (to_size_t x)) l (a mod size_t_modulus) =
    (a * list_prod l) mod size_t_modulus.
Proof.
  induction l as [|x r IH]; intros a; simpl.
  - rewrite Z.mul_1_r. reflexivity.
  - unfold size_t_mul at 2, to_size_t. rewrite <- Z.mul_mod by (unfold size_t_modulus; lia).
    rewrite IH. f_equal. ring.
Qed.

Lemma size_t_prod_list_prod (l : list Z) :
  size_t_prod l = list_prod l mod size_t_modulus.
Proof.
  unfold size_t_prod.
  change 1 with (1 mod size_t_modulus) at 1.
  rewrite size_t_prod_from. f_equal. lia.
Qed.

Lemma size_t_prod_zero (l : list Z) : list_prod l = 0 -> size_t_prod l = 0.
Proof. intros H. rewrite size_t_prod_list_prod, H. reflexivity. Qed.

Lemma int_range_length (n : Z) : length (int_range n) = Z.to_nat n.
Proof. unfold int_range. rewrite length_map, length_seq. reflexivity. Qed.

Lemma in_int_range (n i : Z) : In i (int_range n) <-> 0 <= i < n.
Proof.
  unfold int_range. rewrite in_map_iff. split.
  - intros (j & <- & Hj). apply in_seq in Hj. lia.
  - intros Hi. exists (Z.to_nat i). split; [lia|]. apply in_seq. lia.
Qed.

Lemma raw_at_int_range (p : list Z) :
  map (raw_at p) (int_range (Z.of_nat (length p))) = p.
Proof.
  unfold int_range, raw_at. rewrite Nat2Z.id, map_map.
  apply nth_ext with (d := 0) (d' := 0).
  - rewrite length_map, length_seq. reflexivity.
  - intros n Hn. rewrite length_map, length_seq in Hn.
    rewrite (nth_indep _ 0 (nth (Z.to_nat (Z.of_nat 0)) p 0))
      by (rewrite length_map, length_seq; exact Hn).
    rewrite map_nth with (f := fun x => nth (Z.to_nat (Z.of_nat x)) p 0).
    rewrite seq_nth by exact Hn. rewrite Nat2Z.id. reflexivity.
Qed.

(** The indices visited by the orthogonal loop read exactly the orthogonal
    extents. *)
Lemma orthogonal_indices (shape : list Z) (axis_start k : Z) :
  0 <= axis_start -> 0 <= k -> axis_start + k <= Z.of_nat (length shape) ->
  map (fun i => raw_at shape (if i <? axis_start then i else i + k))
      (int_range (Z.of_nat (length shape) - k)) =
  orthogonal_extents shape axis_start k.
Proof.
  intros Ha Hk Hle. unfold orthogonal_extents, int_range, raw_at. rewrite map_map.
  assert (Hlen : length (firstn (Z.to_nat axis_start) shape ++
                         skipn (Z.to_nat (axis_start + k)) shape) =
                 Z.to_nat (Z.of_nat (length shape) - k)).
  { rewrite length_app, length_firstn, length_skipn. lia. }
  apply nth_ext with (d := 0) (d' := 0).
  - rewrite length_map, length_seq. symmetry. exact Hlen.
  - intros n Hn. rewrite length_map, length_seq in Hn.
    rewrite (nth_indep _ 0 ((fun x => nth (Z.to_nat (if Z.of_nat x <? axis_start
                                                    then Z.of_nat x
                                                    else Z.of_nat x + k)) shape 0) 0%nat))
      by (rewrite length_map, length_seq; exact Hn).
    rewrite map_nth with
      (f := fun x => nth (Z.to_nat (if Z.of_nat x <? axis_start
                                    then Z.of_nat x else Z.of_nat x + k)) shape 0).
    rewrite seq_nth by exact Hn. simpl.
    destruct (Z.of_nat n <? axis_start) eqn:Hlt.
    + apply Z.ltb_lt in Hlt.
      rewrite app_nth1 by (rewrite length_firstn; lia).
      rewrite nth_firstn.
      replace (n <? Z.to_nat axis_start)%nat with true
        by (symmetry; apply Nat.ltb_lt; lia).
      rewrite Nat2Z.id. reflexivity.
    + apply Z.ltb_ge in Hlt.
      rewrite app_nth2 by (rewrite length_firstn; lia).
      rewrite nth_skipn, length_firstn. f_equal. lia.
Qed.

Lemma orthog_loop_fst (shape1 shape2 : list Z) (axis_start k ind_nd nd : Z) :
  fst (orthog_loop shape1 shape2 axis_start k ind_nd nd) =
  size_t_prod (map (fun i => raw_at shape1 (if i <? axis_start then i else i + k))
                   (int_range (nd - k))).
Proof.
  unfold orthog_loop, size_t_prod.
  generalize (int_range (nd - k)) as l. generalize true as b. generalize 1 as a.
  intros a b l. revert a b.
  induction l as [|i r IH]; intros a b; simpl; [reflexivity|apply IH].
Qed.

Lemma orthog_nelems_product (first second : usm_ndarray)
    (py_ind : list usm_ndarray) (axis_start : Z) :
  0 <= axis_start ->
  axis_start + Z.of_nat (length py_ind) <= get_ndim first ->
  orthog_nelems_of first second py_ind axis_start =
  size_t_prod (orthogonal_extents (get_shape_raw first) axis_start
                 (Z.of_nat (length py_ind))).
Proof.
  intros Ha Hle. unfold orthog_nelems_of. rewrite orthog_loop_fst.
  unfold get_ndim in *. rewrite orthogonal_indices by lia. reflexivity.
Qed.

(** When the indexed array has rank 0 the loop does not run. *)
Lemma orthog_nelems_rank_0 (first second : usm_ndarray)
    (py_ind : list usm_ndarray) (axis_start : Z) :
  get_ndim first - Z.of_nat (length py_ind) <= 0 ->
  orthog_nelems_of first second py_ind axis_start = 1.
Proof.
  intros Hle. unfold orthog_nelems_of, orthog_loop, int_range.
  replace (Z.to_nat (get_ndim first - Z.of_nat (length py_ind))) with 0%nat by lia.
  reflexivity.
Qed.

(** ** The loop over the axes of the first index array *)

Lemma ind_shape_loop_fits ind_shape arr_shape axis_start e dims :
  forall acc s,
    (forall i, In i dims -> raw_at ind_shape i = raw_at arr_shape (axis_start + i)) ->
    ind_shape_loop ind_shape arr_shape axis_start e dims acc s =
    (returned (fold_left (fun a x => size_t_mul a (to_size_t x))
                 (map (raw_at ind_shape) dims) acc), s).
Proof.
  induction dims as [|i r IH]; intros acc s Hfit; simpl; [reflexivity|].
  rewrite bind_throw_if.
  rewrite (Hfit i (or_introl eq_refl)), Z.eqb_refl. simpl.
  rewrite <- (Hfit i (or_introl eq_refl)).
  apply IH. intros j Hj. apply Hfit. right. exact Hj.
Qed.

Lemma ind_shape_loop_returned ind_shape arr_shape axis_start e dims :
  forall acc r s s',
    ind_shape_loop ind_shape arr_shape axis_start e dims acc s = (returned r, s') ->
    (forall i, In i dims -> raw_at ind_shape i = raw_at arr_shape (axis_start + i)) /\
    r = fold_left (fun a x => size_t_mul a (to_size_t x)) (map (raw_at ind_shape) dims) acc.
Proof.
  induction dims as [|i rest IH]; intros acc r s s' Hrun; simpl in Hrun.
  - inversion Hrun; subst. split; [intros i []|reflexivity].
  - rewrite bind_throw_if in Hrun.
    destruct (raw_at ind_shape i =? raw_at arr_shape (axis_start + i)) eqn:Heq;
      simpl in Hrun; [|discriminate].
    apply Z.eqb_eq in Heq. apply IH in Hrun. destruct Hrun as [Hfit Hr].
    split; [|exact Hr].
    intros j [<-|Hj]; [exact Heq|apply Hfit; exact Hj].
Qed.

Lemma ind_shape_loop_thrown ind_shape arr_shape axis_start e dims :
  forall acc e' s s',
    ind_shape_loop ind_shape arr_shape axis_start e dims acc s = (thrown e', s') ->
    e' = e.
Proof.
  induction dims as [|i rest IH]; intros acc e' s s' Hrun; simpl in Hrun.
  - discriminate.
  - rewrite bind_throw_if in Hrun.
    destruct (raw_at ind_shape i =? raw_at arr_shape (axis_start + i));
      simpl in Hrun; [eapply IH; eassumption|congruence].
Qed.

(** The element count of the first index array, as the loop returns it. *)
Lemma ind_nelems_product (a arr : usm_ndarray) (axis_start : Z) (e : exn) r s s' :
  ind_shape_loop (get_shape_raw a) (get_shape_raw arr) axis_start e
    (int_range (get_ndim a)) 1 s = (returned r, s') ->
  r = size_t_prod (get_shape_raw a).
Proof.
  intros Hrun. apply ind_shape_loop_returned in Hrun. destruct Hrun as [_ ->].
  unfold get_ndim. rewrite raw_at_int_range. reflexivity.
Qed.

(** ** The loop over the index arrays *)

Lemma ind_shapes_differ_false (sh sh' : list Z) :
  length sh' = length sh ->
  ind_shapes_differ sh sh' (Z.of_nat (length sh)) = false <-> sh' = sh.
Proof.
  intros Hlen. unfold ind_shapes_differ. split.
  - intros Hex. apply nth_ext with (d := 0) (d' := 0); [exact Hlen|].
    intros n Hn.
    destruct (Z.eq_dec (nth n sh' 0) (nth n sh 0)) as [Heq|Hne]; [exact Heq|].
    exfalso.
    assert (Hin : In (Z.of_nat n) (int_range (Z.of_nat (length sh))))
      by (apply in_int_range; lia).
    assert (Htrue : existsb (fun dim => negb (raw_at sh dim =? raw_at sh' dim))
                      (int_range (Z.of_nat (length sh))) = true).
    { apply existsb_exists. exists (Z.of_nat n). split; [exact Hin|].
      unfold raw_at. rewrite Nat2Z.id.
      apply negb_true_iff, Z.eqb_neq. congruence. }
    congruence.
  - intros ->.
    destruct (existsb _ _) eqn:Hex; [|reflexivity].
    apply existsb_exists in Hex. destruct Hex as (i & _ & Hi).
    rewrite Z.eqb_refl in Hi. discriminate.
Qed.

Section IndexArrays.
Context `{C : Collaborators}.

Lemma ind_arrays_loop_passes exec_q overlaps_dst ind_nd ind_type_id ind_shape ind :
  forall i sh ptrs offs s,
    0 < i ->
    Forall (fun a => queues_are_compatible exec_q [a] = true) ind ->
    Forall (agrees_with_first ind_nd ind_type_id ind_shape) ind ->
    Forall (fun a => overlaps_dst a = false) ind ->
    exists packed,
      ind_arrays_loop exec_q overlaps_dst ind_nd ind_type_id ind_shape i ind sh ptrs offs s
      = (returned packed, s).
Proof.
  induction ind as [|ind_ rest IH]; intros i sh ptrs offs s Hi Hq Ha Ho; simpl.
  - eexists; reflexivity.
  - inversion Hq as [|? ? Hq1 Hq2]; subst.
    inversion Ha as [|? ? (Hnd & Hty & Hsh) Ha2]; subst.
    inversion Ho as [|? ? Ho1 Ho2]; subst.
    rewrite bind_throw_if, Hq1. simpl.
    replace (i >? 0) with true by (symmetry; apply Z.gtb_lt; lia).
    rewrite !bind_bind, bind_throw_if, Z.eqb_refl. simpl.
    rewrite bind_bind. unfold lookup_id. rewrite bind_or_throw, Hty.
    rewrite bind_bind, bind_throw_if, Z.eqb_refl. simpl.
    rewrite bind_throw_if, Hsh.
    rewrite bind_throw_if, Ho1.
    apply IH; [lia|assumption|assumption|assumption].
Qed.

Lemma ind_arrays_loop_returned exec_q overlaps_dst ind_nd ind_type_id ind_shape ind :
  forall i sh ptrs offs packed s s',
    0 < i ->
    ind_arrays_loop exec_q overlaps_dst ind_nd ind_type_id ind_shape i ind sh ptrs offs s
    = (returned packed, s') ->
    Forall (agrees_with_first ind_nd ind_type_id ind_shape) ind /\
    Forall (fun a => overlaps_dst a = false) ind.
Proof.
  induction ind as [|ind_ rest IH]; intros i sh ptrs offs packed s s' Hi Hrun;
    simpl in Hrun.
  - split; constructor.
  - rewrite bind_throw_if in Hrun.
    destruct (queues_are_compatible exec_q [ind_]); simpl in Hrun; [|discriminate].
    replace (i >? 0) with true in Hrun by (symmetry; apply Z.gtb_lt; lia).
    rewrite !bind_bind, bind_throw_if in Hrun.
    destruct (get_ndim ind_ =? ind_nd) eqn:Hnd; simpl in Hrun; [|discriminate].
    rewrite bind_bind in Hrun. unfold lookup_id in Hrun. rewrite bind_or_throw in Hrun.
    destruct (typenum_to_lookup_id (get_typenum ind_)) as [id_|] eqn:Hty; [|discriminate].
    rewrite bind_bind, bind_throw_if in Hrun.
    destruct (ind_type_id =? id_) eqn:Hid; simpl in Hrun; [|discriminate].
    rewrite bind_throw_if in Hrun.
    destruct (ind_shapes_differ ind_shape (get_shape_raw ind_) ind_nd) eqn:Hsh;
      [discriminate|].
    rewrite bind_throw_if in Hrun.
    destruct (overlaps_dst ind_) eqn:Hov; [discriminate|].
    apply IH in Hrun; [|lia]. destruct Hrun as [Ha Ho].
    apply Z.eqb_eq in Hnd, Hid. subst id_.
    split; constructor; try assumption.
    repeat split; assumption.
Qed.

(** The first iteration skips the comparison with the first array. *)
Lemma ind_arrays_loop_first exec_q overlaps_dst ind_nd ind_type_id ind_shape
    ind_ rest sh ptrs offs s :
  ind_arrays_loop exec_q overlaps_dst ind_nd ind_type_id ind_shape 0 (ind_ :: rest)
    sh ptrs offs s =
  if negb (queues_are_compatible exec_q [ind_])
  then (thrown (value_error "Execution queue is not compatible with allocation queues"), s)
  else if overlaps_dst ind_
  then (thrown (value_error "Arrays index overlapping segments of memory"), s)
  else ind_arrays_loop exec_q overlaps_dst ind_nd ind_type_id ind_shape 1 rest
         (if ind_nd >? 0
          then std_copy (get_strides_vector ind_) sh ((0 + 1) * ind_nd) else sh)
         (ptrs ++ [get_data ind_]) (offs ++ [0]) s.
Proof.
  simpl. rewrite bind_throw_if.
  destruct (negb (queues_are_compatible exec_q [ind_])); [reflexivity|].
  rewrite bind_ret, bind_throw_if.
  destruct (overlaps_dst ind_); reflexivity.
Qed.

(** The loop throws value and type errors, or fails in the type registry. *)
Lemma ind_arrays_loop_thrown_kind exec_q overlaps_dst ind_nd ind_type_id ind_shape ind :
  forall i sh ptrs offs e s s',
    ind_arrays_loop exec_q overlaps_dst ind_nd ind_type_id ind_shape i ind sh ptrs offs s
    = (thrown e, s') ->
    forall msg, e <> runtime_error msg.
Proof.
  induction ind as [|ind_ rest IH]; intros i sh ptrs offs e s s' Hrun msg;
    simpl in Hrun; [discriminate|].
  rewrite bind_throw_if in Hrun.
  destruct (queues_are_compatible exec_q [ind_]); simpl in Hrun; [|congruence].
  destruct (i >? 0).
  - rewrite !bind_bind, bind_throw_if in Hrun.
    destruct (get_ndim ind_ =? ind_nd); simpl in Hrun; [|congruence].
    rewrite bind_bind in Hrun. unfold lookup_id in Hrun. rewrite bind_or_throw in Hrun.
    destruct (typenum_to_lookup_id (get_typenum ind_)) as [id_|]; [|congruence].
    rewrite bind_bind, bind_throw_if in Hrun.
    destruct (ind_type_id =? id_); simpl in Hrun; [|congruence].
    rewrite bind_throw_if in Hrun.
    destruct (ind_shapes_differ ind_shape (get_shape_raw ind_) ind_nd); [congruence|].
    rewrite bind_throw_if in Hrun.
    destruct (overlaps_dst ind_); [congruence|].
    eapply IH; eassumption.
  - rewrite bind_ret, bind_throw_if in Hrun.
    destruct (overlaps_dst ind_); [congruence|].
    eapply IH; eassumption.
Qed.

End IndexArrays.

(** ** Allocation, packing and submission *)

Lemma pack_and_submit_null table first second axis_start mode k ind_nd first_nd
    orthog_nelems ind_nelems ind_sh_elems first_type_id ind_type_id
    ind_sh_sts ind_ptrs ind_offsets depends :
  table mode first_type_id ind_type_id = None ->
  exists p1 p2 p3 p4 p5,
    run (pack_and_submit table first second axis_start mode k ind_nd first_nd
           orthog_nelems ind_nelems ind_sh_elems first_type_id ind_type_id
           ind_sh_sts ind_ptrs ind_offsets depends) =
    (thrown (runtime_error ("Indices must be integer type, got " ++ to_string ind_type_id)),
     staging_trace k ind_sh_elems (Z.max (first_nd - k) 1) p1 p2 p3 p4 p5 ++
     [event_wait [submitted_event 5]]).
Proof.
  intros Hnull. unfold run, pack_and_submit, _populate_kernel_params, staging_trace.
  do 5 eexists.
  cbv [bind malloc_device fresh_ptr record make_shared_vector exec_q_copy fresh_event
       submit_host_task ret fresh_queue next_event next_ptr submitted fst snd app].
  rewrite Hnull.
  cbv [bind do_event_wait record throw next_event next_ptr submitted fst snd app].
  reflexivity.
Qed.

Lemma pack_and_submit_some table first second axis_start mode k ind_nd first_nd
    orthog_nelems ind_nelems ind_sh_elems first_type_id ind_type_id
    ind_sh_sts ind_ptrs ind_offsets depends fn :
  table mode first_type_id ind_type_id = Some fn ->
  exists p1 p2 p3 p4 p5,
    run (pack_and_submit table first second axis_start mode k ind_nd first_nd
           orthog_nelems ind_nelems ind_sh_elems first_type_id ind_type_id
           ind_sh_sts ind_ptrs ind_offsets depends) =
    (returned (submitted_event 8, submitted_event 6),
     staging_trace k ind_sh_elems (Z.max (first_nd - k) 1) p1 p2 p3 p4 p5 ++
     [kernel_submit fn
        (mk_kernel_args orthog_nelems ind_nelems (Z.max (first_nd - k) 1) ind_sh_elems k
           3 4 1 (get_data first) (get_data second) 0 0 0 2)
        (pack_deps_events ++ depends) 6;
      async_smart_free [submitted_event 6] [3; 4; 1; 0; 2]%nat 7;
      keep_args_alive [submitted_event 5; submitted_event 7] 8]).
Proof.
  intros Hfn. unfold run, pack_and_submit, _populate_kernel_params, staging_trace,
    pack_deps_events.
  do 5 eexists.
  cbv [bind malloc_device fresh_ptr record make_shared_vector exec_q_copy fresh_event
       submit_host_task ret fresh_queue next_event next_ptr submitted fst snd app].
  rewrite Hfn.
  cbv [bind call_kernel do_async_smart_free do_keep_args_alive record fresh_event ret
       next_event next_ptr submitted fst snd app].
  reflexivity.
Qed.

(** ** Every call leaves through one of the exits *)

Lemma bind_returned {A B} (c : M A) (k : A -> M B) (s : queue_state) (a : A) :
  stateless c -> fst (c fresh_queue) = returned a -> bind c k s = k a s.
Proof. intros Hc Ha. rewrite bind_stateless by exact Hc. rewrite Ha. reflexivity. Qed.

Lemma bind_thrown {A B} (c : M A) (k : A -> M B) (s : queue_state) (e : exn) :
  stateless c -> fst (c fresh_queue) = thrown e -> bind c k s = (thrown e, s).
Proof. intros Hc Ha. rewrite bind_stateless by exact Hc. rewrite Ha. reflexivity. Qed.

Lemma rank_check (nd k ind_nd other_nd : Z) (e : exn) :
  (if nd =? 0
   then throw_if (negb (other_nd =? ind_nd)) e
   else throw_if (negb (other_nd =? nd - k + ind_nd)) e) =
  throw_if (negb (other_nd =? derived_rank nd k ind_nd)) e.
Proof. unfold derived_rank. destruct (nd =? 0); reflexivity. Qed.

Lemma index_shape_fits_range (py_ind : list usm_ndarray) (arr : usm_ndarray) (axis_start : Z) :
  (forall i, In i (int_range (get_ndim (nth 0 py_ind null_array))) ->
     raw_at (get_shape_raw (nth 0 py_ind null_array)) i =
     raw_at (get_shape_raw arr) (axis_start + i)) <->
  index_shape_fits py_ind arr axis_start.
Proof.
  unfold index_shape_fits. split; intros H i Hi; apply H; apply in_int_range; exact Hi.
Qed.

Lemma scalar_arguments_checked (py_ind : list usm_ndarray) (axis_start mode : Z) :
  (Z.of_nat (length py_ind) =? 0) = false ->
  (axis_start <? 0) = false ->
  negb (mode =? 0) && negb (mode =? 1) = false ->
  scalar_arguments_ok py_ind axis_start mode.
Proof.
  intros Hk Hax Hmode. repeat split.
  - intros ->. discriminate.
  - apply Z.ltb_ge. exact Hax.
  - destruct (mode =? 0) eqn:H0; [left; apply Z.eqb_eq; exact H0|].
    destruct (mode =? 1) eqn:H1; [right; apply Z.eqb_eq; exact H1|discriminate].
Qed.

Section Exits.
Context `{C : Collaborators}.

Lemma index_arrays_checked exec_q ov ind_nd i ind_shape py_ind sh ptrs offs packed s s' :
  ind_arrays_loop exec_q ov ind_nd i ind_shape 0 py_ind sh ptrs offs s = (returned packed, s') ->
  Forall (agrees_with_first ind_nd i ind_shape) (tl py_ind) /\
  Forall (fun ind_ => ov ind_ = false) py_ind.
Proof.
  destruct py_ind as [|ind0 rest]; intros Hrun; [split; constructor|].
  rewrite ind_arrays_loop_first in Hrun.
  destruct (negb (queues_are_compatible exec_q [ind0])); [discriminate|].
  destruct (ov ind0) eqn:Hov; [discriminate|].
  apply ind_arrays_loop_returned in Hrun; [|lia].
  destruct Hrun as [Ha Ho]. split; [exact Ha|constructor; assumption].
Qed.

Ltac leave ex Hr := rewrite Hr; eapply ex; eauto.

Lemma usm_ndarray_take_exits tables src py_ind dst axis_start mode exec_q depends :
  exits Take tables exec_q src py_ind dst axis_start mode depends
    (usm_ndarray_take tables src py_ind dst axis_start mode exec_q depends fresh_queue).
Proof.
  remember (usm_ndarray_take tables src py_ind dst axis_start mode exec_q depends
              fresh_queue) as r eqn:Hr.
  unfold usm_ndarray_take in Hr.
  rewrite bind_stateless in Hr by apply stateless_parse_py_ind.
  destruct (parse_py_ind_cases exec_q py_ind) as [[Hp Hok]|[msg Hp]]; rewrite Hp in Hr.
  2: { rewrite Hr. apply exit_index_list. intros Hok.
       rewrite (parse_py_ind_ok _ _ _ Hok) in Hp. discriminate. }
  cbv zeta in Hr.
  rewrite bind_throw_if in Hr.
  destruct (Z.of_nat (length py_ind) =? 0) eqn:Hk.
  { leave exit_empty Hr. apply Z.eqb_eq in Hk. destruct py_ind; [reflexivity|discriminate]. }
  assert (Hne : py_ind <> []) by (intros ->; discriminate).
  rewrite bind_throw_if in Hr.
  destruct (axis_start <? 0) eqn:Hax.
  { leave exit_axis Hr. apply Z.ltb_lt. exact Hax. }
  rewrite bind_throw_if in Hr.
  destruct (negb (mode =? 0) && negb (mode =? 1)) eqn:Hmode.
  { apply andb_true_iff in Hmode. destruct Hmode as [H0 H1].
    apply negb_true_iff, Z.eqb_neq in H0, H1.
    leave exit_mode Hr. apply Z.ltb_ge. exact Hax. }
  assert (Hargs : arguments_pass exec_q py_ind axis_start mode)
    by (split; [exact Hok|apply scalar_arguments_checked; assumption]).
  unfold throw_if_not_writable in Hr. rewrite bind_throw_if in Hr.
  destruct (is_writable dst) eqn:Hw; simpl negb in Hr; cbv iota in Hr.
  2: { leave exit_writable Hr. }
  rewrite bind_throw_if in Hr.
  destruct (axis_start + Z.of_nat (length py_ind) >? Z.max (get_ndim src) 1) eqn:Hrange.
  { leave exit_axes Hr. unfold axes_in_range. apply Z.leb_gt. apply Z.gtb_lt in Hrange. lia. }
  assert (Hrange' : axes_in_range src py_ind axis_start = true).
  { unfold axes_in_range. apply Z.leb_le.
    rewrite Z.gtb_ltb in Hrange. apply Z.ltb_ge in Hrange. exact Hrange. }
  rewrite rank_check, bind_throw_if in Hr.
  fold (rank_agrees src dst py_ind) in Hr.
  destruct (rank_agrees src dst py_ind) eqn:Hrank; simpl negb in Hr; cbv iota in Hr.
  2: { leave exit_rank Hr. }
  rewrite bind_throw_if in Hr.
  fold (orthogonal_shapes_agree src dst py_ind axis_start) in Hr.
  fold (orthog_nelems_of src dst py_ind axis_start) in Hr.
  destruct (orthogonal_shapes_agree src dst py_ind axis_start) eqn:Hsh;
    simpl negb in Hr; cbv iota in Hr.
  2: { leave exit_orthogonal_shape Hr. }
  assert (Hgeo : geometry_passes Take exec_q src py_ind dst axis_start mode).
  { split; [exact Hargs|split; [exact Hw|]].
    unfold rank_and_shape_ok. rewrite Hrange', Hrank, Hsh. reflexivity. }
  destruct (orthog_nelems_of src dst py_ind axis_start =? 0) eqn:Horth.
  { leave exit_no_orthogonal Hr. apply Z.eqb_eq. exact Horth. }
  apply Z.eqb_neq in Horth.
  rewrite bind_throw_if in Hr.
  destruct (queues_are_compatible exec_q [src; dst]) eqn:Hq;
    simpl negb in Hr; cbv iota in Hr.
  2: { leave exit_queues Hr. }
  rewrite bind_throw_if in Hr.
  destruct (overlap src dst) eqn:Hov.
  { rewrite Hr. apply (exit_overlap Take); assumption. }
  assert (Hbuf : buffers_pass Take exec_q src py_ind dst axis_start mode)
    by (repeat split; try assumption; apply Hgeo).
  assert (Hbt : before_types Take exec_q src py_ind dst axis_start mode)
    by (split; [exact Hbuf|discriminate]).
  unfold lookup_id in Hr. rewrite bind_or_throw in Hr.
  destruct (typenum_to_lookup_id (get_typenum src)) as [sid|] eqn:Hsid.
  2: { leave exit_first_type Hr. }
  rewrite bind_or_throw in Hr.
  destruct (typenum_to_lookup_id (get_typenum dst)) as [did|] eqn:Hdid.
  2: { leave exit_second_type Hr. }
  rewrite bind_throw_if in Hr.
  destruct (sid =? did) eqn:Hty; simpl negb in Hr; cbv iota in Hr.
  2: { apply Z.eqb_neq in Hty. leave exit_types Hr. }
  apply Z.eqb_eq in Hty. subst did.
  rewrite bind_or_throw in Hr.
  destruct (typenum_to_lookup_id (get_typenum (nth 0 py_ind null_array)))
    as [iid|] eqn:Hiid.
  2: { leave exit_index_type Hr. }
  rewrite bind_stateless in Hr by apply stateless_ind_shape_loop.
  destruct (ind_shape_loop (get_shape_raw (nth 0 py_ind null_array)) (get_shape_raw dst)
              axis_start _ (int_range (get_ndim (nth 0 py_ind null_array))) 1 fresh_queue)
    as [[ind_nelems|e] s1] eqn:Hloop; simpl fst in Hr; cbv iota in Hr.
  2: { pose proof (ind_shape_loop_thrown _ _ _ _ _ _ _ _ _ Hloop) as He. subst e.
       rewrite Hr. apply (exit_index_shape Take) with (t := sid) (i := iid); try assumption.
       intros Hfit.
       pose proof (proj2 (index_shape_fits_range py_ind dst axis_start) Hfit) as Hfit'.
       rewrite (ind_shape_loop_fits _ _ _ _ _ _ _ Hfit') in Hloop. discriminate. }
  pose proof (ind_nelems_product _ _ _ _ _ _ _ Hloop) as Hn.
  fold (index_nelems py_ind) in Hn. subst ind_nelems.
  apply ind_shape_loop_returned in Hloop. destruct Hloop as [Hfit _].
  apply (proj1 (index_shape_fits_range py_ind dst axis_start)) in Hfit.
  assert (Htypes : types_pass src py_ind dst axis_start sid iid)
    by (repeat split; assumption).
  unfold throw_if_not_ample in Hr. rewrite bind_throw_if in Hr.
  fold (capacity_demand Take src py_ind dst axis_start) in Hr.
  destruct (addressable_nelems dst <? capacity_demand Take src py_ind dst axis_start)
    eqn:Hample.
  { rewrite Hr. apply (exit_capacity Take).
    - split; [exact Hbuf|intros _; exists sid, iid; exact Htypes].
    - apply Z.ltb_lt. exact Hample. }
  assert (Hcap : capacity_passes Take src py_ind dst axis_start)
    by (unfold capacity_passes; apply Z.ltb_ge; exact Hample).
  match type of Hr with
  | context [ind_arrays_loop ?a ?b ?c ?d ?e 0 ?l ?sh ?p ?o] =>
      destruct (ind_arrays_loop a b c d e 0 l sh p o fresh_queue)
        as [[packed|e1] s2] eqn:Harr;
      [rewrite (bind_returned _ _ _ _ (stateless_ind_arrays_loop a b c d e l 0 sh p o)
                  (f_equal fst Harr)) in Hr
      |rewrite (bind_thrown _ _ _ _ (stateless_ind_arrays_loop a b c d e l 0 sh p o)
                  (f_equal fst Harr)) in Hr]
  end.
  2: { rewrite Hr. apply (exit_index_arrays Take) with (t := sid) (i := iid); try assumption.
       eexists. exact (f_equal fst Harr). }
  apply index_arrays_checked in Harr.
  assert (Hval : validated Take exec_q src py_ind dst axis_start mode sid iid)
    by (repeat split; try assumption; apply Hgeo || apply Harr).
  destruct (index_nelems py_ind =? 0) eqn:Hn0.
  { leave exit_no_indices Hr. apply Z.eqb_eq. exact Hn0. }
  apply Z.eqb_neq in Hn0.
  rewrite Hr. apply (exit_submit Take); assumption.
Qed.

Lemma usm_ndarray_put_exits tables dst py_ind val axis_start mode exec_q depends :
  exits Put tables exec_q dst py_ind val axis_start mode depends
    (usm_ndarray_put tables dst py_ind val axis_start mode exec_q depends fresh_queue).
Proof.
  remember (usm_ndarray_put tables dst py_ind val axis_start mode exec_q depends
              fresh_queue) as r eqn:Hr.
  unfold usm_ndarray_put in Hr.
  rewrite bind_stateless in Hr by apply stateless_parse_py_ind.
  destruct (parse_py_ind_cases exec_q py_ind) as [[Hp Hok]|[msg Hp]]; rewrite Hp in Hr.
  2: { rewrite Hr. apply exit_index_list. intros Hok.
       rewrite (parse_py_ind_ok _ _ _ Hok) in Hp. discriminate. }
  cbv zeta in Hr.
  rewrite bind_throw_if in Hr.
  destruct (Z.of_nat (length py_ind) =? 0) eqn:Hk.
  { leave exit_empty Hr. apply Z.eqb_eq in Hk. destruct py_ind; [reflexivity|discriminate]. }
  assert (Hne : py_ind <> []) by (intros ->; discriminate).
  rewrite bind_throw_if in Hr.
  destruct (axis_start <? 0) eqn:Hax.
  { leave exit_axis Hr. apply Z.ltb_lt. exact Hax. }
  rewrite bind_throw_if in Hr.
  destruct (negb (mode =? 0) && negb (mode =? 1)) eqn:Hmode.
  { apply andb_true_iff in Hmode. destruct Hmode as [H0 H1].
    apply negb_true_iff, Z.eqb_neq in H0, H1.
    leave exit_mode Hr. apply Z.ltb_ge. exact Hax. }
  assert (Hargs : arguments_pass exec_q py_ind axis_start mode)
    by (split; [exact Hok|apply scalar_arguments_checked; assumption]).
  unfold throw_if_not_writable in Hr. rewrite bind_throw_if in Hr.
  destruct (is_writable dst) eqn:Hw; simpl negb in Hr; cbv iota in Hr.
  2: { leave exit_writable Hr. }
  rewrite bind_throw_if in Hr.
  destruct (axis_start + Z.of_nat (length py_ind) >? Z.max (get_ndim dst) 1) eqn:Hrange.
  { leave exit_axes Hr. unfold axes_in_range. apply Z.leb_gt. apply Z.gtb_lt in Hrange. lia. }
  assert (Hrange' : axes_in_range dst py_ind axis_start = true).
  { unfold axes_in_range. apply Z.leb_le.
    rewrite Z.gtb_ltb in Hrange. apply Z.ltb_ge in Hrange. exact Hrange. }
  rewrite rank_check, bind_throw_if in Hr.
  fold (rank_agrees dst val py_ind) in Hr.
  destruct (rank_agrees dst val py_ind) eqn:Hrank; simpl negb in Hr; cbv iota in Hr.
  2: { leave exit_rank Hr. }
  rewrite bind_throw_if in Hr.
  fold (orthogonal_shapes_agree dst val py_ind axis_start) in Hr.
  fold (orthog_nelems_of dst val py_ind axis_start) in Hr.
  destruct (orthogonal_shapes_agree dst val py_ind axis_start) eqn:Hsh;
    simpl negb in Hr; cbv iota in Hr.
  2: { leave exit_orthogonal_shape Hr. }
  assert (Hgeo : geometry_passes Put exec_q dst py_ind val axis_start mode).
  { split; [exact Hargs|split; [exact Hw|]].
    unfold rank_and_shape_ok. rewrite Hrange', Hrank, Hsh. reflexivity. }
  destruct (orthog_nelems_of dst val py_ind axis_start =? 0) eqn:Horth.
  { leave exit_no_orthogonal Hr. apply Z.eqb_eq. exact Horth. }
  apply Z.eqb_neq in Horth.
  rewrite bind_throw_if in Hr.
  destruct (queues_are_compatible exec_q [dst; val]) eqn:Hq;
    simpl negb in Hr; cbv iota in Hr.
  2: { leave exit_queues Hr. }
  rewrite bind_throw_if in Hr.
  destruct (overlap val dst) eqn:Hov.
  { rewrite Hr. apply (exit_overlap Put); assumption. }
  assert (Hbuf : buffers_pass Put exec_q dst py_ind val axis_start mode)
    by (repeat split; try assumption; apply Hgeo).
  unfold throw_if_not_ample in Hr. rewrite bind_throw_if in Hr.
  fold (capacity_demand Put dst py_ind val axis_start) in Hr.
  destruct (addressable_nelems dst <? capacity_demand Put dst py_ind val axis_start)
    eqn:Hample.
  { rewrite Hr. apply (exit_capacity Put).
    - split; [exact Hbuf|discriminate].
    - apply Z.ltb_lt. exact Hample. }
  assert (Hcap : capacity_passes Put dst py_ind val axis_start)
    by (unfold capacity_passes; apply Z.ltb_ge; exact Hample).
  assert (Hbt : before_types Put exec_q dst py_ind val axis_start mode)
    by (split; [exact Hbuf|intros _; exact Hcap]).
  unfold lookup_id in Hr. rewrite bind_or_throw in Hr.
  destruct (typenum_to_lookup_id (get_typenum dst)) as [did|] eqn:Hdid.
  2: { leave exit_first_type Hr. }
  rewrite bind_or_throw in Hr.
  destruct (typenum_to_lookup_id (get_typenum val)) as [vid|] eqn:Hvid.
  2: { leave exit_second_type Hr. }
  rewrite bind_throw_if in Hr.
  destruct (did =? vid) eqn:Hty; simpl negb in Hr; cbv iota in Hr.
  2: { apply Z.eqb_neq in Hty. leave exit_types Hr. }
  apply Z.eqb_eq in Hty. subst vid.
  rewrite bind_or_throw in Hr.
  destruct (typenum_to_lookup_id (get_typenum (nth 0 py_ind null_array)))
    as [iid|] eqn:Hiid.
  2: { leave exit_index_type Hr. }
  rewrite bind_stateless in Hr by apply stateless_ind_shape_loop.
  destruct (ind_shape_loop (get_shape_raw (nth 0 py_ind null_array)) (get_shape_raw val)
              axis_start _ (int_range (get_ndim (nth 0 py_ind null_array))) 1 fresh_queue)
    as [[ind_nelems|e] s1] eqn:Hloop; simpl fst in Hr; cbv iota in Hr.
  2: { pose proof (ind_shape_loop_thrown _ _ _ _ _ _ _ _ _ Hloop) as He. subst e.
       rewrite Hr. apply (exit_index_shape Put) with (t := did) (i := iid); try assumption.
       intros Hfit.
       pose proof (proj2 (index_shape_fits_range py_ind val axis_start) Hfit) as Hfit'.
       rewrite (ind_shape_loop_fits _ _ _ _ _ _ _ Hfit') in Hloop. discriminate. }
  pose proof (ind_nelems_product _ _ _ _ _ _ _ Hloop) as Hn.
  fold (index_nelems py_ind) in Hn. subst ind_nelems.
  apply ind_shape_loop_returned in Hloop. destruct Hloop as [Hfit _].
  apply (proj1 (index_shape_fits_range py_ind val axis_start)) in Hfit.
  assert (Htypes : types_pass dst py_ind val axis_start did iid)
    by (repeat split; assumption).
  match type of Hr with
  | context [ind_arrays_loop ?a ?b ?c ?d ?e 0 ?l ?sh ?p ?o] =>
      destruct (ind_arrays_loop a b c d e 0 l sh p o fresh_queue)
        as [[packed|e1] s2] eqn:Harr;
      [rewrite (bind_returned _ _ _ _ (stateless_ind_arrays_loop a b c d e l 0 sh p o)
                  (f_equal fst Harr)) in Hr
      |rewrite (bind_thrown _ _ _ _ (stateless_ind_arrays_loop a b c d e l 0 sh p o)
                  (f_equal fst Harr)) in Hr]
  end.
  2: { rewrite Hr. apply (exit_index_arrays Put) with (t := did) (i := iid); try assumption.
       eexists. exact (f_equal fst Harr). }
  apply index_arrays_checked in Harr.
  assert (Hval : validated Put exec_q dst py_ind val axis_start mode did iid)
    by (repeat split; try assumption; apply Hgeo || apply Harr).
  destruct (index_nelems py_ind =? 0) eqn:Hn0.
  { leave exit_no_indices Hr. apply Z.eqb_eq. exact Hn0. }
  apply Z.eqb_neq in Hn0.
  rewrite Hr. apply (exit_submit Put); assumption.
Qed.

(** Both orchestrators at once. *)
Lemma orchestrate_exits op tables first py_ind second axis_start mode exec_q depends :
  exits op tables exec_q first py_ind second axis_start mode depends
    (orchestrate op tables first py_ind second axis_start mode exec_q depends fresh_queue).
Proof.
  destruct op; [apply usm_ndarray_take_exits|apply usm_ndarray_put_exits].
Qed.

End Exits.

(** ** Using the exits *)

Lemma rank_and_shape_ok_iff (first second : usm_ndarray) (py_ind : list usm_ndarray)
    (axis_start : Z) :
  rank_and_shape_ok first second py_ind axis_start = true <->
  axes_in_range first py_ind axis_start = true /\
  rank_agrees first second py_ind = true /\
  orthogonal_shapes_agree first second py_ind axis_start = true.
Proof.
  unfold rank_and_shape_ok. rewrite !andb_true_iff. tauto.
Qed.

Lemma run_fresh {A} (c : M A) (o : outcome A) :
  c fresh_queue = (o, fresh_queue) -> run c = (o, []).
Proof. intros H. unfold run. cbv zeta. rewrite H. reflexivity. Qed.

(** Splits the validation stages found among the hypotheses into the
    checks they are made of. *)
Ltac unpack :=
  unfold validated, before_types, before_capacity, buffers_pass, geometry_passes,
    arguments_pass, types_pass, capacity_passes, index_arrays_pass,
    scalar_arguments_ok in *;
  repeat match goal with
         | H : _ /\ _ |- _ => destruct H
         | H : exists _, _ |- _ => destruct H
         | H : ?a = ?a -> _ |- _ => specialize (H eq_refl)
         | H : rank_and_shape_ok _ _ _ _ = true |- _ =>
             apply rank_and_shape_ok_iff in H
         end.

(** Closes an exit whose premises contradict the hypotheses. *)
Ltac absurd_exit :=
  exfalso; unpack;
  solve [congruence | lia | contradiction | tauto].

Section Offender.
Context `{C : Collaborators}.

(** The loop stops at the first array that disagrees with the first one:
    with a type error when its type id differs, else with a value error
    when its shape differs. *)
Lemma ind_arrays_loop_offender exec_q overlaps_dst ind_nd ind_type_id ind_shape
    agreeing offender rest :
  forall i sh ptrs offs s,
    0 < i ->
    Forall (fun a => queues_are_compatible exec_q [a] = true) agreeing ->
    Forall (agrees_with_first ind_nd ind_type_id ind_shape) agreeing ->
    Forall (fun a => overlaps_dst a = false) agreeing ->
    queues_are_compatible exec_q [offender] = true ->
    get_ndim offender = ind_nd ->
    (forall id_,
       typenum_to_lookup_id (get_typenum offender) = Some id_ -> id_ <> ind_type_id ->
       ind_arrays_loop exec_q overlaps_dst ind_nd ind_type_id ind_shape i
         (agreeing ++ offender :: rest) sh ptrs offs s
       = (thrown (type_error "Indices array data types are not all the same."), s)) /\
    (typenum_to_lookup_id (get_typenum offender) = Some ind_type_id ->
     ind_shapes_differ ind_shape (get_shape_raw offender) ind_nd = true ->
     ind_arrays_loop exec_q overlaps_dst ind_nd ind_type_id ind_shape i
       (agreeing ++ offender :: rest) sh ptrs offs s
     = (thrown (value_error "Indices shapes are not all equal."), s)).
Proof.
  induction agreeing as [|a good IH]; intros i sh ptrs offs s Hi Hq Ha Ho Hqo Hnd.
  - cbn [app ind_arrays_loop].
    rewrite bind_throw_if, Hqo. cbn [negb].
    replace (i >? 0) with true by (symmetry; apply Z.gtb_lt; lia).
    rewrite !bind_bind, bind_throw_if, Hnd, Z.eqb_refl. cbn [negb].
    rewrite bind_bind. unfold lookup_id. rewrite bind_or_throw.
    split.
    + intros id_ Hid Hne. rewrite Hid. cbv beta iota.
      rewrite bind_bind, bind_throw_if.
      replace (ind_type_id =? id_) with false by (symmetry; apply Z.eqb_neq; congruence).
      reflexivity.
    + intros Hid Hdiff. rewrite Hid. cbv beta iota.
      rewrite bind_bind, bind_throw_if, Z.eqb_refl. cbn [negb].
      rewrite bind_throw_if, Hdiff. reflexivity.
  - apply Forall_cons_iff in Hq. destruct Hq as [Hq1 Hq2].
    apply Forall_cons_iff in Ha. destruct Ha as [(Hnd1 & Hty1 & Hsh1) Ha2].
    apply Forall_cons_iff in Ho. destruct Ho as [Ho1 Ho2].
    specialize (IH (i + 1) (if ind_nd >? 0
                            then std_copy (get_strides_vector a) sh ((i + 1) * ind_nd)
                            else sh)
                  (ptrs ++ [get_data a]) (offs ++ [0]) s
                  ltac:(lia) Hq2 Ha2 Ho2 Hqo Hnd).
    cbn [app ind_arrays_loop].
    rewrite bind_throw_if, Hq1. cbn [negb].
    replace (i >? 0) with true by (symmetry; apply Z.gtb_lt; lia).
    rewrite !bind_bind, bind_throw_if, Hnd1, Z.eqb_refl. cbn [negb].
    rewrite bind_bind. unfold lookup_id. rewrite bind_or_throw, Hty1.
    rewrite bind_bind, bind_throw_if, Z.eqb_refl. cbn [negb].
    rewrite bind_throw_if, Hsh1.
    rewrite bind_throw_if, Ho1.
    exact IH.
Qed.

End Offender.

Section Claims.
Context `{C : Collaborators}.

Lemma index_arrays_pass_no_throw op exec_q first py_ind second i e :
  index_list_ok exec_q py_ind ->
  typenum_to_lookup_id (get_typenum (nth 0 py_ind null_array)) = Some i ->
  index_arrays_pass op first py_ind second i ->
  index_arrays_throw op exec_q first py_ind second i e -> False.
Proof.
  intros [Hq _] Hi [Hagree Hov] [sh Hthrow].
  destruct py_ind as [|ind0 rest]; [discriminate|].
  inversion Hq as [|? ? Hq0 Hqr]; subst. inversion Hov as [|? ? Hov0 Hovr]; subst.
  rewrite ind_arrays_loop_first in Hthrow. rewrite Hq0, Hov0 in Hthrow.
  cbn [negb tl] in Hagree, Hthrow.
  match type of Hthrow with
  | context [ind_arrays_loop ?a ?b ?c ?d ?e 1 ?l ?sh' ?p ?o ?s] =>
      destruct (ind_arrays_loop_passes a b c d e l 1 sh' p o s) as [packed Hp];
        [lia|assumption|assumption|assumption|]
  end.
  rewrite Hp in Hthrow. discriminate.
Qed.


(** Case analysis on the exit taken by a call; [r] names the result. *)
Ltac by_exits op tables first py_ind second axis_start mode exec_q depends r Hr Hex :=
  pose proof (orchestrate_exits op tables first py_ind second axis_start mode exec_q depends)
    as Hex;
  remember (orchestrate op tables first py_ind second axis_start mode exec_q depends
              fresh_queue) as r eqn:Hr;
  symmetry in Hr.

(** C4: the other array of a call must have the derived rank: for take,
    the destination rank is [src_nd - k + ind_nd] (and [ind_nd] for a 0-d
    source); for put, the same relation between the value array and the
    destination.  A call that violates it throws and asks nothing of the
    queue, and when the checks made earlier pass the exception is the
    shape error of the rank check. *)
Theorem derived_rank_enforced op tables first py_ind second axis_start mode exec_q depends :
  get_ndim second <>
    derived_rank (get_ndim first) (Z.of_nat (length py_ind))
      (get_ndim (nth 0 py_ind null_array)) ->
  (exists e,
     run (orchestrate op tables first py_ind second axis_start mode exec_q depends)
     = (thrown e, [])) /\
  (arguments_pass exec_q py_ind axis_start mode ->
   is_writable (destination op first second) = true ->
   axes_in_range first py_ind axis_start = true ->
   run (orchestrate op tables first py_ind second axis_start mode exec_q depends)
   = (thrown (value_error (rank_message op)), [])).
Proof.
  intros Hrank.
  assert (Hagree : rank_agrees first second py_ind = false)
    by (apply Z.eqb_neq; exact Hrank).
  by_exits op tables first py_ind second axis_start mode exec_q depends r Hr Hex.
  split.
  - destruct Hex; try (eexists; apply run_fresh; exact Hr); absurd_exit.
  - intros Hargs Hw Hax.
    destruct Hex; try (apply run_fresh; exact Hr); absurd_exit.
Qed.


(** A call throws with the queue untouched, returns the two default events
    with the queue untouched, or reaches the allocation stage with every
    check passed. *)
Lemma untouched_or_validated op tables first py_ind second axis_start mode exec_q depends :
  (exists e,
     run (orchestrate op tables first py_ind second axis_start mode exec_q depends)
     = (thrown e, []) /\ forall msg, e <> runtime_error msg) \/
  run (orchestrate op tables first py_ind second axis_start mode exec_q depends)
  = (returned (default_event, default_event), []) \/
  (exists t i sh ptrs offs,
     validated op exec_q first py_ind second axis_start mode t i /\
     index_nelems py_ind <> 0 /\
     run (orchestrate op tables first py_ind second axis_start mode exec_q depends)
     = run (pack_and_submit (table_of op tables) first second axis_start mode
              (Z.of_nat (length py_ind)) (get_ndim (nth 0 py_ind null_array))
              (get_ndim first)
              (orthog_nelems_of first second py_ind axis_start) (index_nelems py_ind)
              (Z.max (get_ndim (nth 0 py_ind null_array)) 1)
              t i sh ptrs offs depends)).
Proof.
  by_exits op tables first py_ind second axis_start mode exec_q depends r Hr Hex.
  destruct Hex;
    try (left; eexists; split; [apply run_fresh; exact Hr|intros ?; discriminate]);
    try (right; left; apply run_fresh; exact Hr).
  - (* the loop over the index arrays throws *)
    left. eexists. split; [apply run_fresh; exact Hr|].
    intros msg ->.
    match goal with H : index_arrays_throw _ _ _ _ _ _ _ |- _ => destruct H as [sh0 Hthrow] end.
    destruct (ind_arrays_loop _ _ _ _ _ _ _ _ _ _ _) as [o' s'] eqn:Hloop.
    simpl in Hthrow. subst o'.
    exact (ind_arrays_loop_thrown_kind _ _ _ _ _ _ _ _ _ _ _ _ _ Hloop _ eq_refl).
  - right. right. exists t, i, sh, ptrs, offs.
    split; [assumption|split; [assumption|]].
    unfold run. cbv zeta. rewrite Hr. reflexivity.
Qed.

(** A call that passes every check with a non-zero index element count
    reaches the allocation stage. *)
Lemma validated_submits op tables first py_ind second axis_start mode exec_q depends t i :
  validated op exec_q first py_ind second axis_start mode t i ->
  index_nelems py_ind <> 0 ->
  exists sh ptrs offs,
    run (orchestrate op tables first py_ind second axis_start mode exec_q depends)
    = run (pack_and_submit (table_of op tables) first second axis_start mode
             (Z.of_nat (length py_ind)) (get_ndim (nth 0 py_ind null_array))
             (get_ndim first)
             (orthog_nelems_of first second py_ind axis_start) (index_nelems py_ind)
             (Z.max (get_ndim (nth 0 py_ind null_array)) 1)
             t i sh ptrs offs depends).
Proof.
  intros Hval Hn.
  by_exits op tables first py_ind second axis_start mode exec_q depends r Hr Hex.
  destruct Hex; try absurd_exit.
  - exfalso.
    destruct Hval as (Hbuf & Hty & _ & Hidx).
    destruct Hty as (_ & _ & Hi & _). destruct Hbuf as (((Hok & _) & _) & _).
    assert (i0 = i) as -> by (unpack; congruence).
    exact (index_arrays_pass_no_throw op exec_q first py_ind second i e Hok Hi Hidx
             ltac:(assumption)).
  - assert (t0 = t /\ i0 = i) as [-> ->] by (unpack; split; congruence).
    exists sh, ptrs, offs. unfold run. cbv zeta. rewrite Hr. reflexivity.
Qed.

(** Once the axes are in range, the loop over the orthogonal axes has
    multiplied the orthogonal extents. *)
Lemma orthog_nelems_extents first second py_ind axis_start :
  0 <= axis_start ->
  axes_in_range first py_ind axis_start = true ->
  orthog_nelems_of first second py_ind axis_start =
  size_t_prod (orthogonal_extents (get_shape_raw first) axis_start
                 (Z.of_nat (length py_ind))).
Proof.
  intros Hax Hrange.
  unfold axes_in_range in Hrange. apply Z.leb_le in Hrange.
  destruct (Z.eq_dec (get_ndim first) 0) as [Hz|Hnz].
  - rewrite orthog_nelems_rank_0 by lia.
    unfold get_ndim in Hz. destruct (get_shape_raw first); [|discriminate Hz || lia].
    unfold orthogonal_extents. rewrite firstn_nil, skipn_nil. reflexivity.
  - apply orthog_nelems_product; [exact Hax|]. unfold get_ndim in *. lia.
Qed.





(** C1, as the code has it: a null dispatch entry is discovered only after
    the five scratch allocations, the five staging copies and the staging
    host task have been issued; the call then waits for the host task and
    throws a runtime error, without submitting the routine or scheduling a
    release.  Every other exception of take and put is thrown with nothing
    asked of the queue. *)
Theorem null_entry_found_after_packing
    op tables first py_ind second axis_start mode exec_q depends :
  (forall t i,
     validated op exec_q first py_ind second axis_start mode t i ->
     index_nelems py_ind <> 0 ->
     table_of op tables mode t i = None ->
     exists p1 p2 p3 p4 p5,
       run (orchestrate op tables first py_ind second axis_start mode exec_q depends)
       = (thrown (runtime_error ("Indices must be integer type, got " ++ to_string i)),
          staging_trace (Z.of_nat (length py_ind))
            (Z.max (get_ndim (nth 0 py_ind null_array)) 1)
            (Z.max (get_ndim first - Z.of_nat (length py_ind)) 1) p1 p2 p3 p4 p5 ++
          [event_wait [submitted_event 5]])) /\
  (forall e tr,
     run (orchestrate op tables first py_ind second axis_start mode exec_q depends)
     = (thrown e, tr) ->
     (tr = [] /\ forall msg, e <> runtime_error msg) \/
     (exists i, e = runtime_error ("Indices must be integer type, got " ++ to_string i) /\
                forallb (fun a => negb (is_kernel_submit a || is_async_smart_free a)) tr
                = true)).
Proof.
  split.
  - intros t i Hval Hn Hnull.
    destruct (validated_submits op tables first py_ind second axis_start mode exec_q
                depends t i Hval Hn) as (sh & ptrs & offs & Hrun).
    rewrite Hrun. apply pack_and_submit_null. exact Hnull.
  - intros e tr Hrun.
    destruct (untouched_or_validated op tables first py_ind second axis_start mode
                exec_q depends) as [(e' & He & Hkind)|[Hret|(t & i & sh & ptrs & offs & _ & _ & Hsub)]].
    + rewrite He in Hrun. injection Hrun as -> <-. left. split; [reflexivity|exact Hkind].
    + rewrite Hret in Hrun. discriminate.
    + rewrite Hsub in Hrun.
      destruct (table_of op tables mode t i) as [fn|] eqn:Hentry.
      * destruct (pack_and_submit_some _ first second axis_start mode
                    (Z.of_nat (length py_ind)) (get_ndim (nth 0 py_ind null_array))
                    (get_ndim first) (orthog_nelems_of first second py_ind axis_start)
                    (index_nelems py_ind) (Z.max (get_ndim (nth 0 py_ind null_array)) 1)
                    t i sh ptrs offs depends fn Hentry) as (p1 & p2 & p3 & p4 & p5 & Hsome).
        rewrite Hsome in Hrun. discriminate.
      * destruct (pack_and_submit_null _ first second axis_start mode
                    (Z.of_nat (length py_ind)) (get_ndim (nth 0 py_ind null_array))
                    (get_ndim first) (orthog_nelems_of first second py_ind axis_start)
                    (index_nelems py_ind) (Z.max (get_ndim (nth 0 py_ind null_array)) 1)
                    t i sh ptrs offs depends Hentry) as (p1 & p2 & p3 & p4 & p5 & Hnull).
        rewrite Hnull in Hrun. injection Hrun as <- <-.
        right. exists i. split; reflexivity.
Qed.

(** C7: in every call that returns, either nothing was asked of the queue
    (the two default events), or the trace ends with the routine, the
    asynchronous release of the scratch allocations and the task keeping
    the arguments alive.  The release depends on the event of the routine,
    owns exactly the device allocations of the call, and no wait and no
    other release precedes it; so in every execution order that respects
    the dependencies the release runs after the routine. *)
Theorem scratch_release_follows_compute
    op tables first py_ind second axis_start mode exec_q depends evs tr :
  run (orchestrate op tables first py_ind second axis_start mode exec_q depends)
  = (returned evs, tr) ->
  (tr = [] /\ evs = (default_event, default_event)) \/
  (exists pre fn args deps compute_ev owners free_ev keep_deps keep_ev,
     tr = pre ++ [kernel_submit fn args deps compute_ev;
                  async_smart_free [submitted_event compute_ev] owners free_ev;
                  keep_args_alive keep_deps keep_ev] /\
     evs = (submitted_event keep_ev, submitted_event compute_ev) /\
     In (submitted_event free_ev) keep_deps /\
     (forall p, In p (device_allocations tr) <-> In p owners) /\
     length (device_allocations tr) = 5%nat /\
     forallb (fun a => negb (is_event_wait a || is_async_smart_free a
                               || is_kernel_submit a)) pre = true /\
     forall sched,
       respects_dependencies tr sched -> In free_ev sched ->
       runs_before sched compute_ev free_ev).
Proof.
  intros Hrun.
  destruct (untouched_or_validated op tables first py_ind second axis_start mode
              exec_q depends) as [(e' & He & _)|[Hret|(t & i & sh & ptrs & offs & _ & _ & Hsub)]].
  - rewrite He in Hrun. discriminate.
  - rewrite Hret in Hrun. injection Hrun as <- <-. left. split; reflexivity.
  - rewrite Hsub in Hrun.
    destruct (table_of op tables mode t i) as [fn|] eqn:Hentry.
    + destruct (pack_and_submit_some _ first second axis_start mode
                  (Z.of_nat (length py_ind)) (get_ndim (nth 0 py_ind null_array))
                  (get_ndim first) (orthog_nelems_of first second py_ind axis_start)
                  (index_nelems py_ind) (Z.max (get_ndim (nth 0 py_ind null_array)) 1)
                  t i sh ptrs offs depends fn Hentry) as (p1 & p2 & p3 & p4 & p5 & Hsome).
      rewrite Hsome in Hrun. injection Hrun as <- <-.
      right.
      exists (staging_trace (Z.of_nat (length py_ind))
                (Z.max (get_ndim (nth 0 py_ind null_array)) 1)
                (Z.max (get_ndim first - Z.of_nat (length py_ind)) 1) p1 p2 p3 p4 p5).
      do 8 eexists.
      split; [reflexivity|].
      split; [reflexivity|].
      split; [simpl; auto|].
      split; [intros p; simpl; tauto|].
      split; [reflexivity|].
      split; [reflexivity|].
      intros sched Hresp Hin.
      apply (Hresp (async_smart_free [submitted_event 6] [3; 4; 1; 0; 2]%nat 7)
               7%nat [submitted_event 6] 6%nat).
      * do 17 right. left. reflexivity.
      * reflexivity.
      * simpl. auto.
      * exact Hin.
    + destruct (pack_and_submit_null _ first second axis_start mode
                  (Z.of_nat (length py_ind)) (get_ndim (nth 0 py_ind null_array))
                  (get_ndim first) (orthog_nelems_of first second py_ind axis_start)
                  (index_nelems py_ind) (Z.max (get_ndim (nth 0 py_ind null_array)) 1)
                  t i sh ptrs offs depends Hentry) as (p1 & p2 & p3 & p4 & p5 & Hnull).
      rewrite Hnull in Hrun. discriminate.
Qed.


(** C3, as the code has it: a call whose orthogonal extents multiply to
    zero returns the two default events, with nothing asked of the queue,
    once the arguments, the writability and the rank and shape checks have
    passed; a call whose index arrays have no elements does so once every
    check has passed. *)
Theorem degenerate_calls_return_default_events
    op tables first py_ind second axis_start mode exec_q depends :
  (geometry_passes op exec_q first py_ind second axis_start mode ->
   list_prod (orthogonal_extents (get_shape_raw first) axis_start
                (Z.of_nat (length py_ind))) = 0 ->
   run (orchestrate op tables first py_ind second axis_start mode exec_q depends)
   = (returned (default_event, default_event), [])) /\
  (forall t i,
     validated op exec_q first py_ind second axis_start mode t i ->
     list_prod (get_shape_raw (nth 0 py_ind null_array)) = 0 ->
     run (orchestrate op tables first py_ind second axis_start mode exec_q depends)
     = (returned (default_event, default_event), [])).
Proof.
  split.
  - intros Hgeo Hzero.
    assert (Horth : orthog_nelems_of first second py_ind axis_start = 0).
    { rewrite orthog_nelems_extents by (unpack; assumption).
      apply size_t_prod_zero. exact Hzero. }
    by_exits op tables first py_ind second axis_start mode exec_q depends r Hr Hex.
    destruct Hex; try (apply run_fresh; exact Hr); absurd_exit.
  - intros t i Hval Hzero.
    assert (Hn : index_nelems py_ind = 0) by (apply size_t_prod_zero; exact Hzero).
    by_exits op tables first py_ind second axis_start mode exec_q depends r Hr Hex.
    destruct Hex; try (apply run_fresh; exact Hr); try absurd_exit.
    exfalso.
    destruct Hval as (Hbuf & Hty & _ & Hidx).
    destruct Hty as (_ & _ & Hi & _). destruct Hbuf as (((Hok & _) & _) & _).
    assert (i0 = i) as -> by (unpack; congruence).
    exact (index_arrays_pass_no_throw op exec_q first py_ind second i e Hok Hi Hidx
             ltac:(assumption)).
Qed.

(** The loop over the index arrays stops at the first array that fails one
    of its checks, in the order of the code: the type id is looked up and
    compared with the first array's, then the shapes are compared, then
    the overlap with the destination is tested. *)
Lemma ind_arrays_loop_stops exec_q overlaps_dst ind_nd ind_type_id ind_shape
    agreeing offender rest :
  forall i sh ptrs offs s,
    0 < i ->
    Forall (fun a => queues_are_compatible exec_q [a] = true) agreeing ->
    Forall (agrees_with_first ind_nd ind_type_id ind_shape) agreeing ->
    Forall (fun a => overlaps_dst a = false) agreeing ->
    queues_are_compatible exec_q [offender] = true ->
    get_ndim offender = ind_nd ->
    (typenum_to_lookup_id (get_typenum offender) = None ->
     ind_arrays_loop exec_q overlaps_dst ind_nd ind_type_id ind_shape i
       (agreeing ++ offender :: rest) sh ptrs offs s
     = (thrown UnsupportedType, s)) /\
    (forall id_,
       typenum_to_lookup_id (get_typenum offender) = Some id_ -> id_ <> ind_type_id ->
       ind_arrays_loop exec_q overlaps_dst ind_nd ind_type_id ind_shape i
         (agreeing ++ offender :: rest) sh ptrs offs s
       = (thrown (type_error "Indices array data types are not all the same."), s)) /\
    (typenum_to_lookup_id (get_typenum offender) = Some ind_type_id ->
     ind_shapes_differ ind_shape (get_shape_raw offender) ind_nd = true ->
     ind_arrays_loop exec_q overlaps_dst ind_nd ind_type_id ind_shape i
       (agreeing ++ offender :: rest) sh ptrs offs s
     = (thrown (value_error "Indices shapes are not all equal."), s)) /\
    (typenum_to_lookup_id (get_typenum offender) = Some ind_type_id ->
     ind_shapes_differ ind_shape (get_shape_raw offender) ind_nd = false ->
     overlaps_dst offender = true ->
     ind_arrays_loop exec_q overlaps_dst ind_nd ind_type_id ind_shape i
       (agreeing ++ offender :: rest) sh ptrs offs s
     = (thrown (value_error "Arrays index overlapping segments of memory"), s)).
Proof.
  induction agreeing as [|a good IH]; intros i sh ptrs offs s Hi Hq Ha Ho Hqo Hnd.
  - cbn [app ind_arrays_loop].
    rewrite bind_throw_if, Hqo. cbn [negb].
    replace (i >? 0) with true by (symmetry; apply Z.gtb_lt; lia).
    rewrite !bind_bind, bind_throw_if, Hnd, Z.eqb_refl. cbn [negb].
    rewrite bind_bind. unfold lookup_id. rewrite bind_or_throw.
    split; [|split; [|split]].
    + intros Hid. rewrite Hid. reflexivity.
    + intros id_ Hid Hne. rewrite Hid. cbv beta iota.
      rewrite bind_bind, bind_throw_if.
      replace (ind_type_id =? id_) with false by (symmetry; apply Z.eqb_neq; congruence).
      reflexivity.
    + intros Hid Hdiff. rewrite Hid. cbv beta iota.
      rewrite bind_bind, bind_throw_if, Z.eqb_refl. cbn [negb].
      rewrite bind_throw_if, Hdiff. reflexivity.
    + intros Hid Hsame Hov. rewrite Hid. cbv beta iota.
      rewrite bind_bind, bind_throw_if, Z.eqb_refl. cbn [negb].
      rewrite bind_throw_if, Hsame.
      rewrite bind_throw_if, Hov. reflexivity.
  - apply Forall_cons_iff in Hq. destruct Hq as [Hq1 Hq2].
    apply Forall_cons_iff in Ha. destruct Ha as [(Hnd1 & Hty1 & Hsh1) Ha2].
    apply Forall_cons_iff in Ho. destruct Ho as [Ho1 Ho2].
    specialize (IH (i + 1) (if ind_nd >? 0
                            then std_copy (get_strides_vector a) sh ((i + 1) * ind_nd)
                            else sh)
                  (ptrs ++ [get_data a]) (offs ++ [0]) s
                  ltac:(lia) Hq2 Ha2 Ho2 Hqo Hnd).
    cbn [app ind_arrays_loop].
    rewrite bind_throw_if, Hq1. cbn [negb].
    replace (i >? 0) with true by (symmetry; apply Z.gtb_lt; lia).
    rewrite !bind_bind, bind_throw_if, Hnd1, Z.eqb_refl. cbn [negb].
    rewrite bind_bind. unfold lookup_id. rewrite bind_or_throw, Hty1.
    rewrite bind_bind, bind_throw_if, Z.eqb_refl. cbn [negb].
    rewrite bind_throw_if, Hsh1.
    rewrite bind_throw_if, Ho1.
    exact IH.
Qed.

(** A call that passes every check made before the loop over the index
    arrays throws what the loop throws. *)
Lemma index_arrays_throw_decides op tables first py_ind second axis_start mode exec_q
    depends t i e :
  buffers_pass op exec_q first py_ind second axis_start mode ->
  types_pass first py_ind second axis_start t i ->
  capacity_passes op first py_ind second axis_start ->
  (forall sh,
     fst (ind_arrays_loop exec_q (index_overlaps op first second)
            (get_ndim (nth 0 py_ind null_array)) i
            (get_shape_raw (nth 0 py_ind null_array)) 0 py_ind sh [] [] fresh_queue)
     = thrown e) ->
  run (orchestrate op tables first py_ind second axis_start mode exec_q depends)
  = (thrown e, []).
Proof.
  intros Hbuf Hty Hcap Hloop.
  assert (Hok : index_list_ok exec_q py_ind) by (unpack; assumption).
  assert (Hi : typenum_to_lookup_id (get_typenum (nth 0 py_ind null_array)) = Some i)
    by (unpack; assumption).
  assert (Hnopass : forall i0,
            typenum_to_lookup_id (get_typenum (nth 0 py_ind null_array)) = Some i0 ->
            index_arrays_pass op first py_ind second i0 -> False).
  { intros i0 Hi0 Hpass. assert (i0 = i) as -> by congruence.
    apply (index_arrays_pass_no_throw op exec_q first py_ind second i e Hok Hi Hpass).
    exists []. apply Hloop. }
  by_exits op tables first py_ind second axis_start mode exec_q depends r Hr Hex.
  destruct Hex; try absurd_exit.
  - apply run_fresh. rewrite Hr. f_equal. f_equal.
    match goal with
    | Hthrow : index_arrays_throw _ _ _ _ _ ?i0 _ |- _ =>
        destruct Hthrow as [sh0 Hthrow];
        assert (i0 = i) as -> by (unpack; congruence);
        rewrite Hloop in Hthrow; congruence
    end.
  - exfalso.
    match goal with
    | Hv : validated _ _ _ _ _ _ _ _ ?i0 |- _ =>
        destruct Hv as (_ & Htp & _ & Hidx); destruct Htp as (_ & _ & Hi0 & _);
        exact (Hnopass i0 Hi0 Hidx)
    end.
  - exfalso.
    match goal with
    | Hv : validated _ _ _ _ _ _ _ _ ?i0 |- _ =>
        destruct Hv as (_ & Htp & _ & Hidx); destruct Htp as (_ & _ & Hi0 & _);
        exact (Hnopass i0 Hi0 Hidx)
    end.
Qed.

(** C2, as the code has it: after the index list and the scalar arguments,
    the checks run in one order, and each throws before any later check
    is made and with nothing asked of the queue: the writability of the
    destination; the range of the axes (for a sum [axis_start + k] that
    fits an [int]), the rank of the other array and the orthogonal
    extents; then, unless the orthogonal element count is zero, in which
    case the call returns, the queues of the two arrays and the overlap of
    the two arrays; then, in take, the type ids of the two arrays, the type
    id of the first index array, the extents of the first index array
    against the other array's, and the capacity of the destination; in
    put, the capacity first and then the same three; last, for each index
    array in the order of the list, its type id and its shape against the
    first index array's and its overlap with the destination.  Each
    conjunct assumes only the checks before it, so its exception is thrown
    whatever the later checks would find. *)
Theorem validation_order tables first py_ind second axis_start mode exec_q depends :
  forall op,
  let call := run (orchestrate op tables first py_ind second axis_start mode exec_q depends) in
  let ind0 := nth 0 py_ind null_array in
  (* writability *)
  (arguments_pass exec_q py_ind axis_start mode ->
   is_writable (destination op first second) = false ->
   call = (thrown NotWritableError, [])) /\
  (* rank and shape of the two arrays *)
  (arguments_pass exec_q py_ind axis_start mode ->
   is_writable (destination op first second) = true ->
   int_sum_fits py_ind axis_start ->
   axes_in_range first py_ind axis_start = false ->
   call = (thrown (value_error ("Axes are out of range for array of dimension " ++
                                to_string (get_ndim first))), [])) /\
  (arguments_pass exec_q py_ind axis_start mode ->
   is_writable (destination op first second) = true ->
   axes_in_range first py_ind axis_start = true ->
   rank_agrees first second py_ind = false ->
   call = (thrown (value_error (rank_message op)), [])) /\
  (arguments_pass exec_q py_ind axis_start mode ->
   is_writable (destination op first second) = true ->
   axes_in_range first py_ind axis_start = true ->
   rank_agrees first second py_ind = true ->
   orthogonal_shapes_agree first second py_ind axis_start = false ->
   call = (thrown (value_error "Axes of basic indices are not of matching shapes."), [])) /\
  (* the return for an orthogonal element count of zero *)
  (geometry_passes op exec_q first py_ind second axis_start mode ->
   orthog_nelems_of first second py_ind axis_start = 0 ->
   call = (returned (default_event, default_event), [])) /\
  (* queues of the two arrays *)
  (geometry_passes op exec_q first py_ind second axis_start mode ->
   orthog_nelems_of first second py_ind axis_start <> 0 ->
   queues_are_compatible exec_q [first; second] = false ->
   call = (thrown (value_error "Execution queue is not compatible with allocation queues"),
           [])) /\
  (* overlap of the two arrays *)
  (geometry_passes op exec_q first py_ind second axis_start mode ->
   orthog_nelems_of first second py_ind axis_start <> 0 ->
   queues_are_compatible exec_q [first; second] = true ->
   buffers_overlap op first second = true ->
   call = (thrown (value_error (overlap_message op)), [])) /\
  (* types of the two arrays: after the capacity in put *)
  (before_types op exec_q first py_ind second axis_start mode ->
   (typenum_to_lookup_id (get_typenum first) = None ->
    call = (thrown UnsupportedType, [])) /\
   (forall t,
      typenum_to_lookup_id (get_typenum first) = Some t ->
      typenum_to_lookup_id (get_typenum second) = None ->
      call = (thrown UnsupportedType, [])) /\
   (forall t t',
      typenum_to_lookup_id (get_typenum first) = Some t ->
      typenum_to_lookup_id (get_typenum second) = Some t' ->
      t <> t' ->
      call = (thrown (type_error "Array data types are not the same."), [])) /\
   (* type of the first index array *)
   (forall t,
      typenum_to_lookup_id (get_typenum first) = Some t ->
      typenum_to_lookup_id (get_typenum second) = Some t ->
      typenum_to_lookup_id (get_typenum ind0) = None ->
      call = (thrown UnsupportedType, [])) /\
   (* extents of the first index array *)
   (forall t i,
      typenum_to_lookup_id (get_typenum first) = Some t ->
      typenum_to_lookup_id (get_typenum second) = Some t ->
      typenum_to_lookup_id (get_typenum ind0) = Some i ->
      ~ index_shape_fits py_ind second axis_start ->
      call = (thrown (value_error (index_shape_message op)), []))) /\
  (* capacity: after the types and the extents of the first index array in take *)
  (before_capacity op exec_q first py_ind second axis_start mode ->
   addressable_nelems (destination op first second) <
     capacity_demand op first py_ind second axis_start ->
   call = (thrown InsufficientCapacityError, [])) /\
  (* the index arrays, in the order of the list *)
  (forall t i,
     buffers_pass op exec_q first py_ind second axis_start mode ->
     types_pass first py_ind second axis_start t i ->
     capacity_passes op first py_ind second axis_start ->
     (index_overlaps op first second ind0 = true ->
      call = (thrown (value_error "Arrays index overlapping segments of memory"), [])) /\
     (forall agreeing offender rest,
        py_ind = ind0 :: agreeing ++ offender :: rest ->
        Forall (agrees_with_first (get_ndim ind0) i (get_shape_raw ind0)) agreeing ->
        Forall (fun a => index_overlaps op first second a = false) (ind0 :: agreeing) ->
        (typenum_to_lookup_id (get_typenum offender) = None ->
         call = (thrown UnsupportedType, [])) /\
        (forall i',
           typenum_to_lookup_id (get_typenum offender) = Some i' -> i' <> i ->
           call = (thrown (type_error "Indices array data types are not all the same."),
                   [])) /\
        (typenum_to_lookup_id (get_typenum offender) = Some i ->
         get_shape_raw offender <> get_shape_raw ind0 ->
         call = (thrown (value_error "Indices shapes are not all equal."), [])) /\
        (typenum_to_lookup_id (get_typenum offender) = Some i ->
         get_shape_raw offender = get_shape_raw ind0 ->
         index_overlaps op first second offender = true ->
         call = (thrown (value_error "Arrays index overlapping segments of memory"),
                 [])))).
Proof.
  intros op call ind0. subst call.
  by_exits op tables first py_ind second axis_start mode exec_q depends r Hr Hex.
  split; [|split; [|split; [|split; [|split; [|split; [|split; [|split; [|split]]]]]]]].
  - intros Hargs Hw.
    destruct Hex; try (apply run_fresh; exact Hr); absurd_exit.
  - intros Hargs Hw _ Hbad.
    destruct Hex; try (apply run_fresh; exact Hr); absurd_exit.
  - intros Hargs Hw Hax Hbad.
    destruct Hex; try (apply run_fresh; exact Hr); absurd_exit.
  - intros Hargs Hw Hax Hrank Hbad.
    destruct Hex; try (apply run_fresh; exact Hr); absurd_exit.
  - intros Hgeo Horth.
    destruct Hex; try (apply run_fresh; exact Hr); absurd_exit.
  - intros Hgeo Horth Hq.
    destruct Hex; try (apply run_fresh; exact Hr); absurd_exit.
  - intros Hgeo Horth Hq Hov.
    destruct Hex; try (apply run_fresh; exact Hr); absurd_exit.
  - intros Hbefore. split; [|split; [|split; [|split]]].
    + intros Hnone.
      destruct op; destruct Hex; try (apply run_fresh; exact Hr); absurd_exit.
    + intros t Ht Hnone.
      destruct op; destruct Hex; try (apply run_fresh; exact Hr); absurd_exit.
    + intros t t' Ht Ht' Hne.
      destruct op; destruct Hex; try (apply run_fresh; exact Hr); absurd_exit.
    + intros t Ht Ht' Hnone. subst ind0.
      destruct op; destruct Hex; try (apply run_fresh; exact Hr); absurd_exit.
    + intros t i Ht Ht' Hi Hfit. subst ind0.
      destruct op; destruct Hex; try (apply run_fresh; exact Hr); absurd_exit.
  - intros Hbefore Hless.
    destruct op; destruct Hex; try (apply run_fresh; exact Hr); absurd_exit.
  - intros t i Hbuf Hty Hcap. clear r Hr Hex.
    assert (Hok : index_list_ok exec_q py_ind) by (unpack; assumption).
    assert (Hne : py_ind <> []) by (unpack; assumption).
    destruct py_ind as [|a l]; [contradiction|]. cbn [nth] in ind0. subst ind0.
    destruct Hok as [Hq Hnd].
    apply Forall_cons_iff in Hq. destruct Hq as [Hq0 Hq].
    apply Forall_cons_iff in Hnd. destruct Hnd as [_ Hnd]. cbn [nth] in Hnd.
    split.
    + intros Hov.
      apply (index_arrays_throw_decides op tables first (a :: l) second axis_start mode
               exec_q depends t i _ Hbuf Hty Hcap).
      intros sh. cbn [nth]. rewrite ind_arrays_loop_first, Hq0, Hov. reflexivity.
    + intros agreeing offender rest Heq Hagree Hov.
      inversion Heq as [Hl]. clear Heq. subst l.
      apply Forall_app in Hq. destruct Hq as [Hqa Hq].
      apply Forall_cons_iff in Hq. destruct Hq as [Hqo _].
      apply Forall_app in Hnd. destruct Hnd as [_ Hnd].
      apply Forall_cons_iff in Hnd. destruct Hnd as [Hndo _].
      apply Forall_cons_iff in Hov. destruct Hov as [Hov0 Hova].
      assert (Hstop : forall e,
                (forall j sh ptrs offs s,
                   0 < j ->
                   ind_arrays_loop exec_q (index_overlaps op first second) (get_ndim a) i
                     (get_shape_raw a) j (agreeing ++ offender :: rest) sh ptrs offs s
                   = (thrown e, s)) ->
                run (orchestrate op tables first (a :: agreeing ++ offender :: rest) second
                       axis_start mode exec_q depends) = (thrown e, [])).
      { intros e He.
        apply (index_arrays_throw_decides op tables first
                 (a :: agreeing ++ offender :: rest) second axis_start mode
                 exec_q depends t i _ Hbuf Hty Hcap).
        intros sh. cbn [nth]. rewrite ind_arrays_loop_first, Hq0, Hov0. cbn [negb].
        rewrite He by lia. reflexivity. }
      split; [|split; [|split]].
      * intros Hnone. apply Hstop. intros j sh ptrs offs s Hj.
        apply (ind_arrays_loop_stops exec_q (index_overlaps op first second)
                 (get_ndim a) i (get_shape_raw a) agreeing offender rest
                 j sh ptrs offs s Hj Hqa Hagree Hova Hqo Hndo). exact Hnone.
      * intros i' Hid Hdiff. apply Hstop. intros j sh ptrs offs s Hj.
        apply (proj1 (proj2 (ind_arrays_loop_stops exec_q (index_overlaps op first second)
                 (get_ndim a) i (get_shape_raw a) agreeing offender rest
                 j sh ptrs offs s Hj Hqa Hagree Hova Hqo Hndo)) i'); assumption.
      * intros Hid Hshape. apply Hstop. intros j sh ptrs offs s Hj.
        apply (proj1 (proj2 (proj2 (ind_arrays_loop_stops exec_q
                 (index_overlaps op first second)
                 (get_ndim a) i (get_shape_raw a) agreeing offender rest
                 j sh ptrs offs s Hj Hqa Hagree Hova Hqo Hndo)))); [exact Hid|].
        destruct (ind_shapes_differ _ _ _) eqn:Hd; [reflexivity|].
        exfalso. apply Hshape. unfold get_ndim in Hd, Hndo.
        apply ind_shapes_differ_false in Hd; [exact Hd|lia].
      * intros Hid Hshape Hover. apply Hstop. intros j sh ptrs offs s Hj.
        apply (proj2 (proj2 (proj2 (ind_arrays_loop_stops exec_q
                 (index_overlaps op first second)
                 (get_ndim a) i (get_shape_raw a) agreeing offender rest
                 j sh ptrs offs s Hj Hqa Hagree Hova Hqo Hndo)))); [exact Hid| |exact Hover].
        rewrite Hshape. unfold ind_shapes_differ.
        apply not_true_is_false. intros Hex. apply existsb_exists in Hex.
        destruct Hex as (dim & _ & Hdim). rewrite Z.eqb_refl in Hdim. discriminate Hdim.
Qed.


(** C6, as the code has it: in a call that reaches the loop over the index
    arrays, the first array that disagrees with the first one stops the
    call with nothing asked of the queue: with a type error when its type
    id differs, otherwise with a value error when its shape differs. *)
Theorem first_disagreeing_index_array_rejected
    op tables first second axis_start mode exec_q depends
    ind0 agreeing offender rest t i :
  buffers_pass op exec_q first (ind0 :: agreeing ++ offender :: rest) second
    axis_start mode ->
  types_pass first (ind0 :: agreeing ++ offender :: rest) second axis_start t i ->
  capacity_passes op first (ind0 :: agreeing ++ offender :: rest) second axis_start ->
  Forall (agrees_with_first (get_ndim ind0) i (get_shape_raw ind0)) agreeing ->
  Forall (fun a => index_overlaps op first second a = false) (ind0 :: agreeing) ->
  (forall i',
     typenum_to_lookup_id (get_typenum offender) = Some i' -> i' <> i ->
     run (orchestrate op tables first (ind0 :: agreeing ++ offender :: rest) second
            axis_start mode exec_q depends)
     = (thrown (type_error "Indices array data types are not all the same."), [])) /\
  (typenum_to_lookup_id (get_typenum offender) = Some i ->
   get_shape_raw offender <> get_shape_raw ind0 ->
   run (orchestrate op tables first (ind0 :: agreeing ++ offender :: rest) second
          axis_start mode exec_q depends)
   = (thrown (value_error "Indices shapes are not all equal."), [])).
Proof.
  intros Hbuf Hty Hcap Hagree Hov.
  set (py_ind := ind0 :: agreeing ++ offender :: rest) in *.
  assert (Hok : index_list_ok exec_q py_ind) by (unpack; assumption).
  destruct Hok as [Hq Hnd].
  apply Forall_cons_iff in Hq. destruct Hq as [Hq0 Hq].
  apply Forall_app in Hq. destruct Hq as [Hqa Hq].
  apply Forall_cons_iff in Hq. destruct Hq as [Hqo _].
  apply Forall_cons_iff in Hnd. destruct Hnd as [_ Hnd].
  apply Forall_app in Hnd. destruct Hnd as [_ Hnd].
  apply Forall_cons_iff in Hnd. destruct Hnd as [Hndo _].
  change (get_ndim offender = get_ndim ind0) in Hndo.
  apply Forall_cons_iff in Hov. destruct Hov as [Hov0 Hova].
  assert (Hi : typenum_to_lookup_id (get_typenum ind0) = Some i) by (unpack; assumption).
  (* what the loop does on this list *)
  assert (Hloop : forall e,
            (forall j sh ptrs offs s,
               0 < j ->
               ind_arrays_loop exec_q (index_overlaps op first second) (get_ndim ind0) i
                 (get_shape_raw ind0) j (agreeing ++ offender :: rest) sh ptrs offs s
               = (thrown e, s)) ->
            forall i0 e0,
              typenum_to_lookup_id (get_typenum ind0) = Some i0 ->
              index_arrays_throw op exec_q first py_ind second i0 e0 -> e0 = e).
  { intros e He i0 e0 Hi0 [sh Hthrow].
    assert (i0 = i) as -> by congruence.
    unfold py_ind in Hthrow. cbn [nth] in Hthrow.
    rewrite ind_arrays_loop_first in Hthrow. rewrite Hq0, Hov0 in Hthrow.
    cbn [negb] in Hthrow. rewrite He in Hthrow by lia.
    simpl in Hthrow. congruence. }
  assert (Hnopass : forall i0,
            index_arrays_pass op first py_ind second i0 ->
            typenum_to_lookup_id (get_typenum offender) = Some i0 /\
            ind_shapes_differ (get_shape_raw ind0) (get_shape_raw offender)
              (get_ndim ind0) = false).
  { intros i0 [Hall _]. unfold py_ind in Hall. cbn [tl nth] in Hall.
    apply Forall_app in Hall. destruct Hall as [_ Hall].
    apply Forall_cons_iff in Hall. destruct Hall as [(_ & Hid & Hsh) _].
    split; assumption. }
  by_exits op tables first py_ind second axis_start mode exec_q depends r Hr Hex.
  split.
  - intros i' Hid Hne.
    destruct Hex; try absurd_exit.
    + apply run_fresh. rewrite Hr. f_equal. f_equal.
      eapply Hloop; [| |eassumption];
        [|match goal with
          | Htp : types_pass _ _ _ _ _ _ |- _ =>
              let Hi0 := fresh in destruct Htp as (_ & _ & Hi0 & _); exact Hi0
          end].
      intros j sh ptrs offs s Hj.
      apply (proj1 (ind_arrays_loop_offender exec_q (index_overlaps op first second)
               (get_ndim ind0) i (get_shape_raw ind0) agreeing offender rest
               j sh ptrs offs s Hj Hqa Hagree Hova Hqo Hndo) i'); assumption.
    + exfalso.
      match goal with
      | Hv : validated _ _ _ _ _ _ _ _ _ |- _ => destruct Hv as (_ & Htp & _ & Hidx)
      end.
      destruct (Hnopass i0 Hidx) as [Hid' _]. destruct Htp as (_ & _ & Hi0 & _).
      change (typenum_to_lookup_id (get_typenum ind0) = Some i0) in Hi0. congruence.
    + exfalso.
      match goal with
      | Hv : validated _ _ _ _ _ _ _ _ _ |- _ => destruct Hv as (_ & Htp & _ & Hidx)
      end.
      destruct (Hnopass i0 Hidx) as [Hid' _]. destruct Htp as (_ & _ & Hi0 & _).
      change (typenum_to_lookup_id (get_typenum ind0) = Some i0) in Hi0. congruence.
  - intros Hid Hshape.
    assert (Hdiff : ind_shapes_differ (get_shape_raw ind0) (get_shape_raw offender)
                      (get_ndim ind0) = true).
    { destruct (ind_shapes_differ _ _ _) eqn:Hd; [reflexivity|].
      exfalso. apply Hshape. unfold get_ndim in Hd, Hndo.
      apply ind_shapes_differ_false in Hd; [exact Hd|lia]. }
    destruct Hex; try absurd_exit.
    + apply run_fresh. rewrite Hr. f_equal. f_equal.
      eapply Hloop; [| |eassumption];
        [|match goal with
          | Htp : types_pass _ _ _ _ _ _ |- _ =>
              let Hi0 := fresh in destruct Htp as (_ & _ & Hi0 & _); exact Hi0
          end].
      intros j sh ptrs offs s Hj.
      apply (proj2 (ind_arrays_loop_offender exec_q (index_overlaps op first second)
               (get_ndim ind0) i (get_shape_raw ind0) agreeing offender rest
               j sh ptrs offs s Hj Hqa Hagree Hova Hqo Hndo)); assumption.
    + exfalso.
      match goal with
      | Hv : validated _ _ _ _ _ _ _ _ _ |- _ => destruct Hv as (_ & _ & _ & Hidx)
      end.
      destruct (Hnopass i0 Hidx) as [_ Hsh']. congruence.
    + exfalso.
      match goal with
      | Hv : validated _ _ _ _ _ _ _ _ _ |- _ => destruct Hv as (_ & _ & _ & Hidx)
      end.
      destruct (Hnopass i0 Hidx) as [_ Hsh']. congruence.
Qed.


Lemma bind_ext {A B} (c : M A) (k k' : A -> M B) (s : queue_state) :
  (forall a s', k a s' = k' a s') -> bind c k s = bind c k' s.
Proof.
  intros H. unfold bind. destruct (c s) as [[a|e] s']; [apply H|reflexivity].
Qed.

Lemma mode_rejected (mode : Z) :
  mode <> 0 -> mode <> 1 -> negb (mode =? 0) && negb (mode =? 1) = true.
Proof.
  intros H0 H1. apply Z.eqb_neq in H0, H1. rewrite H0, H1. reflexivity.
Qed.

Lemma mode_accepted (mode : Z) :
  negb (mode =? 0) && negb (mode =? 1) = false -> mode = 0 \/ mode = 1.
Proof.
  intros H. destruct (mode =? 0) eqn:H0; [left; apply Z.eqb_eq; exact H0|].
  destruct (mode =? 1) eqn:H1; [right; apply Z.eqb_eq; exact H1|discriminate].
Qed.

(** The allocation stage reads one entry of the table. *)
Lemma pack_and_submit_entry table table' first second axis_start mode k ind_nd first_nd
    orthog_nelems ind_nelems ind_sh_elems first_type_id ind_type_id
    ind_sh_sts ind_ptrs ind_offsets depends s :
  table' mode first_type_id ind_type_id = table mode first_type_id ind_type_id ->
  pack_and_submit table' first second axis_start mode k ind_nd first_nd
    orthog_nelems ind_nelems ind_sh_elems first_type_id ind_type_id
    ind_sh_sts ind_ptrs ind_offsets depends s =
  pack_and_submit table first second axis_start mode k ind_nd first_nd
    orthog_nelems ind_nelems ind_sh_elems first_type_id ind_type_id
    ind_sh_sts ind_ptrs ind_offsets depends s.
Proof.
  intros H. unfold pack_and_submit. rewrite H. reflexivity.
Qed.

(** Steps through two runs of the same code that differ only after the
    checks. *)
Ltac same_checks :=
  repeat (cbv beta;
          match goal with
          | |- bind _ _ _ = bind _ _ _ => apply bind_ext; intros
          | |- (if ?c then _ else _) _ = (if ?c then _ else _) _ =>
              destruct c; [reflexivity|]
          end).

Lemma usm_ndarray_take_reads_two_rows tables tables' src py_ind dst axis_start mode
    exec_q depends s :
  (forall t i, take_dispatch_table tables' 0 t i = take_dispatch_table tables 0 t i) ->
  (forall t i, take_dispatch_table tables' 1 t i = take_dispatch_table tables 1 t i) ->
  usm_ndarray_take tables' src py_ind dst axis_start mode exec_q depends s =
  usm_ndarray_take tables src py_ind dst axis_start mode exec_q depends s.
Proof.
  intros H0 H1. unfold usm_ndarray_take.
  apply bind_ext; intros ind s1. cbv zeta.
  apply bind_ext; intros _ s2.
  apply bind_ext; intros _ s3.
  rewrite !bind_throw_if.
  destruct (negb (mode =? 0) && negb (mode =? 1)) eqn:Hmode; [reflexivity|].
  apply mode_accepted in Hmode.
  same_checks.
  apply pack_and_submit_entry. destruct Hmode as [-> | ->]; [apply H0|apply H1].
Qed.

Lemma usm_ndarray_put_reads_two_rows tables tables' dst py_ind val axis_start mode
    exec_q depends s :
  (forall t i, put_dispatch_table tables' 0 t i = put_dispatch_table tables 0 t i) ->
  (forall t i, put_dispatch_table tables' 1 t i = put_dispatch_table tables 1 t i) ->
  usm_ndarray_put tables' dst py_ind val axis_start mode exec_q depends s =
  usm_ndarray_put tables dst py_ind val axis_start mode exec_q depends s.
Proof.
  intros H0 H1. unfold usm_ndarray_put.
  apply bind_ext; intros ind s1. cbv zeta.
  apply bind_ext; intros _ s2.
  apply bind_ext; intros _ s3.
  rewrite !bind_throw_if.
  destruct (negb (mode =? 0) && negb (mode =? 1)) eqn:Hmode; [reflexivity|].
  apply mode_accepted in Hmode.
  same_checks.
  apply pack_and_submit_entry. destruct Hmode as [-> | ->]; [apply H0|apply H1].
Qed.

(** With a mode that is rejected, nothing of the two arrays is looked at. *)
Lemma rejected_mode_ignores_buffers op tables first first' py_ind second second'
    axis_start mode exec_q depends s :
  mode <> 0 -> mode <> 1 ->
  orchestrate op tables first' py_ind second' axis_start mode exec_q depends s =
  orchestrate op tables first py_ind second axis_start mode exec_q depends s.
Proof.
  intros H0 H1. pose proof (mode_rejected mode H0 H1) as Hmode.
  destruct op; unfold orchestrate, usm_ndarray_take, usm_ndarray_put;
    (apply bind_ext; intros ind s1); cbv zeta;
    (apply bind_ext; intros _ s2);
    (apply bind_ext; intros _ s3);
    rewrite !bind_throw_if, Hmode; reflexivity.
Qed.

(** C10: a mode other than 0 and 1 makes take and put throw a value error
    with nothing asked of the queue; the check follows those on the index
    list and on the axis and precedes everything that looks at the two
    arrays, so the result does not depend on them; and whatever the mode,
    a call reads the dispatch table only in rows 0 and 1. *)
Theorem mode_checked_before_buffers
    op tables first py_ind second axis_start mode exec_q depends :
  (mode <> 0 -> mode <> 1 ->
   (exists msg,
      run (orchestrate op tables first py_ind second axis_start mode exec_q depends)
      = (thrown (value_error msg), [])) /\
   (index_list_ok exec_q py_ind -> py_ind <> [] -> 0 <= axis_start ->
    run (orchestrate op tables first py_ind second axis_start mode exec_q depends)
    = (thrown (value_error "Mode must be 0 or 1."), [])) /\
   (forall first' second',
      run (orchestrate op tables first' py_ind second' axis_start mode exec_q depends)
      = run (orchestrate op tables first py_ind second axis_start mode exec_q depends)))
  /\
  (forall tables',
     (forall t i, table_of op tables' 0 t i = table_of op tables 0 t i) ->
     (forall t i, table_of op tables' 1 t i = table_of op tables 1 t i) ->
     run (orchestrate op tables' first py_ind second axis_start mode exec_q depends)
     = run (orchestrate op tables first py_ind second axis_start mode exec_q depends)).
Proof.
  split.
  - intros H0 H1.
    by_exits op tables first py_ind second axis_start mode exec_q depends r Hr Hex.
    split; [|split].
    + destruct Hex; try (eexists; apply run_fresh; exact Hr); absurd_exit.
    + intros Hok Hne Hax.
      destruct Hex; try (apply run_fresh; exact Hr); absurd_exit.
    + intros first' second'. unfold run. cbv zeta.
      rewrite (rejected_mode_ignores_buffers op tables first first' py_ind second second'
                 axis_start mode exec_q depends fresh_queue H0 H1).
      reflexivity.
  - intros tables' H0 H1. unfold run. cbv zeta.
    destruct op; unfold orchestrate.
    + rewrite (usm_ndarray_take_reads_two_rows tables tables' first py_ind second
                 axis_start mode exec_q depends fresh_queue H0 H1). reflexivity.
    + rewrite (usm_ndarray_put_reads_two_rows tables tables' first py_ind second
                 axis_start mode exec_q depends fresh_queue H0 H1). reflexivity.
Qed.

(** C9: with an empty list of index arrays take and put throw the value
    error "List of indices is empty." and ask nothing of the queue. *)
Theorem empty_index_list_rejected tables first second axis_start mode exec_q depends :
  run (usm_ndarray_take tables first [] second axis_start mode exec_q depends)
  = (thrown (value_error "List of indices is empty."), []) /\
  run (usm_ndarray_put tables first [] second axis_start mode exec_q depends)
  = (thrown (value_error "List of indices is empty."), []).
Proof. split; reflexivity. Qed.

End Claims.

(** ** Index projection *)

Lemma project_index_in_range (mode max_item ind : Z) :
  0 < max_item -> 0 <= project_index mode max_item ind < max_item.
Proof.
  intros Hpos. unfold project_index, WrapIndex, ClipIndex.
  destruct (mode =? WRAP_MODE).
  - apply Z.mod_pos_bound. exact Hpos.
  - lia.
Qed.

(** C8, for an indexed axis that has at least one element: with the
    projections of the kernels as the specification describes them, a
    clipped index at or beyond the axis length reads what the last valid
    index reads, a wrapped index equal to the axis length reads what index
    0 reads, and no index of either mode reads outside the axis; row
    [CLIP_MODE] of the take table holds the clip routines and row
    [WRAP_MODE] the wrap routines.  An axis without elements has no valid
    index, and the checks of take do not exclude it. *)
Theorem out_of_range_indices_remapped {A} (axis_data : list A) :
  0 < Z.of_nat (length axis_data) ->
  (forall before v after,
     Z.of_nat (length axis_data) <= v ->
     take_along_axis CLIP_MODE axis_data (before ++ v :: after) =
     take_along_axis CLIP_MODE axis_data
       (before ++ (Z.of_nat (length axis_data) - 1) :: after)) /\
  (forall before after,
     take_along_axis WRAP_MODE axis_data (before ++ Z.of_nat (length axis_data) :: after) =
     take_along_axis WRAP_MODE axis_data (before ++ 0 :: after)) /\
  (forall mode indices,
     Forall (fun r => r <> None) (take_along_axis mode axis_data indices)) /\
  (forall (C : Collaborators) t,
     take_dispatch_table (init_advanced_indexing_dispatch_tables t) CLIP_MODE
     = TakeClipFactory /\
     take_dispatch_table (init_advanced_indexing_dispatch_tables t) WRAP_MODE
     = TakeWrapFactory).
Proof.
  intros Hpos. split; [|split; [|split]].
  - intros before v after Hv. unfold take_along_axis.
    rewrite !map_app. cbn [map]. do 3 f_equal.
    unfold project_index, ClipIndex. cbn [CLIP_MODE WRAP_MODE Z.eqb]. lia.
  - intros before after. unfold take_along_axis.
    rewrite !map_app. cbn [map]. do 3 f_equal.
    unfold project_index, WrapIndex. cbn [WRAP_MODE Z.eqb].
    rewrite Z.mod_same by lia. rewrite Z.mod_0_l by lia. reflexivity.
  - intros mode indices. unfold take_along_axis. apply Forall_map.
    apply Forall_forall. intros ind _.
    apply nth_error_Some.
    pose proof (project_index_in_range mode (Z.of_nat (length axis_data)) ind Hpos).
    lia.
  - intros C t. split; reflexivity.
Qed.

(** ** The theorems at work on the sample arrays *)

(** Decides a validation stage on concrete arrays. *)
Ltac decide_stage :=
  unfold validated, before_types, before_capacity, buffers_pass, geometry_passes,
    arguments_pass, types_pass, capacity_passes, index_arrays_pass,
    scalar_arguments_ok, index_list_ok, agrees_with_first;
  repeat match goal with
         | |- _ /\ _ => split
         | |- Forall _ _ => constructor
         | |- index_shape_fits _ _ _ =>
             apply index_shape_fits_range; vm_compute; intros i Hi;
             repeat (destruct Hi as [<-|Hi]; [reflexivity|]); contradiction
         | |- _ = _ => vm_compute; reflexivity
         | |- _ <> _ => vm_compute; discriminate
         | |- (_ <= _)%Z => vm_compute; discriminate
         | |- (_ < _)%Z => vm_compute; reflexivity
         | |- _ = _ \/ _ => left; vm_compute; reflexivity
         | |- _ \/ _ = _ => right; vm_compute; reflexivity
         | |- _ -> _ => intros _
         | |- exists _, _ => eexists
         end.

Lemma derived_rank_enforced_witness :
  get_ndim deep_dst <> derived_rank (get_ndim sample_src) 1 (get_ndim sample_ind) /\
  run (@usm_ndarray_take sample_collaborators sample_tables sample_src [sample_ind]
         deep_dst 1 0 1 [])
  = (thrown (value_error "Destination is not of appropriate dimension for take kernel."),
     []).
Proof.
  split; [vm_compute; discriminate|].
  apply (@derived_rank_enforced sample_collaborators Take sample_tables sample_src
           [sample_ind] deep_dst 1 0 1 []); decide_stage.
Defined.


(** C5: take with [2 ^ 32] orthogonal elements and [2 ^ 32] index elements
    writes [2 ^ 64] elements.  Neither count is zero, so the call does not
    return early; their product in [std::size_t] is 0 (line 364), which
    the capacity check accepts for a destination that addresses a single
    element; the call stages the metadata and submits the routine. *)
Theorem capacity_check_misses_wrapped_product :
  list_prod (orthogonal_extents (get_shape_raw wide_src) 1 1) *
  list_prod (get_shape_raw wide_ind) = 2 ^ 64 /\
  @addressable_nelems sample_collaborators wide_dst = 1 /\
  capacity_demand Take wide_src [wide_ind] wide_dst 1 = 0 /\
  run (@usm_ndarray_take sample_collaborators sample_tables wide_src [wide_ind] wide_dst
         1 0 1 [])
  = (returned (submitted_event 8, submitted_event 6),
     staging_trace 1 1 1 [2000] [4294967296; 0] [0] [4294967296; 0; 0]
       [5; 1; 4294967296; 0] ++
     [kernel_submit 11%nat
        (mk_kernel_args 4294967296 4294967296 1 1 1 3 4 1 1000 3000 0 0 0 2)
        pack_deps_events 6;
      async_smart_free [submitted_event 6] [3; 4; 1; 0; 2]%nat 7;
      keep_args_alive [submitted_event 5; submitted_event 7] 8]).
Proof. repeat split; vm_compute; reflexivity. Qed.

(** The call of C1 with an index array of a type that has no routine: the
    entry is null, and the exception comes after five device allocations
    and five copies. *)
Lemma null_entry_reached_after_allocation :
  take_dispatch_table sample_tables 0 9 10 = None /\
  run (@usm_ndarray_take sample_collaborators sample_tables sample_src [float_ind]
         sample_dst 1 0 1 [])
  = (thrown (runtime_error "Indices must be integer type, got 10"),
     staging_trace 1 1 1 [2000] [3; 1] [0] [4; 5; 3] [5; 1; 3; 1] ++
     [event_wait [submitted_event 5]]) /\
  device_allocations
    (snd (run (@usm_ndarray_take sample_collaborators sample_tables sample_src [float_ind]
                 sample_dst 1 0 1 [])))
  = [0; 1; 2; 3; 4]%nat.
Proof. repeat split; vm_compute; reflexivity. Qed.

Lemma null_entry_found_after_packing_witness :
  (exists p1 p2 p3 p4 p5,
     run (@usm_ndarray_take sample_collaborators sample_tables sample_src [float_ind]
            sample_dst 1 0 1 [])
     = (thrown (runtime_error ("Indices must be integer type, got " ++ to_string 10)),
        staging_trace 1 1 1 p1 p2 p3 p4 p5 ++ [event_wait [submitted_event 5]])) /\
  ((@nil action = [] /\
    forall msg, value_error "Mode must be 0 or 1." <> runtime_error msg) \/
   (exists i,
      value_error "Mode must be 0 or 1."
      = runtime_error ("Indices must be integer type, got " ++ to_string i) /\
      forallb (fun a => negb (is_kernel_submit a || is_async_smart_free a)) [] = true)).
Proof.
  split.
  - apply (proj1 (@null_entry_found_after_packing sample_collaborators Take sample_tables
                    sample_src [float_ind] sample_dst 1 0 1 []) 9 10); decide_stage.
  - exact (proj2 (@null_entry_found_after_packing sample_collaborators Take sample_tables
                    sample_src [sample_ind] sample_dst 1 2 1 [])
             (value_error "Mode must be 0 or 1.") [] eq_refl).
Defined.

(** The call of C2 with a destination of a wrong rank and of another type:
    the rank check speaks, although type agreement comes second in the
    order of the claim. *)
Lemma rank_checked_before_types :
  @typenum_to_lookup_id sample_collaborators (get_typenum sample_src) = Some 9 /\
  @typenum_to_lookup_id sample_collaborators (get_typenum deep_dst) = Some 3 /\
  run (@usm_ndarray_take sample_collaborators sample_tables sample_src [sample_ind]
         deep_dst 1 0 1 [])
  = (thrown (value_error "Destination is not of appropriate dimension for take kernel."),
     []).
Proof. repeat split; vm_compute; reflexivity. Qed.

Lemma validation_order_witness :
  run (@usm_ndarray_take sample_collaborators sample_tables sample_src [long_ind]
         remote_dst 1 0 1 [])
  = (thrown (value_error "Execution queue is not compatible with allocation queues"), []) /\
  run (@usm_ndarray_take sample_collaborators sample_tables sample_src [aliasing_ind]
         broadcast_dst_other 1 0 1 [])
  = (thrown (type_error "Array data types are not the same."), []) /\
  run (@usm_ndarray_take sample_collaborators sample_tables sample_src
         [sample_ind; short_ind] broadcast_line 0 0 1 [])
  = (thrown InsufficientCapacityError, []) /\
  run (@usm_ndarray_put sample_collaborators sample_tables broadcast_wide [sample_ind]
         other_val 1 0 1 [])
  = (thrown InsufficientCapacityError, []) /\
  run (@usm_ndarray_take sample_collaborators sample_tables sample_src
         [sample_ind; aliasing_ind] line_dst 0 0 1 [])
  = (thrown (value_error "Arrays index overlapping segments of memory"), []).
Proof.
  split; [|split; [|split; [|split]]].
  - destruct (@validation_order sample_collaborators sample_tables sample_src [long_ind]
                remote_dst 1 0 1 [] Take) as (_ & _ & _ & _ & _ & Hqueues & _).
    apply Hqueues; decide_stage.
  - destruct (@validation_order sample_collaborators sample_tables sample_src
                [aliasing_ind] broadcast_dst_other 1 0 1 [] Take)
      as (_ & _ & _ & _ & _ & _ & _ & Htypes & _).
    assert (Hbefore : @before_types sample_collaborators Take 1 sample_src [aliasing_ind]
                        broadcast_dst_other 1 0)
      by (split; [decide_stage|discriminate]).
    destruct (Htypes Hbefore) as (_ & _ & Hdiffer & _).
    apply (Hdiffer 9 3); [reflexivity|reflexivity|discriminate].
  - destruct (@validation_order sample_collaborators sample_tables sample_src
                [sample_ind; short_ind] broadcast_line 0 0 1 [] Take)
      as (_ & _ & _ & _ & _ & _ & _ & _ & Hcapacity & _).
    apply Hcapacity; [|vm_compute; reflexivity].
    split; [decide_stage|]. intros _. exists 9, 7. decide_stage.
  - destruct (@validation_order sample_collaborators sample_tables broadcast_wide
                [sample_ind] other_val 1 0 1 [] Put)
      as (_ & _ & _ & _ & _ & _ & _ & _ & Hcapacity & _).
    apply Hcapacity; [|vm_compute; reflexivity].
    split; [decide_stage|discriminate].
  - destruct (@validation_order sample_collaborators sample_tables sample_src
                [sample_ind; aliasing_ind] line_dst 0 0 1 [] Take)
      as (_ & _ & _ & _ & _ & _ & _ & _ & _ & Hindices).
    assert (Hbuffers : @buffers_pass sample_collaborators Take 1 sample_src
                         [sample_ind; aliasing_ind] line_dst 0 0) by decide_stage.
    assert (Htypes : @types_pass sample_collaborators sample_src
                       [sample_ind; aliasing_ind] line_dst 0 9 7) by decide_stage.
    assert (Hcapacity : @capacity_passes sample_collaborators Take sample_src
                          [sample_ind; aliasing_ind] line_dst 0) by decide_stage.
    destruct (Hindices 9 7 Hbuffers Htypes Hcapacity) as (_ & Hlater).
    assert (Hclear : Forall (fun a => @index_overlaps sample_collaborators Take sample_src
                                        line_dst a = false) [sample_ind])
      by decide_stage.
    destruct (Hlater [] aliasing_ind [] eq_refl ltac:(constructor) Hclear)
      as (_ & _ & _ & Hoverlap).
    apply Hoverlap; reflexivity.
Defined.

(** The call of C3 with an index array without elements and a destination
    of another type: the call throws. *)
Lemma empty_index_call_throws :
  list_prod (get_shape_raw empty_ind) = 0 /\
  run (@usm_ndarray_take sample_collaborators sample_tables sample_src [empty_ind]
         empty_dst 1 0 1 [])
  = (thrown (type_error "Array data types are not the same."), []).
Proof. split; vm_compute; reflexivity. Qed.

Lemma degenerate_calls_return_default_events_witness :
  run (@usm_ndarray_take sample_collaborators sample_tables flat_src
         [sample_ind; long_ind] flat_dst 1 0 1 [])
  = (returned (default_event, default_event), []) /\
  run (@usm_ndarray_take sample_collaborators sample_tables sample_src [empty_ind]
         (mk_usm_ndarray 3000 9 [4; 0] [1; 1] true 1) 1 0 1 [])
  = (returned (default_event, default_event), []).
Proof.
  split.
  - apply (proj1 (@degenerate_calls_return_default_events sample_collaborators Take
                    sample_tables flat_src [sample_ind; long_ind] flat_dst 1 0 1 []));
      decide_stage.
  - apply (proj2 (@degenerate_calls_return_default_events sample_collaborators Take
                    sample_tables sample_src [empty_ind]
                    (mk_usm_ndarray 3000 9 [4; 0] [1; 1] true 1) 1 0 1 []) 9 7);
      decide_stage.
Defined.

(** The call of C6 with index arrays of three and of four elements over a
    source without elements: the call returns. *)
Lemma disagreeing_shapes_accepted :
  get_shape_raw long_ind <> get_shape_raw sample_ind /\
  run (@usm_ndarray_take sample_collaborators sample_tables flat_src
         [sample_ind; long_ind] flat_dst 1 0 1 [])
  = (returned (default_event, default_event), []).
Proof. split; [discriminate|vm_compute; reflexivity]. Qed.

Lemma first_disagreeing_index_array_rejected_witness :
  run (@usm_ndarray_take sample_collaborators sample_tables sample_src
         [sample_ind; short_ind] line_dst 0 0 1 [])
  = (thrown (type_error "Indices array data types are not all the same."), []) /\
  run (@usm_ndarray_take sample_collaborators sample_tables sample_src
         [sample_ind; long_ind] line_dst 0 0 1 [])
  = (thrown (value_error "Indices shapes are not all equal."), []).
Proof.
  split.
  - apply (proj1 (@first_disagreeing_index_array_rejected sample_collaborators Take
                    sample_tables sample_src line_dst 0 0 1 [] sample_ind [] short_ind []
                    9 7 ltac:(decide_stage) ltac:(decide_stage) ltac:(decide_stage)
                    ltac:(constructor) ltac:(decide_stage)) 6);
      [vm_compute; reflexivity|discriminate].
  - apply (proj2 (@first_disagreeing_index_array_rejected sample_collaborators Take
                    sample_tables sample_src line_dst 0 0 1 [] sample_ind [] long_ind []
                    9 7 ltac:(decide_stage) ltac:(decide_stage) ltac:(decide_stage)
                    ltac:(constructor) ltac:(decide_stage)));
      [vm_compute; reflexivity|discriminate].
Defined.

Lemma scratch_release_follows_compute_witness :
  exists pre fn args deps compute_ev owners free_ev keep_deps keep_ev,
    snd (run (@usm_ndarray_take sample_collaborators sample_tables sample_src
                [sample_ind] sample_dst 1 0 1 []))
    = pre ++ [kernel_submit fn args deps compute_ev;
              async_smart_free [submitted_event compute_ev] owners free_ev;
              keep_args_alive keep_deps keep_ev] /\
    forall sched,
      respects_dependencies
        (snd (run (@usm_ndarray_take sample_collaborators sample_tables sample_src
                     [sample_ind] sample_dst 1 0 1 []))) sched ->
      In free_ev sched -> runs_before sched compute_ev free_ev.
Proof.
  destruct (@scratch_release_follows_compute sample_collaborators Take sample_tables
              sample_src [sample_ind] sample_dst 1 0 1 []
              (submitted_event 8, submitted_event 6)
              (snd (run (@usm_ndarray_take sample_collaborators sample_tables sample_src
                           [sample_ind] sample_dst 1 0 1 [])))
              ltac:(vm_compute; reflexivity))
    as [[Hnil _]|(pre & fn & args & deps & compute_ev & owners & free_ev & keep_deps &
                  keep_ev & Htr & _ & _ & _ & _ & _ & Hsched)].
  - vm_compute in Hnil. discriminate Hnil.
  - exists pre, fn, args, deps, compute_ev, owners, free_ev, keep_deps, keep_ev.
    split; [exact Htr|exact Hsched].
Defined.

Lemma mode_checked_before_buffers_witness :
  run (@usm_ndarray_take sample_collaborators sample_tables sample_src [sample_ind]
         sample_dst 1 2 1 [])
  = (thrown (value_error "Mode must be 0 or 1."), []) /\
  run (@usm_ndarray_put sample_collaborators sample_tables deep_dst [sample_ind]
         empty_dst 1 2 1 [])
  = run (@usm_ndarray_put sample_collaborators sample_tables sample_src [sample_ind]
           sample_dst 1 2 1 []).
Proof.
  split.
  - apply (proj1 (proj2 (proj1 (@mode_checked_before_buffers sample_collaborators Take
                                  sample_tables sample_src [sample_ind] sample_dst
                                  1 2 1 [])
                           ltac:(discriminate) ltac:(discriminate))));
      decide_stage.
  - exact (proj2 (proj2 (proj1 (@mode_checked_before_buffers sample_collaborators Put
                                  sample_tables sample_src [sample_ind] sample_dst
                                  1 2 1 [])
                           ltac:(discriminate) ltac:(discriminate)))
             deep_dst empty_dst).
Defined.

(** The call of C8 on a source whose only axis has no element, with three
    index values: the call passes every check and submits the routine, and
    neither projection finds an element to read. *)
Lemma empty_axis_has_no_valid_index :
  get_shape_raw hollow_src = [0] /\
  fst (run (@usm_ndarray_take sample_collaborators sample_tables hollow_src [sample_ind]
              line_dst 0 0 1 []))
  = returned (submitted_event 8, submitted_event 6) /\
  existsb is_kernel_submit
    (snd (run (@usm_ndarray_take sample_collaborators sample_tables hollow_src [sample_ind]
                 line_dst 0 0 1 []))) = true /\
  take_along_axis WRAP_MODE (@nil Z) [0; 1; 2] = [None; None; None] /\
  take_along_axis CLIP_MODE (@nil Z) [0; 1; 2] = [None; None; None].
Proof. repeat split; vm_compute; reflexivity. Qed.

Lemma out_of_range_indices_remapped_witness :
  take_along_axis CLIP_MODE [10; 20; 30] [0; 7; 1] = [Some 10; Some 30; Some 20] /\
  take_along_axis WRAP_MODE [10; 20; 30] [2; 3] = [Some 30; Some 10].
Proof.
  destruct (@out_of_range_indices_remapped Z [10; 20; 30] ltac:(reflexivity))
    as (Hclip & Hwrap & _).
  split.
  - pose proof (Hclip [0] 7 [1] ltac:(vm_compute; discriminate)) as H.
    cbn [app] in H. rewrite H. reflexivity.
  - pose proof (Hwrap [2] []) as H.
    cbn [app length Z.of_nat Pos.of_succ_nat Pos.succ] in H. rewrite H. reflexivity.
Defined.

(** * Further properties: packing, submission, exceptions, strings *)

(** ** Host vectors *)

Lemma std_copy_length (src dst : list Z) (pos : Z) :
  length (std_copy src dst pos) = length dst.
Proof.
  unfold std_copy. rewrite length_firstn, !length_app, length_firstn, length_skipn. lia.
Qed.

(** A copy that covers the whole vector replaces it. *)
Lemma std_copy_all (src dst : list Z) :
  length src = length dst -> std_copy src dst 0 = src.
Proof.
  intros Hlen. unfold std_copy. cbn [Z.to_nat firstn app Nat.add].
  rewrite skipn_all2 by lia. rewrite app_nil_r. apply firstn_all2. lia.
Qed.

(** ** What [pack_and_submit] asks of the queue *)

Lemma pack_and_submit_run table first second axis_start mode k ind_nd first_nd
    orthog_nelems ind_nelems ind_sh_elems first_type_id ind_type_id
    ind_sh_sts ind_ptrs ind_offsets depends :
  run (pack_and_submit table first second axis_start mode k ind_nd first_nd
         orthog_nelems ind_nelems ind_sh_elems first_type_id ind_type_id
         ind_sh_sts ind_ptrs ind_offsets depends) =
  (match table mode first_type_id ind_type_id with
   | None => thrown (runtime_error
                       ("Indices must be integer type, got " ++ to_string ind_type_id))
   | Some _ => returned (submitted_event 8, submitted_event 6)
   end,
   staging_trace k ind_sh_elems (Z.max (first_nd - k) 1)
     (std_copy ind_ptrs (zero_vector k) 0)
     (std_copy ind_sh_sts (zero_vector (ind_sh_elems * (k + 1))) 0)
     (std_copy ind_offsets (zero_vector k) 0)
     (staged_orthog_sh_st (get_shape_raw first) (get_strides_vector first)
        (get_strides_vector second) axis_start k ind_nd first_nd (Z.max (first_nd - k) 1))
     (staged_along_sh_st (get_shape_raw first) (get_shape_raw second)
        (get_strides_vector first) (get_strides_vector second)
        axis_start k ind_nd first_nd ind_sh_elems) ++
   submission_tail table first second mode k first_nd orthog_nelems ind_nelems
     ind_sh_elems first_type_id ind_type_id depends).
Proof.
  unfold run, pack_and_submit, _populate_kernel_params, staging_trace,
    pack_deps_events, submission_tail, staged_orthog_sh_st, staged_along_sh_st, zero_vector.
  cbv [bind malloc_device fresh_ptr record make_shared_vector exec_q_copy fresh_event
       submit_host_task ret fresh_queue next_event next_ptr submitted fst snd app].
  destruct (table mode first_type_id ind_type_id) as [fn|].
  - cbv [bind call_kernel do_async_smart_free do_keep_args_alive record fresh_event ret
         next_event next_ptr submitted fst snd app].
    reflexivity.
  - cbv [bind do_event_wait record throw next_event next_ptr submitted fst snd app].
    reflexivity.
Qed.

(** ** A validated call hands the packed index metadata to [pack_and_submit] *)

Section Packs.
Context `{C : Collaborators}.

Lemma usm_ndarray_take_packs tables src py_ind dst axis_start mode exec_q depends t i packed :
  validated Take exec_q src py_ind dst axis_start mode t i ->
  index_nelems py_ind <> 0 ->
  fst (ind_arrays_loop exec_q (index_overlaps Take src dst)
         (get_ndim (nth 0 py_ind null_array)) i (get_shape_raw (nth 0 py_ind null_array))
         0 py_ind (initial_ind_sh_sts py_ind) [] [] fresh_queue) = returned packed ->
  usm_ndarray_take tables src py_ind dst axis_start mode exec_q depends fresh_queue =
  pack_and_submit (take_dispatch_table tables) src dst axis_start mode
    (Z.of_nat (length py_ind)) (get_ndim (nth 0 py_ind null_array)) (get_ndim src)
    (orthog_nelems_of src dst py_ind axis_start) (index_nelems py_ind)
    (Z.max (get_ndim (nth 0 py_ind null_array)) 1) t i
    (fst (fst packed)) (snd (fst packed)) (snd packed) depends fresh_queue.
Proof.
  intros Hval Hn Hloop. unpack.
  cbn [destination buffers_overlap] in *.
  unfold usm_ndarray_take.
  rewrite (bind_returned _ _ _ py_ind (stateless_parse_py_ind _ _))
    by (rewrite parse_py_ind_ok by assumption; reflexivity).
  cbv zeta.
  rewrite bind_throw_if.
  replace (Z.of_nat (length py_ind) =? 0) with false
    by (symmetry; apply Z.eqb_neq; destruct py_ind; [contradiction|discriminate]).
  rewrite bind_throw_if.
  replace (axis_start <? 0) with false by (symmetry; apply Z.ltb_ge; assumption).
  rewrite bind_throw_if.
  replace (negb (mode =? 0) && negb (mode =? 1)) with false
    by (match goal with H : mode = 0 \/ mode = 1 |- _ => destruct H; subst mode; reflexivity end).
  unfold throw_if_not_writable. rewrite bind_throw_if.
  match goal with H : is_writable dst = true |- _ => rewrite H end. cbn [negb].
  rewrite bind_throw_if.
  match goal with H : axes_in_range _ _ _ = true |- _ =>
    unfold axes_in_range in H; apply Z.leb_le in H;
    replace (axis_start + Z.of_nat (length py_ind) >? Z.max (get_ndim src) 1) with false
      by (symmetry; rewrite Z.gtb_ltb; apply Z.ltb_ge; exact H)
  end.
  rewrite rank_check, bind_throw_if.
  fold (rank_agrees src dst py_ind).
  match goal with H : rank_agrees _ _ _ = true |- _ => rewrite H end. cbn [negb].
  rewrite bind_throw_if.
  fold (orthogonal_shapes_agree src dst py_ind axis_start).
  fold (orthog_nelems_of src dst py_ind axis_start).
  match goal with H : orthogonal_shapes_agree _ _ _ _ = true |- _ => rewrite H end.
  cbn [negb].
  replace (orthog_nelems_of src dst py_ind axis_start =? 0) with false
    by (symmetry; apply Z.eqb_neq; assumption).
  rewrite bind_throw_if.
  match goal with H : queues_are_compatible exec_q [src; dst] = true |- _ => rewrite H end.
  cbn [negb].
  rewrite bind_throw_if.
  match goal with H : overlap src dst = false |- _ => rewrite H end.
  unfold lookup_id. rewrite bind_or_throw.
  match goal with H : typenum_to_lookup_id (get_typenum src) = Some _ |- _ => rewrite H end.
  rewrite bind_or_throw.
  match goal with H : typenum_to_lookup_id (get_typenum dst) = Some _ |- _ => rewrite H end.
  rewrite bind_throw_if, Z.eqb_refl. cbn [negb].
  rewrite bind_or_throw.
  match goal with
    H : typenum_to_lookup_id (get_typenum (nth 0 py_ind null_array)) = Some _ |- _ =>
      rewrite H
  end.
  match goal with H : index_shape_fits _ _ _ |- _ =>
    pose proof (proj2 (index_shape_fits_range py_ind dst axis_start) H) as Hfit
  end.
  rewrite bind_stateless by apply stateless_ind_shape_loop.
  rewrite (ind_shape_loop_fits _ _ _ _ _ _ _ Hfit). cbn [fst].
  change (int_range (get_ndim (nth 0 py_ind null_array)))
    with (int_range (Z.of_nat (length (get_shape_raw (nth 0 py_ind null_array))))).
  rewrite raw_at_int_range.
  fold (size_t_prod (get_shape_raw (nth 0 py_ind null_array))).
  fold (index_nelems py_ind).
  unfold throw_if_not_ample. rewrite bind_throw_if.
  fold (capacity_demand Take src py_ind dst axis_start).
  replace (addressable_nelems dst <? capacity_demand Take src py_ind dst axis_start)
    with false by (symmetry; apply Z.ltb_ge; assumption).
  fold (initial_ind_sh_sts py_ind).
  rewrite (bind_returned _ _ _ packed (stateless_ind_arrays_loop _ _ _ _ _ _ _ _ _ _))
    by exact Hloop.
  replace (index_nelems py_ind =? 0) with false by (symmetry; apply Z.eqb_neq; assumption).
  reflexivity.
Qed.

Lemma usm_ndarray_put_packs tables dst py_ind val axis_start mode exec_q depends t i packed :
  validated Put exec_q dst py_ind val axis_start mode t i ->
  index_nelems py_ind <> 0 ->
  fst (ind_arrays_loop exec_q (index_overlaps Put dst val)
         (get_ndim (nth 0 py_ind null_array)) i (get_shape_raw (nth 0 py_ind null_array))
         0 py_ind (initial_ind_sh_sts py_ind) [] [] fresh_queue) = returned packed ->
  usm_ndarray_put tables dst py_ind val axis_start mode exec_q depends fresh_queue =
  pack_and_submit (put_dispatch_table tables) dst val axis_start mode
    (Z.of_nat (length py_ind)) (get_ndim (nth 0 py_ind null_array)) (get_ndim dst)
    (orthog_nelems_of dst val py_ind axis_start) (index_nelems py_ind)
    (Z.max (get_ndim (nth 0 py_ind null_array)) 1) t i
    (fst (fst packed)) (snd (fst packed)) (snd packed) depends fresh_queue.
Proof.
  intros Hval Hn Hloop. unpack.
  cbn [destination buffers_overlap] in *.
  unfold usm_ndarray_put.
  rewrite (bind_returned _ _ _ py_ind (stateless_parse_py_ind _ _))
    by (rewrite parse_py_ind_ok by assumption; reflexivity).
  cbv zeta.
  rewrite bind_throw_if.
  replace (Z.of_nat (length py_ind) =? 0) with false
    by (symmetry; apply Z.eqb_neq; destruct py_ind; [contradiction|discriminate]).
  rewrite bind_throw_if.
  replace (axis_start <? 0) with false by (symmetry; apply Z.ltb_ge; assumption).
  rewrite bind_throw_if.
  replace (negb (mode =? 0) && negb (mode =? 1)) with false
    by (match goal with H : mode = 0 \/ mode = 1 |- _ => destruct H; subst mode; reflexivity end).
  unfold throw_if_not_writable. rewrite bind_throw_if.
  match goal with H : is_writable dst = true |- _ => rewrite H end. cbn [negb].
  rewrite bind_throw_if.
  match goal with H : axes_in_range _ _ _ = true |- _ =>
    unfold axes_in_range in H; apply Z.leb_le in H;
    replace (axis_start + Z.of_nat (length py_ind) >? Z.max (get_ndim dst) 1) with false
      by (symmetry; rewrite Z.gtb_ltb; apply Z.ltb_ge; exact H)
  end.
  rewrite rank_check, bind_throw_if.
  fold (rank_agrees dst val py_ind).
  match goal with H : rank_agrees _ _ _ = true |- _ => rewrite H end. cbn [negb].
  rewrite bind_throw_if.
  fold (orthogonal_shapes_agree dst val py_ind axis_start).
  fold (orthog_nelems_of dst val py_ind axis_start).
  match goal with H : orthogonal_shapes_agree _ _ _ _ = true |- _ => rewrite H end.
  cbn [negb].
  replace (orthog_nelems_of dst val py_ind axis_start =? 0) with false
    by (symmetry; apply Z.eqb_neq; assumption).
  rewrite bind_throw_if.
  match goal with H : queues_are_compatible exec_q [dst; val] = true |- _ => rewrite H end.
  cbn [negb].
  rewrite bind_throw_if.
  match goal with H : overlap val dst = false |- _ => rewrite H end.
  unfold throw_if_not_ample. rewrite bind_throw_if.
  fold (capacity_demand Put dst py_ind val axis_start).
  replace (addressable_nelems dst <? capacity_demand Put dst py_ind val axis_start)
    with false by (symmetry; apply Z.ltb_ge; assumption).
  unfold lookup_id. rewrite bind_or_throw.
  match goal with H : typenum_to_lookup_id (get_typenum dst) = Some _ |- _ => rewrite H end.
  rewrite bind_or_throw.
  match goal with H : typenum_to_lookup_id (get_typenum val) = Some _ |- _ => rewrite H end.
  rewrite bind_throw_if, Z.eqb_refl. cbn [negb].
  rewrite bind_or_throw.
  match goal with
    H : typenum_to_lookup_id (get_typenum (nth 0 py_ind null_array)) = Some _ |- _ =>
      rewrite H
  end.
  match goal with H : index_shape_fits _ _ _ |- _ =>
    pose proof (proj2 (index_shape_fits_range py_ind val axis_start) H) as Hfit
  end.
  rewrite bind_stateless by apply stateless_ind_shape_loop.
  rewrite (ind_shape_loop_fits _ _ _ _ _ _ _ Hfit). cbn [fst].
  change (int_range (get_ndim (nth 0 py_ind null_array)))
    with (int_range (Z.of_nat (length (get_shape_raw (nth 0 py_ind null_array))))).
  rewrite raw_at_int_range.
  fold (size_t_prod (get_shape_raw (nth 0 py_ind null_array))).
  fold (index_nelems py_ind).
  match goal with
  | |- context [ind_arrays_loop _ _ _ _ _ 0 _ ?sh _ _] =>
      replace sh with (initial_ind_sh_sts py_ind)
  end.
  2: { unfold initial_ind_sh_sts. cbv zeta.
       destruct (get_ndim (nth 0 py_ind null_array) >? 0) eqn:Hnd; [|reflexivity].
       apply Z.gtb_lt in Hnd. f_equal. f_equal. lia. }
  rewrite (bind_returned _ _ _ packed (stateless_ind_arrays_loop _ _ _ _ _ _ _ _ _ _))
    by exact Hloop.
  replace (index_nelems py_ind =? 0) with false by (symmetry; apply Z.eqb_neq; assumption).
  reflexivity.
Qed.

(** Both orchestrators at once. *)
Lemma orchestrate_packs op tables first py_ind second axis_start mode exec_q depends
    t i packed :
  validated op exec_q first py_ind second axis_start mode t i ->
  index_nelems py_ind <> 0 ->
  fst (ind_arrays_loop exec_q (index_overlaps op first second)
         (get_ndim (nth 0 py_ind null_array)) i (get_shape_raw (nth 0 py_ind null_array))
         0 py_ind (initial_ind_sh_sts py_ind) [] [] fresh_queue) = returned packed ->
  orchestrate op tables first py_ind second axis_start mode exec_q depends fresh_queue =
  pack_and_submit (table_of op tables) first second axis_start mode
    (Z.of_nat (length py_ind)) (get_ndim (nth 0 py_ind null_array)) (get_ndim first)
    (orthog_nelems_of first second py_ind axis_start) (index_nelems py_ind)
    (Z.max (get_ndim (nth 0 py_ind null_array)) 1) t i
    (fst (fst packed)) (snd (fst packed)) (snd packed) depends fresh_queue.
Proof.
  destruct op; [apply usm_ndarray_take_packs|apply usm_ndarray_put_packs].
Qed.

End Packs.

(** ** What the loop over the index arrays packs *)

Lemma skipn_repeat {A} (x : A) (n m : nat) :
  skipn n (repeat x (n + m)) = repeat x m.
Proof.
  rewrite repeat_app, skipn_app, repeat_length, Nat.sub_diag.
  rewrite skipn_all2 by (rewrite repeat_length; lia). reflexivity.
Qed.

Lemma length_concat_strides (ind : list usm_ndarray) (n : nat) :
  Forall (fun a => length (get_strides_vector a) = n) ind ->
  length (concat (map get_strides_vector ind)) = (length ind * n)%nat.
Proof.
  induction 1 as [|a r Ha _ IH]; [reflexivity|].
  cbn [map concat length]. rewrite length_app, Ha, IH. lia.
Qed.

(** Writing the strides of one array behind the part already filled. *)
Lemma std_copy_behind (st pre : list Z) (n : nat) (pos : Z) :
  Z.to_nat pos = length pre ->
  std_copy st (pre ++ repeat 0 (length st + n)) pos = (pre ++ st) ++ repeat 0 n.
Proof.
  intros Hpos. unfold std_copy. rewrite Hpos.
  assert (Hfirst : firstn (length pre) (pre ++ repeat 0 (length st + n)) = pre).
  { rewrite firstn_app, firstn_all, Nat.sub_diag, firstn_O, app_nil_r. reflexivity. }
  assert (Hskip : skipn (length pre + length st) (pre ++ repeat 0 (length st + n)) =
                  repeat 0 n).
  { rewrite skipn_app, skipn_all2 by lia.
    replace (length pre + length st - length pre)%nat with (length st) by lia.
    rewrite skipn_repeat. reflexivity. }
  rewrite Hfirst, Hskip, app_assoc. apply firstn_all2.
  rewrite !length_app, !repeat_length. lia.
Qed.

Lemma initial_ind_sh_sts_shape (py_ind : list usm_ndarray) :
  0 < get_ndim (nth 0 py_ind null_array) ->
  initial_ind_sh_sts py_ind =
  get_shape_raw (nth 0 py_ind null_array) ++
  repeat 0 (length py_ind * length (get_shape_raw (nth 0 py_ind null_array))).
Proof.
  intros Hnd. unfold initial_ind_sh_sts. cbv zeta.
  replace (get_ndim (nth 0 py_ind null_array) >? 0) with true
    by (symmetry; apply Z.gtb_lt; exact Hnd).
  unfold get_ndim in *. set (sh := get_shape_raw (nth 0 py_ind null_array)) in *.
  assert (Hr : range_of sh 0 (Z.of_nat (length sh)) = sh).
  { unfold range_of. cbn [Z.to_nat skipn]. rewrite Z.sub_0_r, Nat2Z.id. apply firstn_all. }
  rewrite Hr. unfold zero_vector.
  replace (Z.to_nat ((Z.of_nat (length py_ind) + 1) * Z.max (Z.of_nat (length sh)) 1))
    with (length sh + length py_ind * length sh)%nat by nia.
  apply (std_copy_behind sh [] (length py_ind * length sh) 0). reflexivity.
Qed.

Section IndexMetadata.
Context `{C : Collaborators}.

(** One iteration that does not throw. *)
Lemma ind_arrays_loop_step exec_q overlaps_dst ind_nd ind_type_id ind_shape
    i ind_ rest sh ptrs offs packed s s' :
  ind_arrays_loop exec_q overlaps_dst ind_nd ind_type_id ind_shape i (ind_ :: rest)
    sh ptrs offs s = (returned packed, s') ->
  ind_arrays_loop exec_q overlaps_dst ind_nd ind_type_id ind_shape (i + 1) rest
    (if ind_nd >? 0 then std_copy (get_strides_vector ind_) sh ((i + 1) * ind_nd) else sh)
    (ptrs ++ [get_data ind_]) (offs ++ [0]) s = (returned packed, s').
Proof.
  cbn [ind_arrays_loop]. intros Hrun.
  rewrite bind_throw_if in Hrun.
  destruct (negb (queues_are_compatible exec_q [ind_])); [discriminate|].
  destruct (i >? 0).
  - rewrite !bind_bind, bind_throw_if in Hrun.
    destruct (negb (get_ndim ind_ =? ind_nd)); [discriminate|].
    rewrite bind_bind in Hrun. unfold lookup_id in Hrun. rewrite bind_or_throw in Hrun.
    destruct (typenum_to_lookup_id (get_typenum ind_)) as [id_|]; [|discriminate].
    rewrite bind_bind, bind_throw_if in Hrun.
    destruct (negb (ind_type_id =? id_)); [discriminate|].
    rewrite bind_throw_if in Hrun.
    destruct (ind_shapes_differ ind_shape (get_shape_raw ind_) ind_nd); [discriminate|].
    rewrite bind_throw_if in Hrun.
    destruct (overlaps_dst ind_); [discriminate|].
    exact Hrun.
  - rewrite bind_ret, bind_throw_if in Hrun.
    destruct (overlaps_dst ind_); [discriminate|].
    exact Hrun.
Qed.

(** The pointers are pushed in the order of the list, each with offset 0. *)
Lemma ind_arrays_loop_pointers exec_q overlaps_dst ind_nd ind_type_id ind_shape ind :
  forall i sh ptrs offs packed s s',
    ind_arrays_loop exec_q overlaps_dst ind_nd ind_type_id ind_shape i ind sh ptrs offs s
    = (returned packed, s') ->
    snd (fst packed) = ptrs ++ map get_data ind /\
    snd packed = offs ++ map (fun _ => 0) ind.
Proof.
  induction ind as [|ind_ rest IH]; intros i sh ptrs offs packed s s' Hrun.
  - cbn in Hrun. inversion Hrun; subst. cbn. rewrite !app_nil_r. split; reflexivity.
  - apply ind_arrays_loop_step in Hrun. apply IH in Hrun. destruct Hrun as [Hp Ho].
    rewrite <- !app_assoc in *. split; assumption.
Qed.

(** With index arrays of rank 0 the vector of shapes and strides is not
    written. *)
Lemma ind_arrays_loop_rank_0 exec_q overlaps_dst ind_nd ind_type_id ind_shape ind :
  forall i sh ptrs offs packed s s',
    ind_nd <= 0 ->
    ind_arrays_loop exec_q overlaps_dst ind_nd ind_type_id ind_shape i ind sh ptrs offs s
    = (returned packed, s') ->
    fst (fst packed) = sh.
Proof.
  induction ind as [|ind_ rest IH]; intros i sh ptrs offs packed s s' Hnd Hrun.
  - cbn in Hrun. inversion Hrun; subst. reflexivity.
  - apply ind_arrays_loop_step in Hrun.
    replace (ind_nd >? 0) with false in Hrun by (symmetry; rewrite Z.gtb_ltb; apply Z.ltb_ge; lia).
    eapply IH; eassumption.
Qed.

(** Otherwise the strides of each array follow what was already written. *)
Lemma ind_arrays_loop_strides exec_q overlaps_dst ind_nd ind_type_id ind_shape ind :
  forall i pre ptrs offs packed s s',
    0 < ind_nd ->
    Forall (fun a => length (get_strides_vector a) = Z.to_nat ind_nd) ind ->
    length pre = Z.to_nat ((i + 1) * ind_nd) -> 0 <= i ->
    ind_arrays_loop exec_q overlaps_dst ind_nd ind_type_id ind_shape i ind
      (pre ++ repeat 0 (length ind * Z.to_nat ind_nd)) ptrs offs s
    = (returned packed, s') ->
    fst (fst packed) = pre ++ concat (map get_strides_vector ind).
Proof.
  induction ind as [|ind_ rest IH]; intros i pre ptrs offs packed s s' Hnd Hst Hpre Hi Hrun.
  - cbn in Hrun. inversion Hrun; subst. reflexivity.
  - apply ind_arrays_loop_step in Hrun.
    apply Forall_cons_iff in Hst. destruct Hst as [Hst1 Hst2].
    replace (ind_nd >? 0) with true in Hrun by (symmetry; apply Z.gtb_lt; exact Hnd).
    cbn [length] in Hrun.
    replace (S (length rest) * Z.to_nat ind_nd)%nat
      with (length (get_strides_vector ind_) + length rest * Z.to_nat ind_nd)%nat in Hrun
      by lia.
    rewrite std_copy_behind in Hrun by lia.
    apply IH in Hrun; [|exact Hnd|exact Hst2|rewrite length_app; nia|lia].
    rewrite Hrun. cbn [map concat]. rewrite <- app_assoc. reflexivity.
Qed.

(** The three vectors handed to [_populate_kernel_params] by a call that
    passes every check: the data pointers in the order of the list, zero
    offsets, and a vector of shapes and strides that has the documented
    layout when the index arrays have as many strides as extents. *)
Lemma orchestrate_packs_pointers op tables first py_ind second axis_start mode exec_q depends
    t i :
  validated op exec_q first py_ind second axis_start mode t i ->
  index_nelems py_ind <> 0 ->
  exists sh,
    (Forall well_formed py_ind ->
     sh = if get_ndim (nth 0 py_ind null_array) >? 0
          then ind_shapes_strides_layout py_ind
          else zero_vector (Z.of_nat (length py_ind) + 1)) /\
    orchestrate op tables first py_ind second axis_start mode exec_q depends fresh_queue =
    pack_and_submit (table_of op tables) first second axis_start mode
      (Z.of_nat (length py_ind)) (get_ndim (nth 0 py_ind null_array)) (get_ndim first)
      (orthog_nelems_of first second py_ind axis_start) (index_nelems py_ind)
      (Z.max (get_ndim (nth 0 py_ind null_array)) 1) t i
      sh (map get_data py_ind) (map (fun _ => 0) py_ind) depends fresh_queue.
Proof.
  intros Hval Hn.
  assert (Hok : index_list_ok exec_q py_ind) by (unpack; assumption).
  assert (Hidx : index_arrays_pass op first py_ind second i) by (unpack; split; assumption).
  assert (Hne : py_ind <> []) by (unpack; assumption).
  destruct (ind_arrays_loop exec_q (index_overlaps op first second)
              (get_ndim (nth 0 py_ind null_array)) i
              (get_shape_raw (nth 0 py_ind null_array))
              0 py_ind (initial_ind_sh_sts py_ind) [] [] fresh_queue)
    as [[packed|e] s'] eqn:Hloop.
  2: { exfalso. destruct Hok as [Hq _]. destruct Hidx as [Hagree Hov].
       destruct py_ind as [|ind0 rest]; [contradiction|].
       apply Forall_cons_iff in Hq. destruct Hq as [Hq0 Hqr].
       apply Forall_cons_iff in Hov. destruct Hov as [Hov0 Hovr].
       rewrite ind_arrays_loop_first in Hloop. rewrite Hq0, Hov0 in Hloop.
       cbn [negb tl] in Hagree, Hloop.
       match type of Hloop with
       | ind_arrays_loop ?a ?b ?c ?d ?e 1 ?l ?sh' ?p ?o ?s = _ =>
           destruct (ind_arrays_loop_passes a b c d e l 1 sh' p o s) as [packed Hp];
             [lia|assumption|assumption|assumption|]
       end.
       rewrite Hp in Hloop. discriminate. }
  exists (fst (fst packed)). split.
  - intros Hwf.
    destruct (get_ndim (nth 0 py_ind null_array) >? 0) eqn:Hnd.
    + apply Z.gtb_lt in Hnd.
      rewrite initial_ind_sh_sts_shape in Hloop by exact Hnd.
      unfold ind_shapes_strides_layout.
      assert (Hst : Forall (fun a => length (get_strides_vector a) =
                                     Z.to_nat (get_ndim (nth 0 py_ind null_array))) py_ind).
      { destruct Hok as [_ Hrank]. rewrite Forall_forall in *. intros a Ha.
        rewrite (Hwf a Ha). specialize (Hrank a Ha). unfold get_ndim in *. lia. }
      replace (length (get_shape_raw (nth 0 py_ind null_array)))
        with (Z.to_nat (get_ndim (nth 0 py_ind null_array))) in Hloop
        by (unfold get_ndim; lia).
      apply ind_arrays_loop_strides in Hloop; [exact Hloop|exact Hnd|exact Hst| |lia].
      unfold get_ndim. lia.
    + rewrite Z.gtb_ltb in Hnd. apply Z.ltb_ge in Hnd.
      pose proof (ind_arrays_loop_rank_0 _ _ _ _ _ _ _ _ _ _ _ _ _ Hnd Hloop) as Hsh.
      rewrite Hsh. unfold initial_ind_sh_sts. cbv zeta.
      replace (get_ndim (nth 0 py_ind null_array) >? 0) with false
        by (symmetry; rewrite Z.gtb_ltb; apply Z.ltb_ge; lia).
      rewrite Z.max_r by lia. rewrite Z.mul_1_r. reflexivity.
  - rewrite (orchestrate_packs op tables first py_ind second axis_start mode exec_q depends
               t i packed Hval Hn (f_equal fst Hloop)).
    destruct (ind_arrays_loop_pointers _ _ _ _ _ _ _ _ _ _ _ _ _ Hloop) as [Hp Ho].
    cbn [app] in Hp, Ho. rewrite Hp, Ho. reflexivity.
Qed.

End IndexMetadata.

(** ** The layout of the packed shapes and strides *)

(** A copy that overwrites a block in the middle of the vector. *)
Lemma std_copy_middle (pre old src post : list Z) (pos : Z) :
  length old = length src -> Z.to_nat pos = length pre ->
  std_copy src (pre ++ old ++ post) pos = pre ++ src ++ post.
Proof.
  intros Hlen Hpos. unfold std_copy. rewrite Hpos.
  assert (Hfirst : firstn (length pre) (pre ++ old ++ post) = pre).
  { rewrite firstn_app, firstn_all, Nat.sub_diag, firstn_O, app_nil_r. reflexivity. }
  assert (Hskip : skipn (length pre + length src) (pre ++ old ++ post) = post).
  { rewrite skipn_app, skipn_all2 by lia.
    replace (length pre + length src - length pre)%nat with (length old) by lia.
    cbn [app]. rewrite skipn_app, skipn_all, Nat.sub_diag. reflexivity. }
  rewrite Hfirst, Hskip. apply firstn_all2.
  rewrite !length_app. lia.
Qed.

Lemma std_copy_front (old src post : list Z) :
  length old = length src -> std_copy src (old ++ post) 0 = src ++ post.
Proof. intros Hlen. apply (std_copy_middle [] old src post 0 Hlen). reflexivity. Qed.

Lemma range_of_prefix (p : list Z) (n : Z) : range_of p 0 n = firstn (Z.to_nat n) p.
Proof. unfold range_of. rewrite Z.sub_0_r. reflexivity. Qed.

Lemma range_of_suffix (p : list Z) (first : Z) :
  0 <= first -> range_of p first (Z.of_nat (length p)) = skipn (Z.to_nat first) p.
Proof.
  intros Hf. unfold range_of. apply firstn_all2. rewrite length_skipn. lia.
Qed.

Lemma range_of_length (p : list Z) (first last : Z) :
  0 <= first <= last -> last <= Z.of_nat (length p) ->
  length (range_of p first last) = Z.to_nat (last - first).
Proof.
  intros Hf Hl. unfold range_of. rewrite length_firstn, length_skipn. lia.
Qed.

(** The orthogonal block: three rows of [inp_nd - k] entries, each made of
    the entries before the indexed axes and the entries after them. *)
Lemma staged_orthog_sh_st_layout (inp_shape inp_strides arr_strides : list Z)
    (axis_start k ind_nd : Z) :
  0 <= axis_start -> 0 <= k -> 0 <= ind_nd ->
  axis_start + k <= Z.of_nat (length inp_shape) ->
  0 < Z.of_nat (length inp_shape) - k ->
  length inp_strides = length inp_shape ->
  Z.of_nat (length arr_strides) = Z.of_nat (length inp_shape) - k + ind_nd ->
  staged_orthog_sh_st inp_shape inp_strides arr_strides axis_start k ind_nd
    (Z.of_nat (length inp_shape)) (Z.of_nat (length inp_shape) - k) =
  orthogonal_extents inp_shape axis_start k ++
  orthogonal_extents inp_strides axis_start k ++
  orthogonal_extents arr_strides axis_start ind_nd.
Proof.
  intros Ha Hk Hind Hle Hpos Hst Harr.
  unfold staged_orthog_sh_st, orthogonal_extents, zero_vector. cbv zeta.
  set (nd := Z.of_nat (length inp_shape)) in *.
  set (a := Z.to_nat axis_start).
  set (n := Z.to_nat (nd - k)).
  replace (nd - k >? 0) with true by (symmetry; apply Z.gtb_lt; lia).
  rewrite !range_of_prefix. fold a.
  unfold nd at 2. rewrite range_of_suffix by lia.
  set (s1 := firstn a inp_shape). set (s2 := firstn a inp_strides).
  set (s3 := firstn a arr_strides).
  set (s4 := skipn (Z.to_nat (axis_start + k)) inp_shape).
  set (s5 := skipn (Z.to_nat (axis_start + k)) inp_strides).
  set (s6 := skipn (Z.to_nat (axis_start + ind_nd)) arr_strides).
  assert (H1 : length s1 = a) by (unfold s1; rewrite length_firstn; lia).
  assert (H2 : length s2 = a) by (unfold s2; rewrite length_firstn; lia).
  assert (H3 : length s3 = a) by (unfold s3; rewrite length_firstn; lia).
  assert (H4 : length s4 = (n - a)%nat) by (unfold s4; rewrite length_skipn; lia).
  assert (H5 : length s5 = (n - a)%nat) by (unfold s5; rewrite length_skipn; lia).
  assert (H6 : length s6 = (n - a)%nat) by (unfold s6; rewrite length_skipn; lia).
  set (za := repeat 0 a). set (zr := repeat 0 (n - a)).
  assert (Hza : length za = a) by apply repeat_length.
  assert (Hzr : length zr = (n - a)%nat) by apply repeat_length.
  assert (Hz : repeat 0 (Z.to_nat (3 * (nd - k))) =
               za ++ zr ++ za ++ zr ++ za ++ zr).
  { unfold za, zr. rewrite <- !repeat_app. f_equal. lia. }
  rewrite Hz.
  (* the first three copies, at 0, n and 2 n *)
  assert (Hfront :
    (if axis_start >? 0
     then std_copy s3 (std_copy s2 (std_copy s1 (za ++ zr ++ za ++ zr ++ za ++ zr) 0)
                         (nd - k)) (2 * (nd - k))
     else za ++ zr ++ za ++ zr ++ za ++ zr) =
    s1 ++ zr ++ s2 ++ zr ++ s3 ++ zr).
  { destruct (axis_start >? 0) eqn:Hax.
    - rewrite (std_copy_front za s1) by lia.
      replace (s1 ++ zr ++ za ++ zr ++ za ++ zr)
        with ((s1 ++ zr) ++ za ++ zr ++ za ++ zr) by (rewrite <- app_assoc; reflexivity).
      rewrite (std_copy_middle (s1 ++ zr) za s2) by (rewrite ?length_app; lia).
      replace ((s1 ++ zr) ++ s2 ++ zr ++ za ++ zr)
        with ((s1 ++ zr ++ s2 ++ zr) ++ za ++ zr)
        by (rewrite <- !app_assoc; reflexivity).
      rewrite (std_copy_middle (s1 ++ zr ++ s2 ++ zr) za s3)
        by (rewrite ?length_app; lia).
      rewrite <- !app_assoc. reflexivity.
    - rewrite Z.gtb_ltb in Hax. apply Z.ltb_ge in Hax.
      assert (Ha0 : a = 0%nat) by lia.
      destruct s1; [|cbn [length] in H1; lia]. destruct s2; [|cbn [length] in H2; lia].
      destruct s3; [|cbn [length] in H3; lia].
      unfold za. rewrite Ha0. reflexivity. }
  rewrite Hfront.
  (* the last three copies, at a, n + a and 2 n + a *)
  destruct (nd >? axis_start + k) eqn:Hrest.
  - rewrite (std_copy_middle s1 zr s4) by lia.
    replace (s1 ++ s4 ++ s2 ++ zr ++ s3 ++ zr)
      with ((s1 ++ s4 ++ s2) ++ zr ++ s3 ++ zr) by (rewrite <- !app_assoc; reflexivity).
    rewrite (std_copy_middle (s1 ++ s4 ++ s2) zr s5) by (rewrite ?length_app; lia).
    replace ((s1 ++ s4 ++ s2) ++ s5 ++ s3 ++ zr)
      with ((s1 ++ s4 ++ s2 ++ s5 ++ s3) ++ zr ++ [])
      by (rewrite <- !app_assoc, app_nil_r; reflexivity).
    rewrite (std_copy_middle (s1 ++ s4 ++ s2 ++ s5 ++ s3) zr s6)
      by (rewrite ?length_app; lia).
    rewrite <- !app_assoc, app_nil_r. reflexivity.
  - rewrite Z.gtb_ltb in Hrest. apply Z.ltb_ge in Hrest.
    assert (Hna : (n - a = 0)%nat) by lia.
    destruct s4; [|cbn [length] in H4; lia]. destruct s5; [|cbn [length] in H5; lia].
    destruct s6; [|cbn [length] in H6; lia].
    unfold zr. rewrite Hna. cbn [repeat app]. rewrite !app_nil_r. reflexivity.
Qed.

(** When no orthogonal axis is left the block is three zeros. *)
Lemma staged_orthog_sh_st_none (inp_shape inp_strides arr_strides : list Z)
    (axis_start k ind_nd inp_nd : Z) :
  inp_nd - k <= 0 ->
  staged_orthog_sh_st inp_shape inp_strides arr_strides axis_start k ind_nd inp_nd 1 =
  [0; 0; 0].
Proof.
  intros Hle. unfold staged_orthog_sh_st. cbv zeta.
  replace (inp_nd - k >? 0) with false
    by (symmetry; rewrite Z.gtb_ltb; apply Z.ltb_ge; lia).
  reflexivity.
Qed.

(** The block of the indexed axes: the extents and strides of the [k]
    indexed axes, then the extents and strides of the axes of the other
    array that the index arrays span. *)
Lemma staged_along_sh_st_layout (inp_shape arr_shape inp_strides arr_strides : list Z)
    (axis_start k ind_nd : Z) :
  0 <= axis_start -> 0 <= k -> 0 <= ind_nd ->
  length inp_strides = length inp_shape ->
  length arr_strides = length arr_shape ->
  (0 < Z.of_nat (length inp_shape) -> axis_start + k <= Z.of_nat (length inp_shape)) ->
  (0 < ind_nd -> axis_start + ind_nd <= Z.of_nat (length arr_shape)) ->
  staged_along_sh_st inp_shape arr_shape inp_strides arr_strides axis_start k ind_nd
    (Z.of_nat (length inp_shape)) (Z.max ind_nd 1) =
  (if Z.of_nat (length inp_shape) >? 0
   then range_of inp_shape axis_start (axis_start + k) ++
        range_of inp_strides axis_start (axis_start + k)
   else zero_vector (2 * k)) ++
  (if ind_nd >? 0
   then range_of arr_shape axis_start (axis_start + ind_nd) ++
        range_of arr_strides axis_start (axis_start + ind_nd)
   else [0; 0]).
Proof.
  intros Ha Hk Hind Hst Harr Hin Hout.
  unfold staged_along_sh_st, zero_vector. cbv zeta.
  set (nd := Z.of_nat (length inp_shape)) in *.
  set (kk := Z.to_nat k).
  set (m := Z.to_nat (Z.max ind_nd 1)).
  set (zk := repeat 0 kk). set (zm := repeat 0 m).
  assert (Hzk : length zk = kk) by apply repeat_length.
  assert (Hzm : length zm = m) by apply repeat_length.
  assert (Hz : repeat 0 (Z.to_nat (2 * (k + Z.max ind_nd 1))) = zk ++ zk ++ zm ++ zm).
  { unfold zk, zm. rewrite <- !repeat_app. f_equal. lia. }
  rewrite Hz.
  assert (Hfront :
    (if nd >? 0
     then std_copy (range_of inp_strides axis_start (axis_start + k))
            (std_copy (range_of inp_shape axis_start (axis_start + k))
               (zk ++ zk ++ zm ++ zm) 0) k
     else zk ++ zk ++ zm ++ zm) =
    (if nd >? 0
     then range_of inp_shape axis_start (axis_start + k) ++
          range_of inp_strides axis_start (axis_start + k)
     else repeat 0 (Z.to_nat (2 * k))) ++ zm ++ zm).
  { destruct (nd >? 0) eqn:Hnd.
    - apply Z.gtb_lt in Hnd. specialize (Hin Hnd).
      assert (H1 : length (range_of inp_shape axis_start (axis_start + k)) = kk)
        by (rewrite range_of_length by lia; lia).
      assert (H2 : length (range_of inp_strides axis_start (axis_start + k)) = kk)
        by (rewrite range_of_length by lia; lia).
      rewrite (std_copy_front zk) by lia.
      rewrite (std_copy_middle _ zk (range_of inp_strides axis_start (axis_start + k)))
        by lia.
      rewrite <- !app_assoc. reflexivity.
    - replace (Z.to_nat (2 * k)) with (kk + kk)%nat by lia.
      rewrite repeat_app. rewrite <- !app_assoc. reflexivity. }
  rewrite Hfront. clear Hfront.
  set (front := if nd >? 0
                then range_of inp_shape axis_start (axis_start + k) ++
                     range_of inp_strides axis_start (axis_start + k)
                else repeat 0 (Z.to_nat (2 * k))).
  assert (Hlen : length front = (kk + kk)%nat).
  { unfold front. destruct (nd >? 0) eqn:Hnd.
    - apply Z.gtb_lt in Hnd. specialize (Hin Hnd).
      rewrite length_app, !range_of_length by lia. lia.
    - rewrite repeat_length. lia. }
  destruct (ind_nd >? 0) eqn:Hnd.
  - apply Z.gtb_lt in Hnd. specialize (Hout Hnd).
    assert (H3 : length (range_of arr_shape axis_start (axis_start + ind_nd)) = m)
      by (rewrite range_of_length by lia; lia).
    assert (H4 : length (range_of arr_strides axis_start (axis_start + ind_nd)) = m)
      by (rewrite range_of_length by lia; lia).
    rewrite (std_copy_middle front zm (range_of arr_shape axis_start (axis_start + ind_nd)))
      by lia.
    replace (front ++ range_of arr_shape axis_start (axis_start + ind_nd) ++ zm)
      with ((front ++ range_of arr_shape axis_start (axis_start + ind_nd)) ++ zm ++ [])
      by (rewrite <- !app_assoc, app_nil_r; reflexivity).
    rewrite (std_copy_middle _ zm (range_of arr_strides axis_start (axis_start + ind_nd)))
      by (rewrite ?length_app; lia).
    rewrite <- !app_assoc, app_nil_r. reflexivity.
  - rewrite Z.gtb_ltb in Hnd. apply Z.ltb_ge in Hnd.
    unfold zm, m. replace (Z.max ind_nd 1) with 1 by lia. reflexivity.
Qed.

(** ** The metadata a routine reads *)

Lemma staged_orthog_sh_st_length inp_shape inp_strides arr_strides
    axis_start k ind_nd inp_nd orthog_sh_elems :
  length (staged_orthog_sh_st inp_shape inp_strides arr_strides axis_start k ind_nd inp_nd
            orthog_sh_elems) = Z.to_nat (3 * orthog_sh_elems).
Proof.
  unfold staged_orthog_sh_st, zero_vector. cbv zeta.
  destruct (inp_nd - k >? 0), (axis_start >? 0), (inp_nd >? axis_start + k);
    rewrite ?std_copy_length; apply repeat_length.
Qed.

Lemma staged_along_sh_st_length inp_shape arr_shape inp_strides arr_strides
    axis_start k ind_nd inp_nd ind_sh_elems :
  length (staged_along_sh_st inp_shape arr_shape inp_strides arr_strides axis_start k ind_nd
            inp_nd ind_sh_elems) = Z.to_nat (2 * (k + ind_sh_elems)).
Proof.
  unfold staged_along_sh_st, zero_vector. cbv zeta.
  destruct (inp_nd >? 0), (ind_nd >? 0); rewrite ?std_copy_length; apply repeat_length.
Qed.

(** The five copies of a staging trace feed the five pointer arguments of
    the routine. *)
Lemma staging_trace_staged table first second mode k first_nd orthog_nelems ind_nelems
    ind_sh_elems first_type_id ind_type_id depends p0 p1 p2 p3 p4 tr :
  tr = staging_trace k ind_sh_elems (Z.max (first_nd - k) 1) p0 p1 p2 p3 p4 ++
       submission_tail table first second mode k first_nd orthog_nelems ind_nelems
         ind_sh_elems first_type_id ind_type_id depends ->
  staged_for tr p0 ka_packed_ind_ptrs /\
  staged_for tr p1 ka_packed_ind_shapes_strides /\
  staged_for tr p2 ka_packed_ind_offsets /\
  staged_for tr p3 ka_packed_shapes_strides /\
  staged_for tr p4 ka_packed_axes_shapes_strides.
Proof.
  intros ->.
  assert (Hk : forall fn args deps kev,
             In (kernel_submit fn args deps kev)
               (staging_trace k ind_sh_elems (Z.max (first_nd - k) 1) p0 p1 p2 p3 p4 ++
                submission_tail table first second mode k first_nd orthog_nelems ind_nelems
                  ind_sh_elems first_type_id ind_type_id depends) ->
             args = mk_kernel_args orthog_nelems ind_nelems (Z.max (first_nd - k) 1)
                      ind_sh_elems k 3 4 1 (get_data first) (get_data second) 0 0 0 2 /\
             deps = pack_deps_events ++ depends).
  { intros fn args deps kev Hin. apply in_app_or in Hin. destruct Hin as [Hin|Hin].
    - unfold staging_trace in Hin. cbn [In] in Hin.
      repeat (destruct Hin as [Hin|Hin]; [discriminate Hin|]). contradiction.
    - unfold submission_tail in Hin.
      destruct (table mode first_type_id ind_type_id); cbn [In] in Hin.
      + destruct Hin as [Hin|[Hin|[Hin|[]]]]; try discriminate Hin.
        inversion Hin; subst. split; reflexivity.
      + destruct Hin as [Hin|[]]. discriminate Hin. }
  repeat split.
  - exists 0%nat, 0%nat. split; [apply in_or_app; left; cbn; tauto|].
    intros fn args deps kev Hin. destruct (Hk _ _ _ _ Hin) as [-> ->].
    split; [reflexivity|cbn; tauto].
  - exists 1%nat, 1%nat. split; [apply in_or_app; left; cbn; tauto|].
    intros fn args deps kev Hin. destruct (Hk _ _ _ _ Hin) as [-> ->].
    split; [reflexivity|cbn; tauto].
  - exists 2%nat, 2%nat. split; [apply in_or_app; left; cbn; tauto|].
    intros fn args deps kev Hin. destruct (Hk _ _ _ _ Hin) as [-> ->].
    split; [reflexivity|cbn; tauto].
  - exists 3%nat, 3%nat. split; [apply in_or_app; left; cbn; tauto|].
    intros fn args deps kev Hin. destruct (Hk _ _ _ _ Hin) as [-> ->].
    split; [reflexivity|cbn; tauto].
  - exists 4%nat, 4%nat. split; [apply in_or_app; left; cbn; tauto|].
    intros fn args deps kev Hin. destruct (Hk _ _ _ _ Hin) as [-> ->].
    split; [reflexivity|cbn; tauto].
Qed.

Section Staged.
Context `{C : Collaborators}.

(** The trace of a call that passes every check, with the vectors of the
    index arrays as the loop leaves them. *)
Lemma validated_trace op tables first py_ind second axis_start mode exec_q depends t i :
  validated op exec_q first py_ind second axis_start mode t i ->
  index_nelems py_ind <> 0 ->
  exists sh,
    (Forall well_formed py_ind ->
     sh = if get_ndim (nth 0 py_ind null_array) >? 0
          then ind_shapes_strides_layout py_ind
          else zero_vector (Z.of_nat (length py_ind) + 1)) /\
    snd (run (orchestrate op tables first py_ind second axis_start mode exec_q depends)) =
    staging_trace (Z.of_nat (length py_ind)) (Z.max (get_ndim (nth 0 py_ind null_array)) 1)
      (Z.max (get_ndim first - Z.of_nat (length py_ind)) 1)
      (std_copy (map get_data py_ind) (zero_vector (Z.of_nat (length py_ind))) 0)
      (std_copy sh
         (zero_vector (Z.max (get_ndim (nth 0 py_ind null_array)) 1 *
                       (Z.of_nat (length py_ind) + 1))) 0)
      (std_copy (map (fun _ => 0) py_ind) (zero_vector (Z.of_nat (length py_ind))) 0)
      (staged_orthog_sh_st (get_shape_raw first) (get_strides_vector first)
         (get_strides_vector second) axis_start (Z.of_nat (length py_ind))
         (get_ndim (nth 0 py_ind null_array)) (get_ndim first)
         (Z.max (get_ndim first - Z.of_nat (length py_ind)) 1))
      (staged_along_sh_st (get_shape_raw first) (get_shape_raw second)
         (get_strides_vector first) (get_strides_vector second) axis_start
         (Z.of_nat (length py_ind)) (get_ndim (nth 0 py_ind null_array)) (get_ndim first)
         (Z.max (get_ndim (nth 0 py_ind null_array)) 1)) ++
    submission_tail (table_of op tables) first second mode (Z.of_nat (length py_ind))
      (get_ndim first) (orthog_nelems_of first second py_ind axis_start)
      (index_nelems py_ind) (Z.max (get_ndim (nth 0 py_ind null_array)) 1) t i depends.
Proof.
  intros Hval Hn.
  destruct (orchestrate_packs_pointers op tables first py_ind second axis_start mode exec_q
              depends t i Hval Hn) as (sh & Hsh & Hrun).
  exists sh. split; [exact Hsh|].
  assert (Heq : run (orchestrate op tables first py_ind second axis_start mode exec_q
                      depends) =
                run (pack_and_submit (table_of op tables) first second axis_start mode
                       (Z.of_nat (length py_ind)) (get_ndim (nth 0 py_ind null_array))
                       (get_ndim first) (orthog_nelems_of first second py_ind axis_start)
                       (index_nelems py_ind)
                       (Z.max (get_ndim (nth 0 py_ind null_array)) 1) t i
                       sh (map get_data py_ind) (map (fun _ => 0) py_ind) depends))
    by (unfold run; cbv zeta; rewrite Hrun; reflexivity).
  rewrite Heq, pack_and_submit_run. reflexivity.
Qed.

End Staged.

Lemma std_copy_zero_vector (src : list Z) (n : Z) :
  Z.of_nat (length src) = n -> std_copy src (zero_vector n) 0 = src.
Proof.
  intros Hlen. apply std_copy_all. unfold zero_vector. rewrite repeat_length. lia.
Qed.

Lemma run_snd {A} (c : M A) (o : outcome A) (tr : list action) :
  run c = (o, tr) -> tr = snd (run c).
Proof. intros ->. reflexivity. Qed.

Section StagedMetadata.
Context `{C : Collaborators}.

(** What the checks on the ranks give. *)
Lemma validated_ranks op first py_ind second axis_start mode exec_q t i :
  validated op exec_q first py_ind second axis_start mode t i ->
  0 <= axis_start /\ 1 <= Z.of_nat (length py_ind) /\
  axis_start + Z.of_nat (length py_ind) <= Z.max (get_ndim first) 1 /\
  get_ndim second = derived_rank (get_ndim first) (Z.of_nat (length py_ind))
                      (get_ndim (nth 0 py_ind null_array)).
Proof.
  intros Hval. unpack.
  repeat split.
  - assumption.
  - destruct py_ind; [contradiction|cbn [length]; lia].
  - match goal with H : axes_in_range _ _ _ = true |- _ =>
      unfold axes_in_range in H; apply Z.leb_le in H; exact H end.
  - match goal with H : rank_agrees _ _ _ = true |- _ =>
      unfold rank_agrees in H; apply Z.eqb_eq in H; exact H end.
Qed.

(** X2: the routine of a call that passes every check reads the data
    pointers of the index arrays, in the order of the list, through
    [packed_ind_ptrs], and an offset 0 for each of them through
    [packed_ind_offsets]. *)
Theorem index_pointers_staged op tables first py_ind second axis_start mode exec_q depends
    t i o tr :
  validated op exec_q first py_ind second axis_start mode t i ->
  index_nelems py_ind <> 0 ->
  run (orchestrate op tables first py_ind second axis_start mode exec_q depends) = (o, tr) ->
  staged_for tr (map get_data py_ind) ka_packed_ind_ptrs /\
  staged_for tr (map (fun _ => 0) py_ind) ka_packed_ind_offsets.
Proof.
  intros Hval Hn Hrun. apply run_snd in Hrun.
  destruct (validated_trace op tables first py_ind second axis_start mode exec_q depends
              t i Hval Hn) as (sh & _ & Htr).
  rewrite <- Hrun in Htr.
  destruct (staging_trace_staged _ _ _ _ _ _ _ _ _ _ _ _ _ _ _ _ _ _ Htr)
    as (H0 & _ & H2 & _ & _).
  rewrite std_copy_zero_vector in H0 by (rewrite length_map; reflexivity).
  rewrite std_copy_zero_vector in H2 by (rewrite length_map; reflexivity).
  split; assumption.
Qed.

(** X3: the routine of a call that passes every check, with index arrays
    that have as many strides as extents, reads through
    [packed_ind_shapes_strides] the shape of the first index array
    followed by the strides of each index array in the order of the list;
    with index arrays of rank 0, [k + 1] zeros. *)
Theorem index_shapes_strides_staged op tables first py_ind second axis_start mode exec_q
    depends t i o tr :
  validated op exec_q first py_ind second axis_start mode t i ->
  index_nelems py_ind <> 0 ->
  Forall well_formed py_ind ->
  run (orchestrate op tables first py_ind second axis_start mode exec_q depends) = (o, tr) ->
  staged_for tr
    (if get_ndim (nth 0 py_ind null_array) >? 0
     then ind_shapes_strides_layout py_ind
     else zero_vector (Z.of_nat (length py_ind) + 1))
    ka_packed_ind_shapes_strides.
Proof.
  intros Hval Hn Hwf Hrun. apply run_snd in Hrun.
  destruct (validated_trace op tables first py_ind second axis_start mode exec_q depends
              t i Hval Hn) as (sh & Hsh & Htr).
  rewrite <- Hrun in Htr. specialize (Hsh Hwf).
  destruct (staging_trace_staged _ _ _ _ _ _ _ _ _ _ _ _ _ _ _ _ _ _ Htr)
    as (_ & H1 & _ & _ & _).
  rewrite std_copy_zero_vector in H1; [rewrite <- Hsh; exact H1|].
  rewrite Hsh.
  assert (Hok : index_list_ok exec_q py_ind) by (unpack; assumption).
  destruct (get_ndim (nth 0 py_ind null_array) >? 0) eqn:Hnd.
  - apply Z.gtb_lt in Hnd. unfold ind_shapes_strides_layout.
    rewrite length_app.
    rewrite (length_concat_strides py_ind
               (length (get_shape_raw (nth 0 py_ind null_array)))).
    + unfold get_ndim in *. nia.
    + destruct Hok as [_ Hrank]. rewrite Forall_forall in *. intros a Ha.
      rewrite (Hwf a Ha). specialize (Hrank a Ha). unfold get_ndim in Hrank. lia.
  - rewrite Z.gtb_ltb in Hnd. apply Z.ltb_ge in Hnd.
    unfold zero_vector. rewrite repeat_length. lia.
Qed.

(** X4: the routine of a call that passes every check, with arrays that
    have as many strides as extents, reads through [packed_shapes_strides]
    the extents of the indexed array on the axes that are not indexed,
    then its strides on those axes, then the strides of the other array on
    its axes outside the ones the index arrays span; three zeros when
    every axis is indexed. *)
Theorem orthogonal_shapes_strides_staged op tables first py_ind second axis_start mode
    exec_q depends t i o tr :
  validated op exec_q first py_ind second axis_start mode t i ->
  index_nelems py_ind <> 0 ->
  well_formed first -> well_formed second ->
  run (orchestrate op tables first py_ind second axis_start mode exec_q depends) = (o, tr) ->
  staged_for tr
    (if get_ndim first - Z.of_nat (length py_ind) >? 0
     then shapes_strides_layout first second py_ind axis_start
     else zero_vector 3)
    ka_packed_shapes_strides.
Proof.
  intros Hval Hn Hwf1 Hwf2 Hrun. apply run_snd in Hrun.
  destruct (validated_trace op tables first py_ind second axis_start mode exec_q depends
              t i Hval Hn) as (sh & _ & Htr).
  rewrite <- Hrun in Htr.
  destruct (staging_trace_staged _ _ _ _ _ _ _ _ _ _ _ _ _ _ _ _ _ _ Htr)
    as (_ & _ & _ & H3 & _).
  destruct (validated_ranks op first py_ind second axis_start mode exec_q t i Hval)
    as (Hax & Hk & Hrange & Hrank).
  unfold well_formed in *.
  destruct (get_ndim first - Z.of_nat (length py_ind) >? 0) eqn:Horth.
  - apply Z.gtb_lt in Horth.
    rewrite Z.max_l in H3 by lia.
    unfold derived_rank in Hrank.
    replace (get_ndim first =? 0) with false in Hrank by (symmetry; apply Z.eqb_neq; lia).
    unfold get_ndim in *.
    rewrite staged_orthog_sh_st_layout in H3 by lia.
    exact H3.
  - rewrite Z.gtb_ltb in Horth. apply Z.ltb_ge in Horth.
    rewrite Z.max_r in H3 by lia.
    rewrite staged_orthog_sh_st_none in H3 by lia.
    exact H3.
Qed.

(** X5: the routine of a call that passes every check, with arrays that
    have as many strides as extents, reads through
    [packed_axes_shapes_strides] the extents and the strides of the
    indexed axes, then the extents and the strides of the axes of the
    other array that the index arrays span; the rows of an array of rank 0
    are zeros. *)
Theorem axes_shapes_strides_staged op tables first py_ind second axis_start mode
    exec_q depends t i o tr :
  validated op exec_q first py_ind second axis_start mode t i ->
  index_nelems py_ind <> 0 ->
  well_formed first -> well_formed second ->
  run (orchestrate op tables first py_ind second axis_start mode exec_q depends) = (o, tr) ->
  staged_for tr (axes_shapes_strides_layout first second py_ind axis_start)
    ka_packed_axes_shapes_strides.
Proof.
  intros Hval Hn Hwf1 Hwf2 Hrun. apply run_snd in Hrun.
  destruct (validated_trace op tables first py_ind second axis_start mode exec_q depends
              t i Hval Hn) as (sh & _ & Htr).
  rewrite <- Hrun in Htr.
  destruct (staging_trace_staged _ _ _ _ _ _ _ _ _ _ _ _ _ _ _ _ _ _ Htr)
    as (_ & _ & _ & _ & H4).
  destruct (validated_ranks op first py_ind second axis_start mode exec_q t i Hval)
    as (Hax & Hk & Hrange & Hrank).
  unfold well_formed in *.
  unfold derived_rank in Hrank.
  assert (Hind : 0 <= get_ndim (nth 0 py_ind null_array)) by (unfold get_ndim; lia).
  unfold get_ndim in H4 at 2. 
  rewrite staged_along_sh_st_layout in H4.
  - exact H4.
  - exact Hax.
  - lia.
  - exact Hind.
  - exact Hwf1.
  - exact Hwf2.
  - fold (get_ndim first). lia.
  - fold (get_ndim second). destruct (get_ndim first =? 0) eqn:Hz.
    + apply Z.eqb_eq in Hz. lia.
    + apply Z.eqb_neq in Hz. assert (0 <= get_ndim first) by (unfold get_ndim; lia). lia.
Qed.

End StagedMetadata.

(** ** Completion orders *)

Lemma runs_before_in (sched : list nat) (d e : nat) :
  runs_before sched d e -> In d sched /\ In e sched.
Proof.
  intros (l1 & l2 & l3 & ->). split.
  - apply in_or_app. right. left. reflexivity.
  - apply in_or_app. right. right. apply in_or_app. right. left. reflexivity.
Qed.

(** In a list without duplicates an element splits the list in one way. *)
Lemma NoDup_split_unique {A} (x : A) (a b a' b' : list A) :
  NoDup (a ++ x :: b) -> a ++ x :: b = a' ++ x :: b' -> a = a' /\ b = b'.
Proof.
  revert a'. induction a as [|y a IH]; intros a' Hnd Heq.
  - destruct a' as [|y' a']; cbn [app] in *.
    + inversion Heq. split; reflexivity.
    + exfalso. inversion Heq; subst. inversion Hnd as [|? ? Hnotin _]; subst.
      apply Hnotin. apply in_or_app. right. left. reflexivity.
  - destruct a' as [|y' a']; cbn [app] in *.
    + exfalso. inversion Heq; subst. inversion Hnd as [|? ? Hnotin _]; subst.
      apply Hnotin. apply in_or_app. right. left. reflexivity.
    + inversion Heq; subst. inversion Hnd as [|? ? _ Hnd']; subst.
      destruct (IH a' Hnd' ltac:(assumption)) as [-> ->]. split; reflexivity.
Qed.

(** When every task runs once, the order of completion is transitive. *)
Lemma runs_before_trans (sched : list nat) (d e f : nat) :
  NoDup sched -> runs_before sched d e -> runs_before sched e f -> runs_before sched d f.
Proof.
  intros Hnd (l1 & l2 & l3 & Hde) (m1 & m2 & m3 & Hef).
  assert (Heq : (l1 ++ d :: l2) ++ e :: l3 = m1 ++ e :: m2 ++ f :: m3)
    by (rewrite <- app_assoc; cbn [app]; congruence).
  apply NoDup_split_unique in Heq.
  - destruct Heq as [_ Hl3]. exists l1, (l2 ++ e :: m2), m3.
    rewrite Hde, Hl3, <- app_assoc. reflexivity.
  - rewrite <- app_assoc. cbn [app]. rewrite <- Hde. exact Hnd.
Qed.

(** The copies of a staging trace and their events. *)
Lemma staging_trace_copies table first second mode k first_nd orthog_nelems ind_nelems
    ind_sh_elems first_type_id ind_type_id depends p0 p1 p2 p3 p4 payload p ev :
  In (queue_copy payload p ev)
    (staging_trace k ind_sh_elems (Z.max (first_nd - k) 1) p0 p1 p2 p3 p4 ++
     submission_tail table first second mode k first_nd orthog_nelems ind_nelems
       ind_sh_elems first_type_id ind_type_id depends) ->
  In (payload, p, ev)
    [(p0, 0%nat, 0%nat); (p1, 1%nat, 1%nat); (p2, 2%nat, 2%nat); (p3, 3%nat, 3%nat);
     (p4, 4%nat, 4%nat)].
Proof.
  intros Hin. apply in_app_or in Hin. destruct Hin as [Hin|Hin].
  - unfold staging_trace in Hin. cbn [In] in Hin |- *.
    repeat (destruct Hin as [Hin|Hin];
            [first [discriminate Hin|inversion Hin; subst; tauto]|]).
    contradiction.
  - unfold submission_tail in Hin.
    destruct (table mode first_type_id ind_type_id); cbn [In] in Hin.
    + destruct Hin as [Hin|[Hin|[Hin|[]]]]; discriminate Hin.
    + destruct Hin as [Hin|[]]. discriminate Hin.
Qed.

(** The routine of a staging trace. *)
Lemma staging_trace_kernel table first second mode k first_nd orthog_nelems ind_nelems
    ind_sh_elems first_type_id ind_type_id depends p0 p1 p2 p3 p4 fn args deps kev :
  In (kernel_submit fn args deps kev)
    (staging_trace k ind_sh_elems (Z.max (first_nd - k) 1) p0 p1 p2 p3 p4 ++
     submission_tail table first second mode k first_nd orthog_nelems ind_nelems
       ind_sh_elems first_type_id ind_type_id depends) ->
  table mode first_type_id ind_type_id = Some fn /\
  args = mk_kernel_args orthog_nelems ind_nelems (Z.max (first_nd - k) 1)
           ind_sh_elems k 3 4 1 (get_data first) (get_data second) 0 0 0 2 /\
  deps = pack_deps_events ++ depends /\ kev = 6%nat.
Proof.
  intros Hin. apply in_app_or in Hin. destruct Hin as [Hin|Hin].
  - unfold staging_trace in Hin. cbn [In] in Hin.
    repeat (destruct Hin as [Hin|Hin]; [discriminate Hin|]). contradiction.
  - unfold submission_tail in Hin.
    destruct (table mode first_type_id ind_type_id); cbn [In] in Hin.
    + destruct Hin as [Hin|[Hin|[Hin|[]]]]; try discriminate Hin.
      inversion Hin; subst. repeat split; reflexivity.
    + destruct Hin as [Hin|[]]. discriminate Hin.
Qed.

Section Submission.
Context `{C : Collaborators}.

(** A call leaves the queue untouched or leaves the trace of
    [pack_and_submit] on it, every check passed. *)
Lemma empty_or_staging_trace op tables first py_ind second axis_start mode exec_q depends
    o tr :
  run (orchestrate op tables first py_ind second axis_start mode exec_q depends) = (o, tr) ->
  (tr = [] /\ forall a b, o <> returned (submitted_event a, submitted_event b)) \/
  exists t i sh ptrs offs,
    validated op exec_q first py_ind second axis_start mode t i /\
    index_nelems py_ind <> 0 /\
    o = match table_of op tables mode t i with
        | None => thrown (runtime_error
                            ("Indices must be integer type, got " ++ to_string i))
        | Some _ => returned (submitted_event 8, submitted_event 6)
        end /\
    tr =
    staging_trace (Z.of_nat (length py_ind)) (Z.max (get_ndim (nth 0 py_ind null_array)) 1)
      (Z.max (get_ndim first - Z.of_nat (length py_ind)) 1)
      (std_copy ptrs (zero_vector (Z.of_nat (length py_ind))) 0)
      (std_copy sh
         (zero_vector (Z.max (get_ndim (nth 0 py_ind null_array)) 1 *
                       (Z.of_nat (length py_ind) + 1))) 0)
      (std_copy offs (zero_vector (Z.of_nat (length py_ind))) 0)
      (staged_orthog_sh_st (get_shape_raw first) (get_strides_vector first)
         (get_strides_vector second) axis_start (Z.of_nat (length py_ind))
         (get_ndim (nth 0 py_ind null_array)) (get_ndim first)
         (Z.max (get_ndim first - Z.of_nat (length py_ind)) 1))
      (staged_along_sh_st (get_shape_raw first) (get_shape_raw second)
         (get_strides_vector first) (get_strides_vector second) axis_start
         (Z.of_nat (length py_ind)) (get_ndim (nth 0 py_ind null_array)) (get_ndim first)
         (Z.max (get_ndim (nth 0 py_ind null_array)) 1)) ++
    submission_tail (table_of op tables) first second mode (Z.of_nat (length py_ind))
      (get_ndim first) (orthog_nelems_of first second py_ind axis_start)
      (index_nelems py_ind) (Z.max (get_ndim (nth 0 py_ind null_array)) 1) t i depends.
Proof.
  intros Hrun.
  destruct (untouched_or_validated op tables first py_ind second axis_start mode exec_q
              depends)
    as [(e & He & _)|[Hd|(t & i & sh & ptrs & offs & Hval & Hn & Heq)]].
  - left. rewrite He in Hrun. inversion Hrun; subst. split; [reflexivity|discriminate].
  - left. rewrite Hd in Hrun. inversion Hrun; subst. split; [reflexivity|discriminate].
  - right. exists t, i, sh, ptrs, offs.
    rewrite Heq, pack_and_submit_run in Hrun. inversion Hrun; subst.
    split; [exact Hval|split; [exact Hn|split; reflexivity]].
Qed.

(** X1: each staging copy of a call fills a device allocation of exactly
    the number of elements copied. *)
Theorem staging_copies_fill_allocations op tables first py_ind second axis_start mode
    exec_q depends o tr payload p ev :
  run (orchestrate op tables first py_ind second axis_start mode exec_q depends) = (o, tr) ->
  In (queue_copy payload p ev) tr ->
  In (smart_malloc_device (Z.of_nat (length payload)) p) tr.
Proof.
  intros Hrun Hin.
  destruct (empty_or_staging_trace _ _ _ _ _ _ _ _ _ _ _ Hrun)
    as [[-> _]|(t & i & sh & ptrs & offs & _ & _ & _ & ->)]; [contradiction|].
  pose proof (staging_trace_copies _ _ _ _ _ _ _ _ _ _ _ _ _ _ _ _ _ _ _ _ Hin) as Hc.
  apply in_or_app. left. clear Hin.
  assert (Hk : 0 <= Z.of_nat (length py_ind)) by lia.
  set (k := Z.of_nat (length py_ind)) in *.
  set (ise := Z.max (get_ndim (nth 0 py_ind null_array)) 1) in *.
  set (ose := Z.max (get_ndim first - k) 1) in *.
  assert (Hise : 1 <= ise) by (unfold ise; lia).
  assert (Hose : 1 <= ose) by (unfold ose; lia).
  cbn [In] in Hc.
  destruct Hc as [Hc|[Hc|[Hc|[Hc|[Hc|[]]]]]]; inversion Hc; subst payload p ev;
    unfold staging_trace; cbn [In].
  - rewrite std_copy_length. unfold zero_vector. rewrite repeat_length, Z2Nat.id by lia.
    tauto.
  - rewrite std_copy_length. unfold zero_vector. rewrite repeat_length, Z2Nat.id by nia.
    replace (ise * (k + 1)) with ((k + 1) * ise) by ring. tauto.
  - rewrite std_copy_length. unfold zero_vector. rewrite repeat_length, Z2Nat.id by lia.
    tauto.
  - rewrite staged_orthog_sh_st_length, Z2Nat.id by lia. tauto.
  - rewrite staged_along_sh_st_length, Z2Nat.id by lia. tauto.
Qed.


(** X7: in every order of completion that respects the dependencies, the
    routine of a call starts after each of the staging copies and after
    each event the caller passed in [depends]. *)
Theorem routine_waits_for_staging_and_dependencies op tables first py_ind second axis_start
    mode exec_q depends o tr fn args deps kev sched :
  run (orchestrate op tables first py_ind second axis_start mode exec_q depends) = (o, tr) ->
  In (kernel_submit fn args deps kev) tr ->
  respects_dependencies tr sched ->
  In kev sched ->
  (forall payload p ev, In (queue_copy payload p ev) tr -> runs_before sched ev kev) /\
  (forall d, In (submitted_event d) depends -> runs_before sched d kev).
Proof.
  intros Hrun Hin Hresp Hsched.
  destruct (empty_or_staging_trace _ _ _ _ _ _ _ _ _ _ _ Hrun)
    as [[-> _]|(t & i & sh & ptrs & offs & _ & _ & _ & Htr)]; [contradiction|].
  rewrite Htr in Hin.
  destruct (staging_trace_kernel _ _ _ _ _ _ _ _ _ _ _ _ _ _ _ _ _ _ _ _ _ Hin)
    as (_ & -> & -> & ->).
  rewrite <- Htr in Hin.
  split.
  - intros payload p ev Hcopy.
    apply (Hresp _ 6%nat (pack_deps_events ++ depends) ev Hin eq_refl); [|exact Hsched].
    rewrite Htr in Hcopy.
    pose proof (staging_trace_copies _ _ _ _ _ _ _ _ _ _ _ _ _ _ _ _ _ _ _ _ Hcopy) as Hc.
    apply in_or_app. left. unfold pack_deps_events. cbn [In] in Hc |- *.
    destruct Hc as [Hc|[Hc|[Hc|[Hc|[Hc|[]]]]]]; inversion Hc; subst; tauto.
  - intros d Hd.
    apply (Hresp _ 6%nat (pack_deps_events ++ depends) d Hin eq_refl); [|exact Hsched].
    apply in_or_app. right. exact Hd.
Qed.

(** X8: when each task runs once, the first event returned by a call that
    submits a routine completes after the routine and after each of the
    staging copies: the caller who waits for it may release the
    arguments. *)
Theorem host_task_event_completes_last op tables first py_ind second axis_start
    mode exec_q depends tr keep_ev compute_ev sched :
  run (orchestrate op tables first py_ind second axis_start mode exec_q depends) =
    (returned (submitted_event keep_ev, submitted_event compute_ev), tr) ->
  NoDup sched ->
  respects_dependencies tr sched ->
  In keep_ev sched ->
  runs_before sched compute_ev keep_ev /\
  (forall payload p ev, In (queue_copy payload p ev) tr -> runs_before sched ev keep_ev).
Proof.
  intros Hrun Hnd Hresp Hsched.
  destruct (empty_or_staging_trace _ _ _ _ _ _ _ _ _ _ _ Hrun)
    as [[_ Hno]|(t & i & sh & ptrs & offs & _ & _ & Ho & Htr)];
    [exfalso; exact (Hno _ _ eq_refl)|].
  unfold submission_tail in Htr.
  destruct (table_of op tables mode t i) as [fn|]; [|discriminate Ho].
  inversion Ho; subst keep_ev compute_ev.
  match type of Htr with
  | tr = ?st ++ [?ker; ?free; ?keep] =>
      assert (Hkeep : In keep tr)
        by (rewrite Htr; apply in_or_app; right; cbn; tauto);
      assert (Hfree : In free tr)
        by (rewrite Htr; apply in_or_app; right; cbn; tauto);
      assert (Hhost : In (host_task [submitted_event 4; submitted_event 3;
                                     submitted_event 2; submitted_event 1;
                                     submitted_event 0] 5) tr)
        by (rewrite Htr; apply in_or_app; left; unfold staging_trace; cbn; tauto)
  end.
  assert (H78 : runs_before sched 7 8)
    by (apply (Hresp _ 8%nat _ 7%nat Hkeep eq_refl); [cbn; tauto|exact Hsched]).
  assert (H58 : runs_before sched 5 8)
    by (apply (Hresp _ 8%nat _ 5%nat Hkeep eq_refl); [cbn; tauto|exact Hsched]).
  assert (H67 : runs_before sched 6 7)
    by (apply (Hresp _ 7%nat _ 6%nat Hfree eq_refl);
        [cbn; tauto|apply (runs_before_in _ _ _ H78)]).
  split.
  - exact (runs_before_trans _ _ _ _ Hnd H67 H78).
  - intros payload p ev Hcopy. rewrite Htr in Hcopy.
    match type of Hcopy with
    | In _ (?st ++ ?tl) =>
        assert (Hc : In (queue_copy payload p ev) st)
    end.
    { apply in_app_or in Hcopy. destruct Hcopy as [Hc|Hc]; [exact Hc|].
      cbn [In] in Hc. destruct Hc as [Hc|[Hc|[Hc|[]]]]; discriminate Hc. }
    apply (runs_before_trans _ _ 5%nat _ Hnd); [|exact H58].
    apply (Hresp _ 5%nat _ ev Hhost eq_refl); [|apply (runs_before_in _ _ _ H58)].
    unfold staging_trace in Hc. cbn [In] in Hc |- *.
    repeat (destruct Hc as [Hc|Hc];
            [first [discriminate Hc|inversion Hc; subst; tauto]|]).
    contradiction.
Qed.

(** After [init_advanced_indexing_dispatch_tables], row [mode] of the
    table of an operation is the output of its factory. *)
Lemma table_of_init op (tables : dispatch_tables) (mode : Z) :
  mode = 0 \/ mode = 1 ->
  table_of op (init_advanced_indexing_dispatch_tables tables) mode = factory_of op mode.
Proof. intros [-> | ->]; destruct op; reflexivity. Qed.

(** X9: once the tables are initialised, a call that passes every check
    submits the routine that the factory of its operation and mode makes
    for the type id of the indexed array and the type id of the index
    arrays, whatever the tables held before; when the factory makes none,
    the call throws the runtime error. *)
Theorem initialised_tables_dispatch_to_factories op tables first py_ind second axis_start
    mode exec_q depends t i o tr :
  validated op exec_q first py_ind second axis_start mode t i ->
  index_nelems py_ind <> 0 ->
  run (orchestrate op (init_advanced_indexing_dispatch_tables tables) first py_ind second
         axis_start mode exec_q depends) = (o, tr) ->
  match factory_of op mode t i with
  | Some fn =>
      o = returned (submitted_event 8, submitted_event 6) /\
      exists args deps, In (kernel_submit fn args deps 6) tr
  | None =>
      o = thrown (runtime_error ("Indices must be integer type, got " ++ to_string i)) /\
      forall fn args deps kev, ~ In (kernel_submit fn args deps kev) tr
  end.
Proof.
  intros Hval Hn Hrun.
  destruct (empty_or_staging_trace _ _ _ _ _ _ _ _ _ _ _ Hrun)
    as [[Htr _]|(t' & i' & sh & ptrs & offs & Hval' & _ & Ho & Htr)].
  - exfalso. subst tr.
    destruct (validated_submits op (init_advanced_indexing_dispatch_tables tables) first
                py_ind second axis_start mode exec_q depends t i Hval Hn)
      as (sh & ptrs & offs & Heq).
    rewrite Heq, pack_and_submit_run in Hrun. apply (f_equal snd) in Hrun.
    cbn [snd] in Hrun. unfold staging_trace in Hrun. discriminate Hrun.
  - assert (t' = t /\ i' = i) as [-> ->] by (unpack; split; congruence).
    assert (Hmode : mode = 0 \/ mode = 1) by (unpack; assumption).
    unfold submission_tail in Htr.
    rewrite table_of_init in Ho, Htr by exact Hmode.
    destruct (factory_of op mode t i) as [fn|].
    + split; [exact Ho|]. do 2 eexists. rewrite Htr. apply in_or_app. right. left.
      reflexivity.
    + split; [exact Ho|]. intros fn args deps kev Hin. rewrite Htr in Hin.
      apply in_app_or in Hin. destruct Hin as [Hin|Hin].
      * unfold staging_trace in Hin. cbn [In] in Hin.
        repeat (destruct Hin as [Hin|Hin]; [discriminate Hin|]). contradiction.
      * cbn [In] in Hin. destruct Hin as [Hin|[]]. discriminate Hin.
Qed.

End Submission.

(** ** The shape of the other array *)



Section Shapes.
Context `{C : Collaborators}.


Lemma checked_at_within (p : list Z) (i : Z) :
  0 <= i < Z.of_nat (length p) -> checked_at p i = Some (raw_at p i).
Proof.
  intros Hi. unfold checked_at.
  replace (0 <=? i) with true by (symmetry; apply Z.leb_le; lia).
  replace (i <? Z.of_nat (length p)) with true by (symmetry; apply Z.ltb_lt; lia).
  reflexivity.
Qed.

Lemma orthog_loop_checked_within (shape1 shape2 : list Z) (axis_start k ind_nd nd : Z) :
  (forall i, 0 <= i < nd - k ->
     0 <= (if i <? axis_start then i else i + k) < Z.of_nat (length shape1) /\
     0 <= (if i <? axis_start then i else i + ind_nd) < Z.of_nat (length shape2)) ->
  orthog_loop_checked shape1 shape2 axis_start k ind_nd nd =
  Some (orthog_loop shape1 shape2 axis_start k ind_nd nd).
Proof.
  intros Hin. unfold orthog_loop_checked, orthog_loop.
  assert (Hall : Forall (fun i => 0 <= i < nd - k) (int_range (nd - k)))
    by (apply Forall_forall; intros i Hi; apply in_int_range; exact Hi).
  revert Hall. generalize (1, true) as acc. generalize (int_range (nd - k)) as l.
  induction l as [|i l IH]; intros acc Hall; cbn [fold_left].
  - reflexivity.
  - apply Forall_cons_iff in Hall. destruct Hall as [Hi Hall].
    destruct (Hin i Hi) as [H1 H2]. cbv zeta.
    rewrite (checked_at_within _ _ H1), (checked_at_within _ _ H2).
    apply IH. exact Hall.
Qed.

Lemma ind_shape_loop_checked_within (ind_shape arr_shape : list Z) (axis_start : Z)
    (e : exn) (dims : list Z) :
  Forall (fun i => 0 <= i < Z.of_nat (length ind_shape) /\
                   0 <= axis_start + i < Z.of_nat (length arr_shape)) dims ->
  forall ind_nelems s,
    ind_shape_loop_checked ind_shape arr_shape axis_start e dims ind_nelems s =
    match ind_shape_loop ind_shape arr_shape axis_start e dims ind_nelems s with
    | (returned n, s') => (returned (Some n), s')
    | (thrown x, s') => (thrown x, s')
    end.
Proof.
  induction 1 as [|i dims [H1 H2] _ IH]; intros ind_nelems s;
    cbn [ind_shape_loop_checked ind_shape_loop].
  - reflexivity.
  - rewrite (checked_at_within _ _ H1), (checked_at_within _ _ H2). cbv zeta.
    rewrite !bind_throw_if.
    destruct (negb (raw_at ind_shape i =? raw_at arr_shape (axis_start + i)));
      [reflexivity|apply IH].
Qed.

(** X11: in a call whose sum [axis_start + k] fits an [int], once the
    index list is not empty, the axis is not negative and the checks of the
    range of the axes and of the rank have passed, no read of a shape array
    in the loop over the orthogonal axes or in the loop over the axes of
    the first index array is outside the array: the loops with every read
    checked compute what the loops of the code compute. *)
Theorem shape_reads_within_bounds first second py_ind axis_start :
  0 <= axis_start -> py_ind <> [] ->
  int_sum_fits py_ind axis_start ->
  axes_in_range first py_ind axis_start = true ->
  rank_agrees first second py_ind = true ->
  orthog_loop_checked (get_shape_raw first) (get_shape_raw second) axis_start
    (Z.of_nat (length py_ind)) (get_ndim (nth 0 py_ind null_array)) (get_ndim first)
  = Some (orthog_loop (get_shape_raw first) (get_shape_raw second) axis_start
            (Z.of_nat (length py_ind)) (get_ndim (nth 0 py_ind null_array))
            (get_ndim first)) /\
  forall e s,
    ind_shape_loop_checked (get_shape_raw (nth 0 py_ind null_array)) (get_shape_raw second)
      axis_start e (int_range (get_ndim (nth 0 py_ind null_array))) 1 s =
    match ind_shape_loop (get_shape_raw (nth 0 py_ind null_array)) (get_shape_raw second)
            axis_start e (int_range (get_ndim (nth 0 py_ind null_array))) 1 s with
    | (returned ind_nelems, s') => (returned (Some ind_nelems), s')
    | (thrown x, s') => (thrown x, s')
    end.
Proof.
  intros Hax Hne _ Hrange Hrank.
  unfold axes_in_range in Hrange. apply Z.leb_le in Hrange.
  unfold rank_agrees in Hrank. apply Z.eqb_eq in Hrank. unfold derived_rank in Hrank.
  assert (Hk : 1 <= Z.of_nat (length py_ind))
    by (destruct py_ind; [contradiction|cbn [length]; lia]).
  assert (Hnd : 0 <= get_ndim first) by (unfold get_ndim; lia).
  assert (Hind : 0 <= get_ndim (nth 0 py_ind null_array)) by (unfold get_ndim; lia).
  split.
  - apply orthog_loop_checked_within. intros i Hi.
    change (Z.of_nat (length (get_shape_raw first))) with (get_ndim first).
    change (Z.of_nat (length (get_shape_raw second))) with (get_ndim second).
    replace (get_ndim first =? 0) with false in Hrank by (symmetry; apply Z.eqb_neq; lia).
    destruct (i <? axis_start) eqn:Hlt.
    + apply Z.ltb_lt in Hlt. lia.
    + apply Z.ltb_ge in Hlt. lia.
  - intros e s. apply ind_shape_loop_checked_within.
    apply Forall_forall. intros i Hi. apply in_int_range in Hi.
    change (Z.of_nat (length (get_shape_raw (nth 0 py_ind null_array))))
      with (get_ndim (nth 0 py_ind null_array)).
    change (Z.of_nat (length (get_shape_raw second))) with (get_ndim second).
    destruct (get_ndim first =? 0) eqn:Hz.
    + apply Z.eqb_eq in Hz. lia.
    + apply Z.eqb_neq in Hz. lia.
Qed.

End Shapes.

(** ** The index list *)

Section IndexList.
Context `{C : Collaborators}.

(** The exceptions of [parse_py_ind]. *)
Lemma parse_py_ind_loop_messages q py_ind :
  forall known nd res e s s',
    parse_py_ind_loop q py_ind known nd res s = (thrown e, s') ->
    e = value_error "Index allocation queue is not compatible with execution queue" \/
    e = value_error "Indices must have the same number of dimensions.".
Proof.
  induction py_ind as [|arr_i rest IH]; intros known nd res e s s' Hrun; simpl in Hrun.
  - discriminate.
  - rewrite bind_throw_if in Hrun.
    destruct (queues_are_compatible q [arr_i]); simpl in Hrun;
      [|inversion Hrun; left; reflexivity].
    destruct known.
    + rewrite bind_bind, bind_throw_if in Hrun.
      destruct (nd =? get_ndim arr_i); simpl in Hrun;
        [|inversion Hrun; right; reflexivity].
      rewrite bind_ret in Hrun. eapply IH; eassumption.
    + rewrite bind_ret in Hrun. eapply IH; eassumption.
Qed.

(** On a sequence of arrays the casts are transparent. *)
Lemma parse_py_ind_loop_of_arrays q (arrays : list usm_ndarray) :
  forall known nd res s,
    PySequence.parse_py_ind_loop q (map py_usm_ndarray arrays) known nd res s =
    parse_py_ind_loop q arrays known nd res s.
Proof.
  induction arrays as [|a arrays IH]; intros known nd res s;
    cbn [map PySequence.parse_py_ind_loop parse_py_ind_loop py_cast].
  - reflexivity.
  - rewrite bind_ret. apply bind_ext. intros _ s1. apply bind_ext. intros nd' s2. apply IH.
Qed.

(** The first object that is not an array gets the cast error, unless an
    array before it has failed a check. *)
Lemma parse_py_ind_loop_cast_error q (good : list usm_ndarray) (rest : list py_object) :
  forall known nd res s,
    PySequence.parse_py_ind_loop q (map py_usm_ndarray good ++ py_other :: rest)
      known nd res s =
    match parse_py_ind_loop q good known nd res s with
    | (returned _, s') => (thrown cast_error, s')
    | (thrown e, s') => (thrown e, s')
    end.
Proof.
  induction good as [|a good IH]; intros known nd res s;
    cbn [map app PySequence.parse_py_ind_loop parse_py_ind_loop py_cast].
  - reflexivity.
  - rewrite bind_ret, !bind_throw_if.
    destruct (negb (queues_are_compatible q [a])); [reflexivity|].
    destruct known.
    + rewrite !bind_bind, !bind_throw_if.
      destruct (negb (nd =? get_ndim a)); [reflexivity|].
      rewrite !bind_ret. apply IH.
    + rewrite !bind_ret. apply IH.
Qed.

(** A sequence holds arrays only, or a first object that is not one. *)
Lemma py_objects_split (py_ind : list py_object) :
  (exists arrays, py_ind = map py_usm_ndarray arrays) \/
  (exists good rest, py_ind = map py_usm_ndarray good ++ py_other :: rest).
Proof.
  induction py_ind as [|el py_ind [(arrays & ->)|(good & rest & ->)]].
  - left. exists []. reflexivity.
  - destruct el as [a|].
    + left. exists (a :: arrays). reflexivity.
    + right. exists [], (map py_usm_ndarray arrays). reflexivity.
  - destruct el as [a|].
    + right. exists (a :: good), rest. reflexivity.
    + right. exists [], (map py_usm_ndarray good ++ py_other :: rest). reflexivity.
Qed.

(** X12: [parse_py_ind] on a sequence of Python objects.  It returns
    exactly when every item is an array, on a queue compatible with the
    executing one and of the rank of the first, and then returns the
    arrays in order; otherwise it throws the cast error of the first
    object that is not an array, or one of its two value errors for an
    array before any such object; the cast error is thrown when every
    array before the object passes its checks.  It never touches the
    queue, and on a sequence of arrays it is the loop without the
    casts. *)
Theorem parse_py_ind_accepts_iff q (py_ind : list py_object) s :
  (forall r s',
     PySequence.parse_py_ind q py_ind s = (returned r, s') <->
     py_ind = map py_usm_ndarray r /\ index_list_ok q r /\ s' = s) /\
  (forall e s',
     PySequence.parse_py_ind q py_ind s = (thrown e, s') ->
     s' = s /\
     (e = cast_error \/
      e = value_error "Index allocation queue is not compatible with execution queue" \/
      e = value_error "Indices must have the same number of dimensions.")) /\
  (forall good rest,
     py_ind = map py_usm_ndarray good ++ py_other :: rest ->
     index_list_ok q good ->
     PySequence.parse_py_ind q py_ind s = (thrown cast_error, s)) /\
  (forall arrays,
     py_ind = map py_usm_ndarray arrays ->
     PySequence.parse_py_ind q py_ind s = parse_py_ind q arrays s).
Proof.
  assert (Harrays : forall arrays,
            py_ind = map py_usm_ndarray arrays ->
            PySequence.parse_py_ind q py_ind s = parse_py_ind q arrays s).
  { intros arrays ->. apply parse_py_ind_loop_of_arrays. }
  assert (Hother : forall good rest,
            py_ind = map py_usm_ndarray good ++ py_other :: rest ->
            PySequence.parse_py_ind q py_ind s =
            match parse_py_ind q good s with
            | (returned _, s') => (thrown cast_error, s')
            | (thrown e, s') => (thrown e, s')
            end).
  { intros good rest ->. apply parse_py_ind_loop_cast_error. }
  split; [|split; [|split]].
  - intros r s'. split.
    + intros Hrun.
      destruct (py_objects_split py_ind) as [(arrays & Heq)|(good & rest & Heq)].
      * rewrite (Harrays arrays Heq) in Hrun.
        pose proof (stateless_parse_py_ind q arrays s) as Hs.
        destruct (parse_py_ind_returned _ _ _ _ _ Hrun) as [-> Hok].
        split; [exact Heq|split; [exact Hok|]].
        rewrite Hs in Hrun. congruence.
      * rewrite (Hother good rest Heq) in Hrun.
        destruct (parse_py_ind q good s) as [[r'|e] s'']; discriminate Hrun.
    + intros (Heq & Hok & ->).
      rewrite (Harrays r Heq). apply parse_py_ind_ok. exact Hok.
  - intros e s' Hrun.
    destruct (py_objects_split py_ind) as [(arrays & Heq)|(good & rest & Heq)].
    + rewrite (Harrays arrays Heq) in Hrun.
      pose proof (stateless_parse_py_ind q arrays s) as Hs.
      split; [rewrite Hs in Hrun; congruence|].
      right. exact (parse_py_ind_loop_messages _ _ _ _ _ _ _ _ Hrun).
    + rewrite (Hother good rest Heq) in Hrun.
      pose proof (stateless_parse_py_ind q good s) as Hs.
      destruct (parse_py_ind q good s) as [[r'|e'] s''] eqn:Hgood.
      * inversion Hrun; subst. split; [congruence|left; reflexivity].
      * inversion Hrun; subst. split; [congruence|].
        right. exact (parse_py_ind_loop_messages _ _ _ _ _ _ _ _ Hgood).
  - intros good rest Heq Hok.
    rewrite (Hother good rest Heq), (parse_py_ind_ok _ _ _ Hok). reflexivity.
  - exact Harrays.
Qed.

(** The loop past a prefix of arrays that pass. *)
Lemma parse_py_ind_loop_prefix q good :
  forall rest (known : bool) nd res s,
    Forall (fun a => queues_are_compatible q [a] = true) good ->
    Forall (fun a => get_ndim a =
                     if known then nd else get_ndim (nth 0 good null_array)) good ->
    parse_py_ind_loop q (good ++ rest) known nd res s =
    parse_py_ind_loop q rest (known || negb (Nat.eqb (length good) 0))
      (if known then nd else get_ndim (nth 0 good null_array)) (res ++ good) s.
Proof.
  induction good as [|a good IH]; intros rest known nd res s Hq Hn.
  - cbn [app length Nat.eqb negb nth]. rewrite orb_false_r, app_nil_r.
    destruct known; [reflexivity|].
    destruct rest as [|b rest]; [reflexivity|].
    cbn [parse_py_ind_loop]. reflexivity.
  - apply Forall_cons_iff in Hq. destruct Hq as [Hq1 Hq2].
    apply Forall_cons_iff in Hn. destruct Hn as [Hn1 Hn2].
    cbn [app parse_py_ind_loop length Nat.eqb negb nth].
    rewrite bind_throw_if, Hq1. cbn [negb]. rewrite orb_true_r.
    destruct known.
    + rewrite bind_bind, bind_throw_if, Hn1, Z.eqb_refl. cbn [negb].
      rewrite bind_ret.
      rewrite (IH rest true nd (res ++ [a]) s Hq2 Hn2).
      cbn [orb]. rewrite <- app_assoc. reflexivity.
    + rewrite bind_ret. cbn [nth] in Hn2.
      rewrite (IH rest true (get_ndim a) (res ++ [a]) s Hq2 Hn2).
      cbn [orb]. rewrite <- app_assoc. reflexivity.
Qed.

(** X13: [parse_py_ind] stops at the first array that fails: with the
    queue error when its queue is not compatible, else with the rank error
    when its rank is not the rank of the first array. *)
Theorem parse_py_ind_first_offender q good bad rest s :
  Forall (fun a => queues_are_compatible q [a] = true) good ->
  Forall (fun a => get_ndim a = get_ndim (nth 0 good null_array)) good ->
  (queues_are_compatible q [bad] = false ->
   parse_py_ind q (good ++ bad :: rest) s =
   (thrown (value_error "Index allocation queue is not compatible with execution queue"),
    s)) /\
  (queues_are_compatible q [bad] = true -> good <> [] ->
   get_ndim bad <> get_ndim (nth 0 good null_array) ->
   parse_py_ind q (good ++ bad :: rest) s =
   (thrown (value_error "Indices must have the same number of dimensions."), s)).
Proof.
  intros Hq Hn. unfold parse_py_ind.
  rewrite (parse_py_ind_loop_prefix q good (bad :: rest) false (-1) [] s Hq Hn).
  cbn [orb parse_py_ind_loop]. rewrite bind_throw_if.
  split.
  - intros Hbad. rewrite Hbad. reflexivity.
  - intros Hbad Hne Hrank. rewrite Hbad. cbn [negb].
    destruct good as [|a good]; [contradiction|].
    cbn [length Nat.eqb negb].
    rewrite bind_bind, bind_throw_if.
    replace (get_ndim (nth 0 (a :: good) null_array) =? get_ndim bad) with false
      by (symmetry; apply Z.eqb_neq; congruence).
    reflexivity.
Qed.

(** On a list that [parse_py_ind] accepted, the checks of the queue and of
    the rank that the loop over the index arrays repeats do not fail. *)
Lemma ind_arrays_loop_thrown_after_parse exec_q overlaps_dst ind_nd ind_type_id ind_shape
    ind :
  forall i sh ptrs offs e s s',
    Forall (fun a => queues_are_compatible exec_q [a] = true) ind ->
    Forall (fun a => get_ndim a = ind_nd) ind ->
    ind_arrays_loop exec_q overlaps_dst ind_nd ind_type_id ind_shape i ind sh ptrs offs s
    = (thrown e, s') ->
    e = UnsupportedType \/
    e = type_error "Indices array data types are not all the same." \/
    e = value_error "Indices shapes are not all equal." \/
    e = value_error "Arrays index overlapping segments of memory".
Proof.
  induction ind as [|ind_ rest IH]; intros i sh ptrs offs e s s' Hq Hn Hrun;
    simpl in Hrun; [discriminate|].
  apply Forall_cons_iff in Hq. destruct Hq as [Hq1 Hq2].
  apply Forall_cons_iff in Hn. destruct Hn as [Hn1 Hn2].
  rewrite bind_throw_if, Hq1 in Hrun. cbn [negb] in Hrun.
  destruct (i >? 0).
  - rewrite !bind_bind, bind_throw_if, Hn1, Z.eqb_refl in Hrun. cbn [negb] in Hrun.
    rewrite bind_bind in Hrun. unfold lookup_id in Hrun. rewrite bind_or_throw in Hrun.
    destruct (typenum_to_lookup_id (get_typenum ind_)) as [id_|];
      [|inversion Hrun; tauto].
    rewrite bind_bind, bind_throw_if in Hrun.
    destruct (ind_type_id =? id_); simpl in Hrun; [|inversion Hrun; tauto].
    rewrite bind_throw_if in Hrun.
    destruct (ind_shapes_differ ind_shape (get_shape_raw ind_) ind_nd);
      [inversion Hrun; tauto|].
    rewrite bind_throw_if in Hrun.
    destruct (overlaps_dst ind_); [inversion Hrun; tauto|].
    eapply IH; eassumption.
  - rewrite bind_ret, bind_throw_if in Hrun.
    destruct (overlaps_dst ind_); [inversion Hrun; tauto|].
    eapply IH; eassumption.
Qed.

(** A call whose index list is rejected throws what [parse_py_ind]
    throws. *)
Lemma orchestrate_parse_thrown op tables first py_ind second axis_start mode exec_q depends
    e :
  fst (parse_py_ind exec_q py_ind fresh_queue) = thrown e ->
  orchestrate op tables first py_ind second axis_start mode exec_q depends fresh_queue =
  (thrown e, fresh_queue).
Proof.
  intros Hp.
  destruct op; cbn [orchestrate]; unfold usm_ndarray_take, usm_ndarray_put;
    apply bind_thrown; [apply stateless_parse_py_ind|exact Hp
                       |apply stateless_parse_py_ind|exact Hp].
Qed.

(** X14: no call throws the value error of the rank check that the loop
    over the index arrays makes on each array after the first:
    [parse_py_ind] has rejected such a list before. *)
Theorem index_rank_recheck_never_throws op tables first py_ind second axis_start mode exec_q
    depends :
  fst (run (orchestrate op tables first py_ind second axis_start mode exec_q depends)) <>
  thrown (value_error "Index dimensions are not the same").
Proof.
  destruct (parse_py_ind exec_q py_ind fresh_queue) as [[r|e] s'] eqn:Hp.
  2: { pose proof (parse_py_ind_loop_messages _ _ _ _ _ _ _ _ Hp) as Hmsg.
       unfold run. cbv zeta. cbn [fst].
       rewrite (orchestrate_parse_thrown op tables first py_ind second axis_start mode
                  exec_q depends e (f_equal fst Hp)).
       cbn [fst]. destruct Hmsg as [-> | ->]; discriminate. }
  apply parse_py_ind_returned in Hp. destruct Hp as [_ Hok].
  pose proof (orchestrate_exits op tables first py_ind second axis_start mode exec_q depends)
    as Hex.
  unfold run. cbv zeta. cbn [fst].
  remember (orchestrate op tables first py_ind second axis_start mode exec_q depends
              fresh_queue) as r' eqn:Hr.
  clear Hr.
  destruct Hex; cbn [fst]; try discriminate; try contradiction.
  - destruct op; discriminate.
  - destruct op; discriminate.
  - destruct op; discriminate.
  - (* the loop over the index arrays throws *)
    match goal with H : index_arrays_throw _ _ _ _ _ _ _ |- _ => destruct H as [sh Hthrow] end.
    destruct (ind_arrays_loop _ _ _ _ _ _ _ _ _ _ _) as [o' s2] eqn:Hloop.
    cbn [fst] in Hthrow. subst o'.
    destruct Hok as [Hq Hn].
    destruct (ind_arrays_loop_thrown_after_parse _ _ _ _ _ _ _ _ _ _ _ _ _ Hq Hn Hloop)
      as [-> |[-> |[-> | ->]]]; discriminate.
  - (* allocation, packing and submission *)
    match goal with
    | |- fst (pack_and_submit ?tb ?a ?b ?ax ?m ?k ?ind ?nd ?on ?inl ?ise ?t ?i ?sh ?p ?o ?d
                fresh_queue) <> _ =>
        pose proof (pack_and_submit_run tb a b ax m k ind nd on inl ise t i sh p o d) as Hrun
    end.
    unfold run in Hrun. cbv zeta in Hrun. apply (f_equal fst) in Hrun. cbn [fst] in Hrun.
    rewrite Hrun. destruct (table_of op tables mode t i); discriminate.
Qed.

(** X15: the element counts are [std::size_t] products: a call whose
    orthogonal extents multiply to a multiple of [2 ^ 64] is taken for a
    call without orthogonal elements and returns the two default events
    with the queue untouched; so is a call whose index extents multiply to
    a multiple of [2 ^ 64], once every check has passed. *)
Theorem wrapped_element_counts_taken_for_zero
    op tables first py_ind second axis_start mode exec_q depends :
  (geometry_passes op exec_q first py_ind second axis_start mode ->
   list_prod (orthogonal_extents (get_shape_raw first) axis_start
                (Z.of_nat (length py_ind))) mod size_t_modulus = 0 ->
   run (orchestrate op tables first py_ind second axis_start mode exec_q depends)
   = (returned (default_event, default_event), [])) /\
  (forall t i,
     validated op exec_q first py_ind second axis_start mode t i ->
     list_prod (get_shape_raw (nth 0 py_ind null_array)) mod size_t_modulus = 0 ->
     run (orchestrate op tables first py_ind second axis_start mode exec_q depends)
     = (returned (default_event, default_event), [])).
Proof.
  pose proof (orchestrate_exits op tables first py_ind second axis_start mode exec_q depends)
    as Hex.
  remember (orchestrate op tables first py_ind second axis_start mode exec_q depends
              fresh_queue) as r eqn:Hr.
  symmetry in Hr.
  split.
  - intros Hgeo Hzero.
    assert (Horth : orthog_nelems_of first second py_ind axis_start = 0).
    { rewrite orthog_nelems_extents by (unpack; assumption).
      rewrite size_t_prod_list_prod. exact Hzero. }
    destruct Hex; try (apply run_fresh; exact Hr); absurd_exit.
  - intros t i Hval Hzero.
    assert (Hn : index_nelems py_ind = 0)
      by (unfold index_nelems; rewrite size_t_prod_list_prod; exact Hzero).
    destruct Hex; try (apply run_fresh; exact Hr); try absurd_exit.
    exfalso.
    destruct Hval as (Hbuf & Hty & _ & Hidx).
    destruct Hty as (_ & _ & Hi & _). destruct Hbuf as (((Hok & _) & _) & _).
    assert (i0 = i) as -> by (unpack; congruence).
    exact (index_arrays_pass_no_throw op exec_q first py_ind second i e Hok Hi Hidx
             ltac:(assumption)).
Qed.

End IndexList.

(** ** The exceptions of a call *)

Section Exceptions.
Context `{C : Collaborators}.

(** Splits the goal into the geometry, the compatibility of the queues of
    the two arrays and the rest, and closes the first two from the stage
    reached. *)
Ltac past_queues :=
  let Hg := fresh "Hgeo" in
  let Hq := fresh "Hqueues" in
  match goal with
  | H : before_types _ _ _ _ _ _ _ |- _ => destruct H as [(Hg & _ & Hq & _) _]
  | H : before_capacity _ _ _ _ _ _ _ |- _ => destruct H as [(Hg & _ & Hq & _) _]
  | H : validated _ _ _ _ _ _ _ _ _ |- _ => destruct H as [(Hg & _ & Hq & _) _]
  | H : buffers_pass _ _ _ _ _ _ _ |- _ => destruct H as (Hg & _ & Hq & _)
  end;
  split; [exact Hg|split; [exact Hq|]].

(** The exception of a call that throws, with the checks that passed. *)
Lemma thrown_cases op tables first py_ind second axis_start mode exec_q depends e :
  fst (run (orchestrate op tables first py_ind second axis_start mode exec_q depends))
  = thrown e ->
  (~ index_list_ok exec_q py_ind /\
   (e = value_error "Index allocation queue is not compatible with execution queue" \/
    e = value_error "Indices must have the same number of dimensions.")) \/
  (index_list_ok exec_q py_ind /\
   (e = value_error "List of indices is empty." \/
    e = value_error "Axis cannot be negative." \/
    e = value_error "Mode must be 0 or 1." \/
    e = NotWritableError \/
    e = value_error ("Axes are out of range for array of dimension " ++
                     to_string (get_ndim first)) \/
    e = value_error (rank_message op) \/
    e = value_error "Axes of basic indices are not of matching shapes.")) \/
  (geometry_passes op exec_q first py_ind second axis_start mode /\
   queues_are_compatible exec_q [first; second] = false /\
   e = value_error "Execution queue is not compatible with allocation queues") \/
  (geometry_passes op exec_q first py_ind second axis_start mode /\
   queues_are_compatible exec_q [first; second] = true /\
   (e = value_error (overlap_message op) \/
    e = UnsupportedType \/
    e = type_error "Array data types are not the same." \/
    e = value_error (index_shape_message op) \/
    e = InsufficientCapacityError \/
    e = type_error "Indices array data types are not all the same." \/
    e = value_error "Indices shapes are not all equal." \/
    e = value_error "Arrays index overlapping segments of memory" \/
    exists t i,
      validated op exec_q first py_ind second axis_start mode t i /\
      table_of op tables mode t i = None /\
      e = runtime_error ("Indices must be integer type, got " ++ to_string i))).
Proof.
  destruct (parse_py_ind exec_q py_ind fresh_queue) as [[r|e0] s'] eqn:Hp.
  2: { pose proof (parse_py_ind_loop_messages _ _ _ _ _ _ _ _ Hp) as Hmsg.
       unfold run. cbv zeta. cbn [fst].
       rewrite (orchestrate_parse_thrown op tables first py_ind second axis_start mode
                  exec_q depends e0 (f_equal fst Hp)).
       cbn [fst]. intros He. inversion He; try subst e0; try subst e. left. split; [|exact Hmsg].
       intros Hok. rewrite (parse_py_ind_ok _ _ _ Hok) in Hp. discriminate. }
  apply parse_py_ind_returned in Hp. destruct Hp as [_ Hok].
  pose proof (orchestrate_exits op tables first py_ind second axis_start mode exec_q depends)
    as Hex.
  unfold run. cbv zeta. cbn [fst].
  remember (orchestrate op tables first py_ind second axis_start mode exec_q depends
              fresh_queue) as r' eqn:Hr.
  clear Hr.
  destruct Hex; cbn [fst]; intros He; try discriminate He; try contradiction;
    inversion He; try subst e; clear He.
  - right. left. split; [exact Hok|tauto].
  - right. left. split; [exact Hok|tauto].
  - right. left. split; [exact Hok|tauto].
  - right. left. split; [exact Hok|tauto].
  - right. left. split; [exact Hok|tauto].
  - right. left. split; [exact Hok|tauto].
  - right. left. split; [exact Hok|tauto].
  - right. right. left. split; [assumption|split; [assumption|reflexivity]].
  - right. right. right. split; [assumption|split; [assumption|tauto]].
  - right. right. right. past_queues. tauto.
  - right. right. right. past_queues. tauto.
  - right. right. right. past_queues. tauto.
  - right. right. right. past_queues. tauto.
  - right. right. right. past_queues. tauto.
  - right. right. right. past_queues. tauto.
  - (* the loop over the index arrays throws *)
    right. right. right.
    match goal with H : index_arrays_throw _ _ _ _ _ _ _ |- _ => destruct H as [sh Hthrow] end.
    destruct (ind_arrays_loop _ _ _ _ _ _ _ _ _ _ _) as [o' s2] eqn:Hloop.
    cbn [fst] in Hthrow. subst o'.
    destruct Hok as [Hq Hn].
    pose proof (ind_arrays_loop_thrown_after_parse _ _ _ _ _ _ _ _ _ _ _ _ _ Hq Hn Hloop)
      as Hkind.
    past_queues. tauto.
  - (* allocation, packing and submission *)
    right. right. right.
    match goal with
    | H : fst (pack_and_submit ?tb ?a ?b ?ax ?m ?k ?ind ?nd ?on ?inl ?ise ?t ?i ?sh ?p ?o ?d
                 fresh_queue) = _ |- _ =>
        pose proof (pack_and_submit_run tb a b ax m k ind nd on inl ise t i sh p o d) as Hrun;
        unfold run in Hrun; cbv zeta in Hrun; apply (f_equal fst) in Hrun;
        cbn [fst] in Hrun; rewrite Hrun in H; rename H into Hout
    end.
    destruct (table_of op tables mode t i) eqn:Hentry; [discriminate Hout|].
    inversion Hout; try subst e.
    match goal with H : validated _ _ _ _ _ _ _ _ _ |- _ => pose proof H as Hval end.
    past_queues.
    do 8 right. exists t, i. split; [assumption|split; [exact Hentry|reflexivity]].
Qed.

(** X18: in a call on a sequence of arrays whose sum [axis_start + k]
    fits an [int], every exception is one of those of the validation, in
    which case it is thrown with the queue untouched, or the runtime error
    of a null table entry, thrown after every check has passed. *)
Theorem thrown_exceptions_catalogue op tables first py_ind second axis_start mode exec_q
    depends e tr :
  int_sum_fits py_ind axis_start ->
  run (orchestrate op tables first py_ind second axis_start mode exec_q depends)
  = (thrown e, tr) ->
  (In e (validation_exceptions op first) /\ tr = []) \/
  (exists t i,
     validated op exec_q first py_ind second axis_start mode t i /\
     table_of op tables mode t i = None /\
     e = runtime_error ("Indices must be integer type, got " ++ to_string i)).
Proof.
  intros _ Hrun.
  pose proof (thrown_cases op tables first py_ind second axis_start mode exec_q depends e
                ltac:(rewrite Hrun; reflexivity)) as Hcases.
  assert (Hkind : (forall msg, e <> runtime_error msg) -> tr = []).
  { intros Hno.
    destruct (untouched_or_validated op tables first py_ind second axis_start mode exec_q
                depends)
      as [(e' & He & _)|[Hd|(t & i & sh & ptrs & offs & _ & _ & Heq)]].
    - rewrite He in Hrun. congruence.
    - rewrite Hd in Hrun. discriminate Hrun.
    - rewrite Heq, pack_and_submit_run in Hrun.
      destruct (table_of op tables mode t i); [discriminate Hrun|].
      inversion Hrun; subst. exfalso. exact (Hno _ eq_refl). }
  assert (Hval : forall e', e = e' -> (forall msg, e' <> runtime_error msg) ->
                 In e' (validation_exceptions op first) ->
                 (In e (validation_exceptions op first) /\ tr = []) \/
                 (exists t i,
                    validated op exec_q first py_ind second axis_start mode t i /\
                    table_of op tables mode t i = None /\
                    e = runtime_error ("Indices must be integer type, got " ++
                                       to_string i))).
  { intros e' -> Hno Hin. left. split; [exact Hin|apply Hkind; exact Hno]. }
  unfold validation_exceptions in Hval. cbn [In] in Hval.
  destruct Hcases as [(_ & He)|[(_ & He)|[(_ & _ & He)|(_ & _ & He)]]].
  - destruct He as [He|He]; apply (Hval _ He); try discriminate; tauto.
  - destruct He as [He|[He|[He|[He|[He|[He|He]]]]]];
      apply (Hval _ He); try discriminate; tauto.
  - apply (Hval _ He); try discriminate; tauto.
  - destruct He as [He|[He|[He|[He|[He|[He|[He|[He|He]]]]]]]];
      try (apply (Hval _ He); try discriminate; tauto).
    right. exact He.
Qed.

(** X19: the queue error of the body of an operation is about the two
    arrays: when a call throws it, every index array is on a compatible
    queue and the indexed array or the other array is not; the same check
    repeated on each index array in the loop cannot fail. *)
Theorem queue_error_blames_the_two_arrays op tables first py_ind second axis_start mode
    exec_q depends :
  fst (run (orchestrate op tables first py_ind second axis_start mode exec_q depends))
  = thrown (value_error "Execution queue is not compatible with allocation queues") ->
  Forall (fun a => queues_are_compatible exec_q [a] = true) py_ind /\
  queues_are_compatible exec_q [first; second] = false.
Proof.
  intros Hrun.
  destruct (thrown_cases op tables first py_ind second axis_start mode exec_q depends _ Hrun)
    as [(_ & He)|[(_ & He)|[(Hgeo & Hq & _)|(_ & _ & He)]]].
  - destruct He as [He|He]; discriminate He.
  - destruct He as [He|[He|[He|[He|[He|[He|He]]]]]]; try discriminate He.
    destruct op; discriminate He.
  - split; [|exact Hq]. destruct Hgeo as ((Hok & _) & _). apply Hok.
  - destruct He as [He|[He|[He|[He|[He|[He|[He|[He|He]]]]]]]]; try discriminate He.
    + destruct op; discriminate He.
    + destruct op; discriminate He.
    + destruct He as (t & i & _ & _ & He). discriminate He.
Qed.

(** X20: a call on a sequence of arrays whose sum [axis_start + k] fits
    an [int] asks something of the queue exactly when it passes every
    check and the index arrays have elements. *)
Theorem queue_used_iff_validated op tables first py_ind second axis_start mode exec_q
    depends :
  int_sum_fits py_ind axis_start ->
  (snd (run (orchestrate op tables first py_ind second axis_start mode exec_q depends))
   <> [] <->
   exists t i,
     validated op exec_q first py_ind second axis_start mode t i /\
     index_nelems py_ind <> 0).
Proof.
  intros _. split.
  - intros Hused.
    destruct (run (orchestrate op tables first py_ind second axis_start mode exec_q depends))
      as [o tr] eqn:Hrun.
    destruct (empty_or_staging_trace _ _ _ _ _ _ _ _ _ _ _ Hrun)
      as [[Htr _]|(t & i & _ & _ & _ & Hval & Hn & _)].
    + cbn [snd] in Hused. contradiction.
    + exists t, i. split; assumption.
  - intros (t & i & Hval & Hn).
    destruct (validated_trace op tables first py_ind second axis_start mode exec_q depends
                t i Hval Hn) as (sh & _ & Htr).
    rewrite Htr. unfold staging_trace. discriminate.
Qed.

End Exceptions.

(** ** [cstring_from_string] *)

Lemma c_string_at_strncpy (l : list Ascii.ascii) :
  c_string_at (strncpy (l ++ [NUL]) (length l + 1)) = c_string_at l.
Proof.
  induction l as [|c l IH]; cbn [app length Nat.add strncpy c_string_at].
  - reflexivity.
  - destruct (Ascii.eqb c NUL) eqn:Hc.
    + cbn [repeat c_string_at]. unfold NUL at 1. reflexivity.
    + cbn [c_string_at]. rewrite Hc, IH. reflexivity.
Qed.

Lemma strncpy_no_terminator (l : list Ascii.ascii) :
  ~ In NUL l -> strncpy (l ++ [NUL]) (length l + 1) = l ++ [NUL].
Proof.
  induction l as [|c l IH]; intros Hno; cbn [app length Nat.add strncpy].
  - reflexivity.
  - destruct (Ascii.eqb c NUL) eqn:Hc.
    + apply Ascii.eqb_eq in Hc. exfalso. apply Hno. left. exact Hc.
    + rewrite IH; [reflexivity|]. intros Hin. apply Hno. right. exact Hin.
Qed.

Lemma c_string_at_no_terminator (str : string) :
  ~ In NUL (list_ascii_of_string str) -> c_string_at (list_ascii_of_string str) = str.
Proof.
  induction str as [|c str IH]; intros Hno; cbn [list_ascii_of_string c_string_at].
  - reflexivity.
  - cbn [list_ascii_of_string In] in Hno.
    destruct (Ascii.eqb c NUL) eqn:Hc.
    + apply Ascii.eqb_eq in Hc. exfalso. apply Hno. left. exact Hc.
    + rewrite IH; [reflexivity|]. intros Hin. apply Hno. right. exact Hin.
Qed.

Lemma length_list_ascii_of_string (str : string) :
  length (list_ascii_of_string str) = String.length str.
Proof. induction str as [|c str IH]; cbn; [reflexivity|rewrite IH; reflexivity]. Qed.

(** What [std::strncpy] leaves in the array: the characters before the
    first terminator of the source, and terminators up to the end. *)
Lemma strncpy_layout (l : list Ascii.ascii) :
  exists body tail rest,
    strncpy (l ++ [NUL]) (length l + 1) = body ++ NUL :: tail /\
    l ++ [NUL] = body ++ NUL :: rest /\
    ~ In NUL body /\ length tail = length rest /\ tail = repeat NUL (length tail).
Proof.
  induction l as [|c l (body & tail & rest & Hcopy & Hsrc & Hno & Hlen & Hpad)];
    cbn [app length Nat.add strncpy].
  - exists [], [], []. repeat split; intros [].
  - destruct (Ascii.eqb c NUL) eqn:Hc.
    + apply Ascii.eqb_eq in Hc. subst c.
      exists [], (repeat NUL (length l + 1)), (l ++ [NUL]).
      rewrite repeat_length, length_app. cbn [app length repeat].
      repeat split; intros [].
    + exists (c :: body), tail, rest. cbn [app]. rewrite Hcopy, Hsrc.
      repeat split; try assumption.
      intros [Hin|Hin]; [|exact (Hno Hin)].
      apply Ascii.eqb_neq in Hc. congruence.
Qed.

Section CString.
Context `{P : Platform}.

Lemma c_string_at_strncpy_s (l : list Ascii.ascii) :
  c_string_at (strncpy_s (l ++ [NUL]) (length l + 1)) = c_string_at l.
Proof.
  induction l as [|c l IH]; cbn [app length Nat.add strncpy_s c_string_at].
  - reflexivity.
  - destruct (Ascii.eqb c NUL) eqn:Hc.
    + cbn [c_string_at]. unfold NUL at 1. reflexivity.
    + cbn [c_string_at]. rewrite Hc, IH. reflexivity.
Qed.

Lemma strncpy_s_no_terminator (l : list Ascii.ascii) :
  ~ In NUL l -> strncpy_s (l ++ [NUL]) (length l + 1) = l ++ [NUL].
Proof.
  induction l as [|c l IH]; intros Hno; cbn [app length Nat.add strncpy_s].
  - reflexivity.
  - destruct (Ascii.eqb c NUL) eqn:Hc.
    + apply Ascii.eqb_eq in Hc. exfalso. apply Hno. left. exact Hc.
    + rewrite IH; [reflexivity|]. intros Hin. apply Hno. right. exact Hin.
Qed.

(** What [strncpy_s] leaves in the array: the characters before the first
    terminator of the source, the terminator, and as many characters as
    the source has after it. *)
Lemma strncpy_s_layout (l : list Ascii.ascii) :
  exists body tail rest,
    strncpy_s (l ++ [NUL]) (length l + 1) = body ++ NUL :: tail /\
    l ++ [NUL] = body ++ NUL :: rest /\
    ~ In NUL body /\ length tail = length rest.
Proof.
  induction l as [|c l (body & tail & rest & Hcopy & Hsrc & Hno & Hlen)];
    cbn [app length Nat.add strncpy_s].
  - exists [], [], []. repeat split; intros [].
  - destruct (Ascii.eqb c NUL) eqn:Hc.
    + apply Ascii.eqb_eq in Hc. subst c.
      exists [], (map unspecified (seq 0 (length l + 1))), (l ++ [NUL]).
      rewrite length_map, length_seq, length_app. cbn [app length].
      repeat split; intros [].
    + exists (c :: body), tail, rest. cbn [app]. rewrite Hcopy, Hsrc.
      repeat split; try assumption.
      intros [Hin|Hin]; [|exact (Hno Hin)].
      apply Ascii.eqb_neq in Hc. congruence.
Qed.

(** A source without a character 0 is cut at its own terminator. *)
Lemma cut_at_own_terminator (l body rest : list Ascii.ascii) :
  ~ In NUL l -> l ++ [NUL] = body ++ NUL :: rest -> rest = [].
Proof.
  revert body. induction l as [|c l IH]; intros body Hno Heq.
  - destruct body as [|b body]; cbn [app] in Heq.
    + inversion Heq. reflexivity.
    + inversion Heq as [[Hb Hnil]]. destruct body; discriminate Hnil.
  - destruct body as [|b body]; cbn [app] in Heq.
    + inversion Heq as [[Hc Hl]]. exfalso. apply Hno. left. exact Hc.
    + inversion Heq as [[Hc Hl]]. apply (IH body); [|exact Hl].
      intros Hin. apply Hno. right. exact Hin.
Qed.

(** X16: [cstring_from_string] returns the null pointer exactly when the
    allocation fails, after writing the message of the exception and a
    newline to [std::cerr]; otherwise it writes nothing and returns an
    array of [str.length() + 1] characters: the characters of [str] before
    its first character 0 (all of [str] when it holds none), a terminator,
    and as many characters as [str] has from its first character 0 on.
    These last are terminators where [_WIN32] is not defined
    ([std::strncpy] pads), and are left unspecified by [strncpy_s] where it
    is; for a [str] without a character 0 there are none, and the array
    ends with the terminator on both platforms. *)
Theorem cstring_from_string_terminated (new_char_array : nat -> new_result) (str : string) :
  (forall what,
     new_char_array (String.length str + 1)%nat = bad_alloc what ->
     cstring_from_string new_char_array str =
     (None, [what; String (Ascii.ascii_of_nat 10) EmptyString])) /\
  (new_char_array (String.length str + 1)%nat = allocated ->
   exists body tail rest,
     cstring_from_string new_char_array str = (Some (body ++ NUL :: tail), []) /\
     c_str str = body ++ NUL :: rest /\
     ~ In NUL body /\
     length tail = length rest /\
     length (body ++ NUL :: tail) = (String.length str + 1)%nat /\
     (_WIN32 = false -> tail = repeat NUL (length tail)) /\
     (~ In NUL (list_ascii_of_string str) -> tail = [])) /\
  (fst (cstring_from_string new_char_array str) = None <->
   exists what, new_char_array (String.length str + 1)%nat = bad_alloc what).
Proof.
  unfold cstring_from_string. cbv zeta. split; [|split].
  - intros what ->. reflexivity.
  - intros ->. unfold c_str.
    assert (Hsplit : exists body tail rest,
              (if _WIN32
               then strncpy_s (list_ascii_of_string str ++ [NUL]) (String.length str + 1)
               else strncpy (list_ascii_of_string str ++ [NUL]) (String.length str + 1))
              = body ++ NUL :: tail /\
              list_ascii_of_string str ++ [NUL] = body ++ NUL :: rest /\
              ~ In NUL body /\ length tail = length rest /\
              (_WIN32 = false -> tail = repeat NUL (length tail))).
    { rewrite <- length_list_ascii_of_string. destruct _WIN32.
      - destruct (strncpy_s_layout (list_ascii_of_string str))
          as (body & tail & rest & Hcopy & Hsrc & Hno & Hlen).
        exists body, tail, rest. repeat split; try assumption. discriminate.
      - destruct (strncpy_layout (list_ascii_of_string str))
          as (body & tail & rest & Hcopy & Hsrc & Hno & Hlen & Hpad).
        exists body, tail, rest. repeat split; try assumption. intros _. exact Hpad. }
    destruct Hsplit as (body & tail & rest & Hcopy & Hsrc & Hno & Hlen & Hpad).
    exists body, tail, rest. rewrite Hcopy.
    split; [reflexivity|]. split; [exact Hsrc|]. split; [exact Hno|].
    split; [exact Hlen|]. split; [|split; [exact Hpad|]].
    + apply (f_equal (@length Ascii.ascii)) in Hsrc.
      rewrite !length_app in Hsrc. cbn [length] in Hsrc.
      rewrite length_list_ascii_of_string in Hsrc.
      rewrite length_app. cbn [length]. lia.
    + intros Hclean.
      pose proof (cut_at_own_terminator _ _ _ Hclean Hsrc) as Hrest. subst rest.
      destruct tail; [reflexivity|discriminate Hlen].
  - destruct (new_char_array (String.length str + 1)%nat) as [|what]; cbn [fst]; split.
    + discriminate.
    + intros [what Hw]. discriminate Hw.
    + intros _. exists what. reflexivity.
    + reflexivity.
Qed.

(** X17: the C string found in the array returned is [str] up to its
    first character 0: it is [str] itself, followed by the terminator,
    when [str] holds no character 0, and a string cut short otherwise. *)
Theorem cstring_from_string_round_trip (new_char_array : nat -> new_result) (str : string)
    (buf : list Ascii.ascii) :
  fst (cstring_from_string new_char_array str) = Some buf ->
  c_string_at buf = c_string_at (list_ascii_of_string str) /\
  (~ In NUL (list_ascii_of_string str) -> buf = c_str str /\ c_string_at buf = str) /\
  (In NUL (list_ascii_of_string str) ->
   (String.length (c_string_at buf) < String.length str)%nat).
Proof.
  unfold cstring_from_string. cbv zeta.
  destruct (new_char_array (String.length str + 1)%nat) as [|what]; cbn [fst];
    [|discriminate].
  intros Hbuf. inversion Hbuf as [Hb]. clear Hbuf.
  assert (Hread : c_string_at
                    (if _WIN32 then strncpy_s (c_str str) (String.length str + 1)
                     else strncpy (c_str str) (String.length str + 1)) =
                  c_string_at (list_ascii_of_string str)).
  { unfold c_str. rewrite <- length_list_ascii_of_string.
    destruct _WIN32; [apply c_string_at_strncpy_s|apply c_string_at_strncpy]. }
  split; [exact Hread|split].
  - intros Hno. split.
    + unfold c_str. rewrite <- length_list_ascii_of_string.
      destruct _WIN32;
        [apply strncpy_s_no_terminator|apply strncpy_no_terminator]; exact Hno.
    + rewrite Hread. apply c_string_at_no_terminator. exact Hno.
  - intros Hin. rewrite Hread. clear Hread Hb buf.
    induction str as [|c str IH]; cbn [list_ascii_of_string c_string_at In] in *.
    + contradiction.
    + destruct (Ascii.eqb c NUL) eqn:Hc; cbn [String.length]; [lia|].
      destruct Hin as [Hin|Hin].
      * apply Ascii.eqb_neq in Hc. congruence.
      * specialize (IH Hin). lia.
Qed.

End CString.

(** ** Deciding completion orders *)

Lemma runs_beforeb_sound (sched : list nat) (d e : nat) :
  runs_beforeb sched d e = true -> runs_before sched d e.
Proof.
  induction sched as [|x rest IH]; cbn [runs_beforeb]; [discriminate|].
  intros H. apply orb_true_iff in H. destruct H as [H|H].
  - apply andb_true_iff in H. destruct H as [Hx He].
    apply Nat.eqb_eq in Hx. subst x.
    apply existsb_exists in He. destruct He as (e' & Hin & Heq).
    apply Nat.eqb_eq in Heq. subst e'.
    apply in_split in Hin. destruct Hin as (l2 & l3 & ->).
    exists [], l2, l3. reflexivity.
  - destruct (IH H) as (l1 & l2 & l3 & ->).
    exists (x :: l1), l2, l3. reflexivity.
Qed.

Lemma respects_dependenciesb_sound (tr : list action) (sched : list nat) :
  respects_dependenciesb tr sched = true -> respects_dependencies tr sched.
Proof.
  unfold respects_dependenciesb, respects_dependencies.
  rewrite forallb_forall. intros H a ev deps d Hin Htask Hd Hev.
  specialize (H a Hin). rewrite Htask in H.
  apply orb_true_iff in H. destruct H as [H|H].
  - apply negb_true_iff in H.
    assert (Ht : existsb (Nat.eqb ev) sched = true)
      by (apply existsb_exists; exists ev; split; [exact Hev|apply Nat.eqb_refl]).
    congruence.
  - rewrite forallb_forall in H. specialize (H _ Hd).
    apply runs_beforeb_sound. exact H.
Qed.

(** ** The further theorems at work on the sample arrays *)

Lemma staging_copies_fill_allocations_witness :
  In (smart_malloc_device 6 3)
    (snd (run (@usm_ndarray_take sample_collaborators sample_tables cube_src
                 [strided_ind] cube_dst 1 0 1 []))).
Proof.
  apply (@staging_copies_fill_allocations sample_collaborators Take sample_tables cube_src
           [strided_ind] cube_dst 1 0 1 []
           (returned (submitted_event 8, submitted_event 6)) _ [2; 4; 12; 1; 20; 1]
           3%nat 3%nat).
  - vm_compute. reflexivity.
  - vm_compute. tauto.
Defined.

Lemma index_pointers_staged_witness :
  staged_for
    (snd (run (@usm_ndarray_take sample_collaborators sample_tables sample_src
                 [sample_ind; second_ind] line_dst 0 0 1 [])))
    [2000; 2600] ka_packed_ind_ptrs /\
  staged_for
    (snd (run (@usm_ndarray_take sample_collaborators sample_tables sample_src
                 [sample_ind; second_ind] line_dst 0 0 1 [])))
    [0; 0] ka_packed_ind_offsets.
Proof.
  apply (@index_pointers_staged sample_collaborators Take sample_tables sample_src
           [sample_ind; second_ind] line_dst 0 0 1 [] 9 7
           (returned (submitted_event 8, submitted_event 6))).
  - decide_stage.
  - vm_compute. discriminate.
  - vm_compute. reflexivity.
Defined.

Lemma index_shapes_strides_staged_witness :
  staged_for
    (snd (run (@usm_ndarray_take sample_collaborators sample_tables cube_src
                 [strided_ind] cube_dst 1 0 1 [])))
    [5; 2] ka_packed_ind_shapes_strides.
Proof.
  apply (@index_shapes_strides_staged sample_collaborators Take sample_tables cube_src
           [strided_ind] cube_dst 1 0 1 [] 9 7
           (returned (submitted_event 8, submitted_event 6))).
  - decide_stage.
  - vm_compute. discriminate.
  - repeat constructor.
  - vm_compute. reflexivity.
Defined.

Lemma orthogonal_shapes_strides_staged_witness :
  staged_for
    (snd (run (@usm_ndarray_take sample_collaborators sample_tables cube_src
                 [strided_ind] cube_dst 1 0 1 [])))
    [2; 4; 12; 1; 20; 1] ka_packed_shapes_strides.
Proof.
  apply (@orthogonal_shapes_strides_staged sample_collaborators Take sample_tables cube_src
           [strided_ind] cube_dst 1 0 1 [] 9 7
           (returned (submitted_event 8, submitted_event 6))).
  - decide_stage.
  - vm_compute. discriminate.
  - reflexivity.
  - reflexivity.
  - vm_compute. reflexivity.
Defined.

Lemma axes_shapes_strides_staged_witness :
  staged_for
    (snd (run (@usm_ndarray_put sample_collaborators sample_tables cube_src
                 [strided_ind] cube_dst 1 0 1 [])))
    [3; 4; 5; 4] ka_packed_axes_shapes_strides.
Proof.
  apply (@axes_shapes_strides_staged sample_collaborators Put sample_tables cube_src
           [strided_ind] cube_dst 1 0 1 [] 9 7
           (returned (submitted_event 8, submitted_event 6))).
  - decide_stage.
  - vm_compute. discriminate.
  - reflexivity.
  - reflexivity.
  - vm_compute. reflexivity.
Defined.


Lemma routine_waits_for_staging_and_dependencies_witness :
  runs_before [40; 0; 1; 2; 3; 4; 5; 6; 7; 8]%nat 3 6 /\
  runs_before [40; 0; 1; 2; 3; 4; 5; 6; 7; 8]%nat 40 6.
Proof.
  destruct (@routine_waits_for_staging_and_dependencies sample_collaborators Take
              sample_tables cube_src [strided_ind] cube_dst 1 0 1 [submitted_event 40]
              (returned (submitted_event 8, submitted_event 6)) _ 11%nat
              (mk_kernel_args 8 5 2 1 1 3 4 1 1000 3000 0 0 0 2)
              (pack_deps_events ++ [submitted_event 40]) 6%nat
              [40; 0; 1; 2; 3; 4; 5; 6; 7; 8]%nat
              ltac:(vm_compute; reflexivity)
              ltac:(vm_compute; tauto)
              ltac:(apply respects_dependenciesb_sound; vm_compute; reflexivity)
              ltac:(vm_compute; tauto))
    as [Hcopies Hdeps].
  split.
  - apply (Hcopies [2; 4; 12; 1; 20; 1] 3%nat 3%nat). vm_compute. tauto.
  - apply (Hdeps 40%nat). left. reflexivity.
Defined.

Lemma host_task_event_completes_last_witness :
  runs_before [0; 1; 2; 3; 4; 6; 5; 7; 8]%nat 6 8 /\
  runs_before [0; 1; 2; 3; 4; 6; 5; 7; 8]%nat 4 8.
Proof.
  destruct (@host_task_event_completes_last sample_collaborators Take
              sample_tables cube_src [strided_ind] cube_dst 1 0 1 [] _ 8%nat 6%nat
              [0; 1; 2; 3; 4; 6; 5; 7; 8]%nat
              ltac:(vm_compute; reflexivity)
              ltac:(repeat constructor; cbn; lia)
              ltac:(apply respects_dependenciesb_sound; vm_compute; reflexivity)
              ltac:(vm_compute; tauto))
    as [Hcompute Hcopies].
  split.
  - exact Hcompute.
  - apply (Hcopies [3; 4; 5; 4] 4%nat 4%nat). vm_compute. tauto.
Defined.

Lemma initialised_tables_dispatch_to_factories_witness :
  (exists args deps,
     In (kernel_submit 12%nat args deps 6%nat)
       (snd (run (@usm_ndarray_put sample_collaborators
                    (@init_advanced_indexing_dispatch_tables sample_collaborators
                       (mk_dispatch_tables (fun _ _ _ => Some 99%nat)
                          (fun _ _ _ => Some 99%nat)))
                    cube_src [strided_ind] cube_dst 1 1 1 [])))) /\
  fst (run (@usm_ndarray_take sample_collaborators
              (@init_advanced_indexing_dispatch_tables sample_collaborators
                 (mk_dispatch_tables (fun _ _ _ => Some 99%nat)
                    (fun _ _ _ => Some 99%nat)))
              sample_src [float_ind] sample_dst 1 0 1 []))
  = thrown (runtime_error "Indices must be integer type, got 10").
Proof.
  split.
  - apply (@initialised_tables_dispatch_to_factories sample_collaborators Put
             (mk_dispatch_tables (fun _ _ _ => Some 99%nat) (fun _ _ _ => Some 99%nat))
             cube_src [strided_ind] cube_dst 1 1 1 [] 9 7
             (returned (submitted_event 8, submitted_event 6)) _
             ltac:(decide_stage) ltac:(vm_compute; discriminate)
             ltac:(vm_compute; reflexivity)).
  - apply (@initialised_tables_dispatch_to_factories sample_collaborators Take
             (mk_dispatch_tables (fun _ _ _ => Some 99%nat) (fun _ _ _ => Some 99%nat))
             sample_src [float_ind] sample_dst 1 0 1 [] 9 10 _ _
             ltac:(decide_stage) ltac:(vm_compute; discriminate)
             ltac:(vm_compute; reflexivity)).
Defined.


Lemma shape_reads_within_bounds_witness :
  orthog_loop_checked (get_shape_raw cube_src) (get_shape_raw cube_dst) 1 1 1 3
  = Some (8, true) /\
  fst (ind_shape_loop_checked (get_shape_raw strided_ind) (get_shape_raw cube_dst) 1
         cast_error (int_range 1) 1 fresh_queue) = returned (Some 5).
Proof.
  destruct (@shape_reads_within_bounds cube_src cube_dst [strided_ind] 1
              ltac:(lia) ltac:(discriminate) ltac:(vm_compute; discriminate)
              ltac:(reflexivity) ltac:(reflexivity)) as [Horth Hind].
  split.
  - exact Horth.
  - etransitivity; [exact (f_equal fst (Hind cast_error fresh_queue))|reflexivity].
Defined.

Lemma parse_py_ind_accepts_iff_witness :
  @PySequence.parse_py_ind sample_collaborators 1
    [py_usm_ndarray sample_ind; py_usm_ndarray second_ind] fresh_queue =
  (returned [sample_ind; second_ind], fresh_queue) /\
  @PySequence.parse_py_ind sample_collaborators 1
    [py_usm_ndarray sample_ind; py_other; py_usm_ndarray remote_ind] fresh_queue =
  (thrown cast_error, fresh_queue).
Proof.
  split.
  - apply (proj2 (proj1 (@parse_py_ind_accepts_iff sample_collaborators 1
                           [py_usm_ndarray sample_ind; py_usm_ndarray second_ind]
                           fresh_queue) [sample_ind; second_ind] fresh_queue)).
    split; [reflexivity|split; [|reflexivity]].
    split; repeat constructor.
  - apply (proj1 (proj2 (proj2 (@parse_py_ind_accepts_iff sample_collaborators 1
                                  [py_usm_ndarray sample_ind; py_other;
                                   py_usm_ndarray remote_ind] fresh_queue)))
             [sample_ind] [py_usm_ndarray remote_ind]).
    + reflexivity.
    + split; repeat constructor.
Defined.

Lemma parse_py_ind_first_offender_witness :
  @parse_py_ind sample_collaborators 1 [sample_ind; remote_ind; matrix_ind] fresh_queue =
  (thrown (value_error "Index allocation queue is not compatible with execution queue"),
   fresh_queue) /\
  @parse_py_ind sample_collaborators 1 [sample_ind; matrix_ind; remote_ind] fresh_queue =
  (thrown (value_error "Indices must have the same number of dimensions."), fresh_queue).
Proof.
  split.
  - apply (proj1 (@parse_py_ind_first_offender sample_collaborators 1 [sample_ind]
                    remote_ind [matrix_ind] fresh_queue
                    ltac:(repeat constructor) ltac:(repeat constructor))).
    reflexivity.
  - apply (proj2 (@parse_py_ind_first_offender sample_collaborators 1 [sample_ind]
                    matrix_ind [remote_ind] fresh_queue
                    ltac:(repeat constructor) ltac:(repeat constructor))).
    + reflexivity.
    + discriminate.
    + vm_compute. discriminate.
Defined.

Lemma wrapped_element_counts_taken_for_zero_witness :
  list_prod (orthogonal_extents (get_shape_raw huge_src) 2 1) <> 0 /\
  run (@usm_ndarray_take sample_collaborators sample_tables huge_src [sample_ind]
         huge_dst 2 0 1 [])
  = (returned (default_event, default_event), []) /\
  list_prod (get_shape_raw huge_ind) <> 0 /\
  run (@usm_ndarray_take sample_collaborators sample_tables
         (mk_usm_ndarray 1000 9 [5] [1] true 1) [huge_ind] huge_line 0 0 1 [])
  = (returned (default_event, default_event), []).
Proof.
  split; [vm_compute; discriminate|split; [|split; [vm_compute; discriminate|]]].
  - apply (proj1 (@wrapped_element_counts_taken_for_zero sample_collaborators Take
                    sample_tables huge_src [sample_ind] huge_dst 2 0 1 []));
      [decide_stage|vm_compute; reflexivity].
  - apply (proj2 (@wrapped_element_counts_taken_for_zero sample_collaborators Take
                    sample_tables (mk_usm_ndarray 1000 9 [5] [1] true 1) [huge_ind]
                    huge_line 0 0 1 []) 9 7);
      [decide_stage|vm_compute; reflexivity].
Defined.

Lemma cstring_from_string_terminated_witness :
  @cstring_from_string windows_platform
    (fun n => if (n <=? 8)%nat then allocated else bad_alloc "std::bad_alloc")
    "a longer name" =
  (None, ["std::bad_alloc"%string; String (Ascii.ascii_of_nat 10) EmptyString]) /\
  (exists body tail,
     @cstring_from_string windows_platform (fun _ => allocated) cut_name
     = (Some (body ++ NUL :: tail), []) /\
     ~ In NUL body /\ length (body ++ NUL :: tail) = 5%nat) /\
  exists body tail,
    @cstring_from_string posix_platform (fun _ => allocated) cut_name
    = (Some (body ++ NUL :: tail), []) /\
    tail = repeat NUL (length tail).
Proof.
  split; [|split].
  - apply (proj1 (@cstring_from_string_terminated windows_platform
                    (fun n => if (n <=? 8)%nat then allocated else bad_alloc "std::bad_alloc")
                    "a longer name")).
    reflexivity.
  - destruct (proj1 (proj2 (@cstring_from_string_terminated windows_platform
                              (fun _ => allocated) cut_name)) eq_refl)
      as (body & tail & rest & Hcopy & _ & Hno & _ & Hlen & _).
    exists body, tail. split; [exact Hcopy|split; [exact Hno|exact Hlen]].
  - destruct (proj1 (proj2 (@cstring_from_string_terminated posix_platform
                              (fun _ => allocated) cut_name)) eq_refl)
      as (body & tail & rest & Hcopy & _ & _ & _ & _ & Hpad & _).
    exists body, tail. split; [exact Hcopy|exact (Hpad eq_refl)].
Defined.

Lemma cstring_from_string_round_trip_witness :
  c_string_at (strncpy (c_str "gpu") 4) = "gpu"%string /\
  (String.length (c_string_at (strncpy (c_str cut_name) 5)) < 4)%nat.
Proof.
  split.
  - apply (proj1 (proj2 (@cstring_from_string_round_trip posix_platform
                           (fun _ => allocated) "gpu"
                           (strncpy (c_str "gpu") 4) eq_refl))).
    vm_compute. intros [H|[H|[H|[]]]]; discriminate H.
  - apply (proj2 (proj2 (@cstring_from_string_round_trip posix_platform
                           (fun _ => allocated) cut_name
                           (strncpy (c_str cut_name) 5) eq_refl))).
    vm_compute. tauto.
Defined.

Lemma thrown_exceptions_catalogue_witness :
  In (type_error "Indices array data types are not all the same.")
    (validation_exceptions Take sample_src) /\
  (exists t i,
     table_of Take sample_tables 0 t i = None /\
     runtime_error "Indices must be integer type, got 10"
     = runtime_error ("Indices must be integer type, got " ++ to_string i)).
Proof.
  split.
  - destruct (@thrown_exceptions_catalogue sample_collaborators Take sample_tables
                sample_src [sample_ind; short_ind] line_dst 0 0 1 []
                (type_error "Indices array data types are not all the same.") []
                ltac:(vm_compute; discriminate) ltac:(vm_compute; reflexivity))
      as [[Hin _]|(t & i & _ & _ & He)]; [exact Hin|discriminate He].
  - destruct (@thrown_exceptions_catalogue sample_collaborators Take sample_tables
                sample_src [float_ind] sample_dst 1 0 1 []
                (runtime_error "Indices must be integer type, got 10") _
                ltac:(vm_compute; discriminate) ltac:(vm_compute; reflexivity))
      as [[_ Htr]|(t & i & _ & Hnone & He)]; [discriminate Htr|].
    exists t, i. split; assumption.
Defined.

Lemma queue_error_blames_the_two_arrays_witness :
  @queues_are_compatible sample_collaborators 1
    [sample_src; mk_usm_ndarray 3000 9 [4; 3] [3; 1] true 2] = false.
Proof.
  apply (@queue_error_blames_the_two_arrays sample_collaborators Take sample_tables
           sample_src [sample_ind] (mk_usm_ndarray 3000 9 [4; 3] [3; 1] true 2) 1 0 1 []).
  vm_compute. reflexivity.
Defined.

Lemma queue_used_iff_validated_witness :
  snd (run (@usm_ndarray_put sample_collaborators sample_tables cube_src [strided_ind]
              cube_dst 1 0 1 [])) <> [] /\
  exists t i,
    @validated sample_collaborators Take 1 sample_src [sample_ind] sample_dst 1 0 t i /\
    index_nelems [sample_ind] <> 0.
Proof.
  split.
  - apply (proj2 (@queue_used_iff_validated sample_collaborators Put sample_tables cube_src
                    [strided_ind] cube_dst 1 0 1 [] ltac:(vm_compute; discriminate))).
    exists 9, 7. split; [decide_stage|vm_compute; discriminate].
  - apply (proj1 (@queue_used_iff_validated sample_collaborators Take sample_tables
                    sample_src [sample_ind] sample_dst 1 0 1 []
                    ltac:(vm_compute; discriminate))).
    vm_compute. discriminate.
Defined.
